(** * Guided Component Architect: the validation and retry loop

    A shallow embedding of [src/validator.py], [src/generator.py] and
    [src/main.py], and the properties of the retry/validation feedback loop.

    Conventions of the embedding.
    - A Python [str] is the list of its Unicode code points ([pystr]).  String
      constants of the source are written as Rocq strings and decoded from
      UTF-8 by [py].
    - [str.lower] follows CPython ([do_lower] of [unicodeobject.c]) with the
      case tables of Unicode 14.0.0.
    - [json.loads] follows the decoder of the Python standard library
      ([json.decoder], [json.scanner]); resource limits of the interpreter
      (recursion depth, the digit limit of [int]) are not modelled.
    - A Python exception is a value of [exn]; code that can raise returns a
      [result]. *)

From Stdlib Require Import Ascii String.
From Stdlib Require Import List NArith ZArith Bool Lia Arith.
From Stdlib Require DecimalString.
Import ListNotations.

Set Implicit Arguments.

(* ------------------------------------------------------------------ *)
(** ** Python strings *)

Module Str.

Definition pystr := list N.

(** Decoding of a UTF-8 byte sequence (the source files are UTF-8). *)
Fixpoint utf8_decode (bs : list N) : pystr :=
  match bs with
  | [] => []
  | b0 :: r0 =>
    if (b0 <? 128)%N then b0 :: utf8_decode r0
    else match r0 with
    | [] => [b0]
    | b1 :: r1 =>
      if (b0 <? 224)%N then
        ((b0 - 192) * 64 + (b1 - 128))%N :: utf8_decode r1
      else match r1 with
      | [] => [b0; b1]
      | b2 :: r2 =>
        if (b0 <? 240)%N then
          ((b0 - 224) * 4096 + (b1 - 128) * 64 + (b2 - 128))%N :: utf8_decode r2
        else match r2 with
        | [] => [b0; b1; b2]
        | b3 :: r3 =>
          ((b0 - 240) * 262144 + (b1 - 128) * 4096 + (b2 - 128) * 64
           + (b3 - 128))%N :: utf8_decode r3
        end
      end
    end
  end.

Definition py (s : string) : pystr :=
  utf8_decode (map N_of_ascii (list_ascii_of_string s)).

Definition chr (c : ascii) : N := N_of_ascii c.

Fixpoint eqb (a b : pystr) : bool :=
  match a, b with
  | [], [] => true
  | x :: a', y :: b' => (x =? y)%N && eqb a' b'
  | _, _ => false
  end.

(** [s.startswith(p)] *)
Fixpoint startswith (p s : pystr) : bool :=
  match p, s with
  | [], _ => true
  | x :: p', y :: s' => (x =? y)%N && startswith p' s'
  | _ :: _, [] => false
  end.

(** [sub in s] *)
Fixpoint contains (sub s : pystr) : bool :=
  startswith sub s ||
  match s with
  | [] => false
  | _ :: s' => contains sub s'
  end.

(** [s.count(sub)]: occurrences that do not overlap, from the left.
    [skip] is the number of characters of the last occurrence still to be
    passed over. *)
Fixpoint count_from (skip : nat) (sub s : pystr) : nat :=
  match s with
  | [] => 0
  | _ :: s' =>
    match skip with
    | S k => count_from k sub s'
    | O => if startswith sub s
           then S (count_from (Nat.pred (length sub)) sub s')
           else count_from 0 sub s'
    end
  end.

Definition count (sub s : pystr) : nat :=
  match sub with
  | [] => S (length s)
  | _ => count_from 0 sub s
  end.

(** *** [str.lower]

    The case data of the Unicode Character Database, version 14.0.0, as
    CPython 3.11 holds them.  [LOWER_RUNS] lists the simple lower-case
    mappings: an entry [(lo, hi, stride, tlo)] maps every code point
    [lo + k * stride] up to [hi] to [tlo + k * stride].  [CASED] and
    [CASE_IGNORABLE] list the code points with these properties as ranges.
    All three are sorted. *)

Definition LOWER_RUNS : list (N * N * N * N) :=
  [
   (65, 90, 1, 97); (192, 214, 1, 224); (216, 222, 1, 248);
   (256, 302, 2, 257); (306, 310, 2, 307); (313, 327, 2, 314);
   (330, 374, 2, 331); (376, 376, 1, 255); (377, 381, 2, 378);
   (385, 385, 1, 595); (386, 388, 2, 387); (390, 390, 1, 596);
   (391, 391, 1, 392); (393, 394, 1, 598); (395, 395, 1, 396);
   (398, 398, 1, 477); (399, 399, 1, 601); (400, 400, 1, 603);
   (401, 401, 1, 402); (403, 403, 1, 608); (404, 404, 1, 611);
   (406, 406, 1, 617); (407, 407, 1, 616); (408, 408, 1, 409);
   (412, 412, 1, 623); (413, 413, 1, 626); (415, 415, 1, 629);
   (416, 420, 2, 417); (422, 422, 1, 640); (423, 423, 1, 424);
   (425, 425, 1, 643); (428, 428, 1, 429); (430, 430, 1, 648);
   (431, 431, 1, 432); (433, 434, 1, 650); (435, 437, 2, 436);
   (439, 439, 1, 658); (440, 440, 1, 441); (444, 444, 1, 445);
   (452, 452, 1, 454); (453, 453, 1, 454); (455, 455, 1, 457);
   (456, 456, 1, 457); (458, 458, 1, 460); (459, 475, 2, 460);
   (478, 494, 2, 479); (497, 497, 1, 499); (498, 500, 2, 499);
   (502, 502, 1, 405); (503, 503, 1, 447); (504, 542, 2, 505);
   (544, 544, 1, 414); (546, 562, 2, 547); (570, 570, 1, 11365);
   (571, 571, 1, 572); (573, 573, 1, 410); (574, 574, 1, 11366);
   (577, 577, 1, 578); (579, 579, 1, 384); (580, 580, 1, 649);
   (581, 581, 1, 652); (582, 590, 2, 583); (880, 882, 2, 881);
   (886, 886, 1, 887); (895, 895, 1, 1011); (902, 902, 1, 940);
   (904, 906, 1, 941); (908, 908, 1, 972); (910, 911, 1, 973);
   (913, 929, 1, 945); (932, 939, 1, 964); (975, 975, 1, 983);
   (984, 1006, 2, 985); (1012, 1012, 1, 952); (1015, 1015, 1, 1016);
   (1017, 1017, 1, 1010); (1018, 1018, 1, 1019); (1021, 1023, 1, 891);
   (1024, 1039, 1, 1104); (1040, 1071, 1, 1072); (1120, 1152, 2, 1121);
   (1162, 1214, 2, 1163); (1216, 1216, 1, 1231); (1217, 1229, 2, 1218);
   (1232, 1326, 2, 1233); (1329, 1366, 1, 1377); (4256, 4293, 1, 11520);
   (4295, 4295, 1, 11559); (4301, 4301, 1, 11565); (5024, 5103, 1, 43888);
   (5104, 5109, 1, 5112); (7312, 7354, 1, 4304); (7357, 7359, 1, 4349);
   (7680, 7828, 2, 7681); (7838, 7838, 1, 223); (7840, 7934, 2, 7841);
   (7944, 7951, 1, 7936); (7960, 7965, 1, 7952); (7976, 7983, 1, 7968);
   (7992, 7999, 1, 7984); (8008, 8013, 1, 8000); (8025, 8031, 2, 8017);
   (8040, 8047, 1, 8032); (8072, 8079, 1, 8064); (8088, 8095, 1, 8080);
   (8104, 8111, 1, 8096); (8120, 8121, 1, 8112); (8122, 8123, 1, 8048);
   (8124, 8124, 1, 8115); (8136, 8139, 1, 8050); (8140, 8140, 1, 8131);
   (8152, 8153, 1, 8144); (8154, 8155, 1, 8054); (8168, 8169, 1, 8160);
   (8170, 8171, 1, 8058); (8172, 8172, 1, 8165); (8184, 8185, 1, 8056);
   (8186, 8187, 1, 8060); (8188, 8188, 1, 8179); (8486, 8486, 1, 969);
   (8490, 8490, 1, 107); (8491, 8491, 1, 229); (8498, 8498, 1, 8526);
   (8544, 8559, 1, 8560); (8579, 8579, 1, 8580); (9398, 9423, 1, 9424);
   (11264, 11311, 1, 11312); (11360, 11360, 1, 11361); (11362, 11362, 1, 619);
   (11363, 11363, 1, 7549); (11364, 11364, 1, 637); (11367, 11371, 2, 11368);
   (11373, 11373, 1, 593); (11374, 11374, 1, 625); (11375, 11375, 1, 592);
   (11376, 11376, 1, 594); (11378, 11378, 1, 11379); (11381, 11381, 1, 11382);
   (11390, 11391, 1, 575); (11392, 11490, 2, 11393); (11499, 11501, 2, 11500);
   (11506, 11506, 1, 11507); (42560, 42604, 2, 42561); (42624, 42650, 2, 42625);
   (42786, 42798, 2, 42787); (42802, 42862, 2, 42803); (42873, 42875, 2, 42874);
   (42877, 42877, 1, 7545); (42878, 42886, 2, 42879); (42891, 42891, 1, 42892);
   (42893, 42893, 1, 613); (42896, 42898, 2, 42897); (42902, 42920, 2, 42903);
   (42922, 42922, 1, 614); (42923, 42923, 1, 604); (42924, 42924, 1, 609);
   (42925, 42925, 1, 620); (42926, 42926, 1, 618); (42928, 42928, 1, 670);
   (42929, 42929, 1, 647); (42930, 42930, 1, 669); (42931, 42931, 1, 43859);
   (42932, 42946, 2, 42933); (42948, 42948, 1, 42900); (42949, 42949, 1, 642);
   (42950, 42950, 1, 7566); (42951, 42953, 2, 42952); (42960, 42960, 1, 42961);
   (42966, 42968, 2, 42967); (42997, 42997, 1, 42998); (65313, 65338, 1, 65345);
   (66560, 66599, 1, 66600); (66736, 66771, 1, 66776); (66928, 66938, 1, 66967);
   (66940, 66954, 1, 66979); (66956, 66962, 1, 66995); (66964, 66965, 1, 67003);
   (68736, 68786, 1, 68800); (71840, 71871, 1, 71872); (93760, 93791, 1, 93792);
   (125184, 125217, 1, 125218)]%N.

Definition CASED : list (N * N) :=
  [
   (65, 90); (97, 122); (170, 170); (181, 181); (186, 186);
   (192, 214); (216, 246); (248, 442); (444, 447); (452, 659);
   (661, 696); (704, 705); (736, 740); (837, 837); (880, 883);
   (886, 887); (890, 893); (895, 895); (902, 902); (904, 906);
   (908, 908); (910, 929); (931, 1013); (1015, 1153); (1162, 1327);
   (1329, 1366); (1376, 1416); (4256, 4293); (4295, 4295); (4301, 4301);
   (4304, 4346); (4349, 4351); (5024, 5109); (5112, 5117); (7296, 7304);
   (7312, 7354); (7357, 7359); (7424, 7615); (7680, 7957); (7960, 7965);
   (7968, 8005); (8008, 8013); (8016, 8023); (8025, 8025); (8027, 8027);
   (8029, 8029); (8031, 8061); (8064, 8116); (8118, 8124); (8126, 8126);
   (8130, 8132); (8134, 8140); (8144, 8147); (8150, 8155); (8160, 8172);
   (8178, 8180); (8182, 8188); (8305, 8305); (8319, 8319); (8336, 8348);
   (8450, 8450); (8455, 8455); (8458, 8467); (8469, 8469); (8473, 8477);
   (8484, 8484); (8486, 8486); (8488, 8488); (8490, 8493); (8495, 8500);
   (8505, 8505); (8508, 8511); (8517, 8521); (8526, 8526); (8544, 8575);
   (8579, 8580); (9398, 9449); (11264, 11492); (11499, 11502); (11506, 11507);
   (11520, 11557); (11559, 11559); (11565, 11565); (42560, 42605); (42624, 42653);
   (42786, 42887); (42891, 42894); (42896, 42954); (42960, 42961); (42963, 42963);
   (42965, 42969); (42997, 42998); (43000, 43002); (43824, 43866); (43868, 43880);
   (43888, 43967); (64256, 64262); (64275, 64279); (65313, 65338); (65345, 65370);
   (66560, 66639); (66736, 66771); (66776, 66811); (66928, 66938); (66940, 66954);
   (66956, 66962); (66964, 66965); (66967, 66977); (66979, 66993); (66995, 67001);
   (67003, 67004); (67456, 67456); (67459, 67461); (67463, 67504); (67506, 67514);
   (68736, 68786); (68800, 68850); (71840, 71903); (93760, 93823); (119808, 119892);
   (119894, 119964); (119966, 119967); (119970, 119970); (119973, 119974); (119977, 119980);
   (119982, 119993); (119995, 119995); (119997, 120003); (120005, 120069); (120071, 120074);
   (120077, 120084); (120086, 120092); (120094, 120121); (120123, 120126); (120128, 120132);
   (120134, 120134); (120138, 120144); (120146, 120485); (120488, 120512); (120514, 120538);
   (120540, 120570); (120572, 120596); (120598, 120628); (120630, 120654); (120656, 120686);
   (120688, 120712); (120714, 120744); (120746, 120770); (120772, 120779); (122624, 122633);
   (122635, 122654); (125184, 125251); (127280, 127305); (127312, 127337); (127344, 127369)]%N.

Definition CASE_IGNORABLE : list (N * N) :=
  [
   (39, 39); (46, 46); (58, 58); (94, 94); (96, 96);
   (168, 168); (173, 173); (175, 175); (180, 180); (183, 184);
   (688, 879); (884, 885); (890, 890); (900, 901); (903, 903);
   (1155, 1161); (1369, 1369); (1375, 1375); (1425, 1469); (1471, 1471);
   (1473, 1474); (1476, 1477); (1479, 1479); (1524, 1524); (1536, 1541);
   (1552, 1562); (1564, 1564); (1600, 1600); (1611, 1631); (1648, 1648);
   (1750, 1757); (1759, 1768); (1770, 1773); (1807, 1807); (1809, 1809);
   (1840, 1866); (1958, 1968); (2027, 2037); (2042, 2042); (2045, 2045);
   (2070, 2093); (2137, 2139); (2184, 2184); (2192, 2193); (2200, 2207);
   (2249, 2306); (2362, 2362); (2364, 2364); (2369, 2376); (2381, 2381);
   (2385, 2391); (2402, 2403); (2417, 2417); (2433, 2433); (2492, 2492);
   (2497, 2500); (2509, 2509); (2530, 2531); (2558, 2558); (2561, 2562);
   (2620, 2620); (2625, 2626); (2631, 2632); (2635, 2637); (2641, 2641);
   (2672, 2673); (2677, 2677); (2689, 2690); (2748, 2748); (2753, 2757);
   (2759, 2760); (2765, 2765); (2786, 2787); (2810, 2815); (2817, 2817);
   (2876, 2876); (2879, 2879); (2881, 2884); (2893, 2893); (2901, 2902);
   (2914, 2915); (2946, 2946); (3008, 3008); (3021, 3021); (3072, 3072);
   (3076, 3076); (3132, 3132); (3134, 3136); (3142, 3144); (3146, 3149);
   (3157, 3158); (3170, 3171); (3201, 3201); (3260, 3260); (3263, 3263);
   (3270, 3270); (3276, 3277); (3298, 3299); (3328, 3329); (3387, 3388);
   (3393, 3396); (3405, 3405); (3426, 3427); (3457, 3457); (3530, 3530);
   (3538, 3540); (3542, 3542); (3633, 3633); (3636, 3642); (3654, 3662);
   (3761, 3761); (3764, 3772); (3782, 3782); (3784, 3789); (3864, 3865);
   (3893, 3893); (3895, 3895); (3897, 3897); (3953, 3966); (3968, 3972);
   (3974, 3975); (3981, 3991); (3993, 4028); (4038, 4038); (4141, 4144);
   (4146, 4151); (4153, 4154); (4157, 4158); (4184, 4185); (4190, 4192);
   (4209, 4212); (4226, 4226); (4229, 4230); (4237, 4237); (4253, 4253);
   (4348, 4348); (4957, 4959); (5906, 5908); (5938, 5939); (5970, 5971);
   (6002, 6003); (6068, 6069); (6071, 6077); (6086, 6086); (6089, 6099);
   (6103, 6103); (6109, 6109); (6155, 6159); (6211, 6211); (6277, 6278);
   (6313, 6313); (6432, 6434); (6439, 6440); (6450, 6450); (6457, 6459);
   (6679, 6680); (6683, 6683); (6742, 6742); (6744, 6750); (6752, 6752);
   (6754, 6754); (6757, 6764); (6771, 6780); (6783, 6783); (6823, 6823);
   (6832, 6862); (6912, 6915); (6964, 6964); (6966, 6970); (6972, 6972);
   (6978, 6978); (7019, 7027); (7040, 7041); (7074, 7077); (7080, 7081);
   (7083, 7085); (7142, 7142); (7144, 7145); (7149, 7149); (7151, 7153);
   (7212, 7219); (7222, 7223); (7288, 7293); (7376, 7378); (7380, 7392);
   (7394, 7400); (7405, 7405); (7412, 7412); (7416, 7417); (7468, 7530);
   (7544, 7544); (7579, 7679); (8125, 8125); (8127, 8129); (8141, 8143);
   (8157, 8159); (8173, 8175); (8189, 8190); (8203, 8207); (8216, 8217);
   (8228, 8228); (8231, 8231); (8234, 8238); (8288, 8292); (8294, 8303);
   (8305, 8305); (8319, 8319); (8336, 8348); (8400, 8432); (11388, 11389);
   (11503, 11505); (11631, 11631); (11647, 11647); (11744, 11775); (11823, 11823);
   (12293, 12293); (12330, 12333); (12337, 12341); (12347, 12347); (12441, 12446);
   (12540, 12542); (40981, 40981); (42232, 42237); (42508, 42508); (42607, 42610);
   (42612, 42621); (42623, 42623); (42652, 42655); (42736, 42737); (42752, 42785);
   (42864, 42864); (42888, 42890); (42994, 42996); (43000, 43001); (43010, 43010);
   (43014, 43014); (43019, 43019); (43045, 43046); (43052, 43052); (43204, 43205);
   (43232, 43249); (43263, 43263); (43302, 43309); (43335, 43345); (43392, 43394);
   (43443, 43443); (43446, 43449); (43452, 43453); (43471, 43471); (43493, 43494);
   (43561, 43566); (43569, 43570); (43573, 43574); (43587, 43587); (43596, 43596);
   (43632, 43632); (43644, 43644); (43696, 43696); (43698, 43700); (43703, 43704);
   (43710, 43711); (43713, 43713); (43741, 43741); (43756, 43757); (43763, 43764);
   (43766, 43766); (43867, 43871); (43881, 43883); (44005, 44005); (44008, 44008);
   (44013, 44013); (64286, 64286); (64434, 64450); (65024, 65039); (65043, 65043);
   (65056, 65071); (65106, 65106); (65109, 65109); (65279, 65279); (65287, 65287);
   (65294, 65294); (65306, 65306); (65342, 65342); (65344, 65344); (65392, 65392);
   (65438, 65439); (65507, 65507); (65529, 65531); (66045, 66045); (66272, 66272);
   (66422, 66426); (67456, 67461); (67463, 67504); (67506, 67514); (68097, 68099);
   (68101, 68102); (68108, 68111); (68152, 68154); (68159, 68159); (68325, 68326);
   (68900, 68903); (69291, 69292); (69446, 69456); (69506, 69509); (69633, 69633);
   (69688, 69702); (69744, 69744); (69747, 69748); (69759, 69761); (69811, 69814);
   (69817, 69818); (69821, 69821); (69826, 69826); (69837, 69837); (69888, 69890);
   (69927, 69931); (69933, 69940); (70003, 70003); (70016, 70017); (70070, 70078);
   (70089, 70092); (70095, 70095); (70191, 70193); (70196, 70196); (70198, 70199);
   (70206, 70206); (70367, 70367); (70371, 70378); (70400, 70401); (70459, 70460);
   (70464, 70464); (70502, 70508); (70512, 70516); (70712, 70719); (70722, 70724);
   (70726, 70726); (70750, 70750); (70835, 70840); (70842, 70842); (70847, 70848);
   (70850, 70851); (71090, 71093); (71100, 71101); (71103, 71104); (71132, 71133);
   (71219, 71226); (71229, 71229); (71231, 71232); (71339, 71339); (71341, 71341);
   (71344, 71349); (71351, 71351); (71453, 71455); (71458, 71461); (71463, 71467);
   (71727, 71735); (71737, 71738); (71995, 71996); (71998, 71998); (72003, 72003);
   (72148, 72151); (72154, 72155); (72160, 72160); (72193, 72202); (72243, 72248);
   (72251, 72254); (72263, 72263); (72273, 72278); (72281, 72283); (72330, 72342);
   (72344, 72345); (72752, 72758); (72760, 72765); (72767, 72767); (72850, 72871);
   (72874, 72880); (72882, 72883); (72885, 72886); (73009, 73014); (73018, 73018);
   (73020, 73021); (73023, 73029); (73031, 73031); (73104, 73105); (73109, 73109);
   (73111, 73111); (73459, 73460); (78896, 78904); (92912, 92916); (92976, 92982);
   (92992, 92995); (94031, 94031); (94095, 94111); (94176, 94177); (94179, 94180);
   (110576, 110579); (110581, 110587); (110589, 110590); (113821, 113822); (113824, 113827);
   (118528, 118573); (118576, 118598); (119143, 119145); (119155, 119170); (119173, 119179);
   (119210, 119213); (119362, 119364); (121344, 121398); (121403, 121452); (121461, 121461);
   (121476, 121476); (121499, 121503); (121505, 121519); (122880, 122886); (122888, 122904);
   (122907, 122913); (122915, 122916); (122918, 122922); (123184, 123197); (123566, 123566);
   (123628, 123631); (125136, 125142); (125252, 125259); (127995, 127999); (917505, 917505);
   (917536, 917631); (917760, 917999)]%N.

Fixpoint in_ranges (ranges : list (N * N)) (c : N) : bool :=
  match ranges with
  | [] => false
  | (lo, hi) :: ranges' =>
    if (c <? lo)%N then false
    else if (c <=? hi)%N then true
    else in_ranges ranges' c
  end.

Fixpoint lower_run (runs : list (N * N * N * N)) (c : N) : option N :=
  match runs with
  | [] => None
  | (lo, hi, stride, tlo) :: runs' =>
    if (c <? lo)%N then None
    else if (c <=? hi)%N then
      if ((c - lo) mod stride =? 0)%N then Some (tlo + (c - lo))%N else None
    else lower_run runs' c
  end.

(** [_PyUnicode_ToLowerFull]: the one mapping to more than one character is
    that of U+0130. *)
Definition to_lower_full (c : N) : pystr :=
  if (c =? 304)%N then [105%N; 775%N]
  else match lower_run LOWER_RUNS c with
       | Some l => [l]
       | None => [c]
       end.

Definition is_cased (c : N) : bool := in_ranges CASED c.

Definition is_case_ignorable (c : N) : bool := in_ranges CASE_IGNORABLE c.

(** The first character of [l] that is not case-ignorable exists and is
    cased. *)
Fixpoint meets_cased (l : pystr) : bool :=
  match l with
  | [] => false
  | c :: l' => if is_case_ignorable c then meets_cased l' else is_cased c
  end.

(** [handle_capital_sigma]: U+03A3 becomes the final sigma U+03C2 when a
    cased letter comes before it and none after it, case-ignorable
    characters aside; [before] is the text before it, the nearest character
    first. *)
Definition handle_capital_sigma (before after : pystr) : N :=
  if meets_cased before && negb (meets_cased after) then 962%N else 963%N.

(** [do_lower], with the characters already passed in [before]. *)
Fixpoint lower_from (before s : pystr) : pystr :=
  match s with
  | [] => []
  | c :: s' =>
    (if (c =? 931)%N then [handle_capital_sigma before s']
     else to_lower_full c)
    ++ lower_from (c :: before) s'
  end.

(** [s.lower()] *)
Definition lower (s : pystr) : pystr := lower_from [] s.

(** [str.isspace] for one character: the code points with bidirectional
    type WS, B or S, or category Zs. *)
Definition isspace (c : N) : bool :=
  (((9 <=? c) && (c <=? 13)) || ((28 <=? c) && (c <=? 32))
   || (c =? 133) || (c =? 160) || (c =? 5760)
   || ((8192 <=? c) && (c <=? 8202)) || (c =? 8232) || (c =? 8233)
   || (c =? 8239) || (c =? 8287) || (c =? 12288))%N.

Fixpoint lstrip (s : pystr) : pystr :=
  match s with
  | c :: s' => if isspace c then lstrip s' else s
  | [] => []
  end.

Definition rstrip (s : pystr) : pystr := rev (lstrip (rev s)).

(** [s.strip()] *)
Definition strip (s : pystr) : pystr := rstrip (lstrip s).

(** [sep.join(parts)] *)
Fixpoint join (sep : pystr) (parts : list pystr) : pystr :=
  match parts with
  | [] => []
  | [p] => p
  | p :: rest => p ++ sep ++ join sep rest
  end.

(** [s.replace(old, new)] for a non-empty [old]. *)
Fixpoint replace_from (skip : nat) (old new s : pystr) : pystr :=
  match s with
  | [] => []
  | c :: s' =>
    match skip with
    | S k => replace_from k old new s'
    | O => if startswith old s
           then new ++ replace_from (Nat.pred (length old)) old new s'
           else c :: replace_from 0 old new s'
    end
  end.

Definition replace (old new s : pystr) : pystr := replace_from 0 old new s.

(** [str(n)] for an [int]. *)
Definition of_Z (z : Z) : pystr :=
  py (DecimalString.NilZero.string_of_int (Z.to_int z)).

End Str.

Import Str.

(* ------------------------------------------------------------------ *)
(** ** Python values, exceptions and dictionaries *)

(** The exceptions the modelled code can raise. *)
Inductive exn := TypeError | AttributeError | KeyError.

Inductive result (A : Type) :=
| Ok (a : A)
| Raise (e : exn).

Arguments Ok {A} a.
Arguments Raise {A} e.

Definition bind {A B} (r : result A) (k : A -> result B) : result B :=
  match r with
  | Ok a => k a
  | Raise e => Raise e
  end.

Notation "x <- r ;; k" := (bind r (fun x => k))
  (at level 61, r at next level, right associativity).

(** A [dict] with [str] keys, in insertion order. *)
Definition dict (V : Type) := list (pystr * V).

Fixpoint dict_get {V} (k : pystr) (d : dict V) : option V :=
  match d with
  | [] => None
  | (k', v) :: d' => if Str.eqb k k' then Some v else dict_get k d'
  end.

(** [d[k] = v]: a key already present keeps its place. *)
Fixpoint dict_set {V} (k : pystr) (v : V) (d : dict V) : dict V :=
  match d with
  | [] => [(k, v)]
  | (k', v') :: d' =>
    if Str.eqb k k' then (k, v) :: d' else (k', v') :: dict_set k v d'
  end.

(** [d.get(k, default)] *)
Definition dict_get_default {V} (k : pystr) (default : V) (d : dict V) : V :=
  match dict_get k d with
  | Some v => v
  | None => default
  end.

(** [dict(pairs)] *)
Definition dict_of_pairs {V} (pairs : list (pystr * V)) : dict V :=
  fold_left (fun d kv => dict_set (fst kv) (snd kv) d) pairs [].

(** A [float] as [json.loads] reads it: the decimal numeral before rounding,
    [(-1)^neg * mant * 10^exp10], or one of the constants. *)
Inductive pyfloat :=
| FNaN
| FInf (neg : bool)
| FDec (neg : bool) (mant : N) (exp10 : Z).

(** The values [json.loads] returns. *)
#[local] Unset Elimination Schemes.
Inductive json :=
| JNull
| JBool (b : bool)
| JInt (z : Z)
| JFloat (f : pyfloat)
| JStr (s : pystr)
| JList (l : list json)
| JDict (d : list (pystr * json)).
#[local] Set Elimination Schemes.

(** A decimal numeral rounds to the float zero exactly when it is at most
    half of the least positive double, [2^-1075]. *)
Definition float_is_zero (f : pyfloat) : bool :=
  match f with
  | FNaN | FInf _ => false
  | FDec _ mant exp10 =>
    (mant =? 0)%N ||
    ((exp10 <? 0)%Z && (Z.of_N mant * 2 ^ 1075 <=? 10 ^ (- exp10))%Z)
  end.

(** [bool(v)] *)
Definition truthy (v : json) : bool :=
  match v with
  | JNull => false
  | JBool b => b
  | JInt z => negb (z =? 0)%Z
  | JFloat f => negb (float_is_zero f)
  | JStr s => negb (Str.eqb s [])
  | JList l => match l with [] => false | _ => true end
  | JDict d => match d with [] => false | _ => true end
  end.

(* ------------------------------------------------------------------ *)
(** ** [json.loads] *)

Module Json.

Inductive parsed (A : Type) :=
| Parsed (a : A) (rest : pystr)
| DecodeError
| OutOfFuel.

Arguments Parsed {A} a rest.
Arguments DecodeError {A}.
Arguments OutOfFuel {A}.

Definition QUOTE : N := 34.
Definition BACKSLASH : N := 92.

(** [WHITESPACE_STR = ' \t\n\r'] *)
Definition is_ws (c : N) : bool :=
  ((c =? 32) || (c =? 9) || (c =? 10) || (c =? 13))%N.

Fixpoint skip_ws (s : pystr) : pystr :=
  match s with
  | c :: s' => if is_ws c then skip_ws s' else s
  | [] => []
  end.

Definition hexval (c : N) : option N :=
  if ((48 <=? c) && (c <=? 57))%N then Some (c - 48)%N
  else if ((97 <=? c) && (c <=? 102))%N then Some (c - 87)%N
  else if ((65 <=? c) && (c <=? 70))%N then Some (c - 55)%N
  else None.

(** [_decode_uXXXX] on the four characters after [\u]. *)
Definition hex4 (h1 h2 h3 h4 : N) : option N :=
  match hexval h1, hexval h2, hexval h3, hexval h4 with
  | Some a, Some b, Some c, Some d => Some (((a * 16 + b) * 16 + c) * 16 + d)%N
  | _, _, _, _ => None
  end.

(** The [BACKSLASH] table of [json.decoder]. *)
Definition unescape (e : N) : option N :=
  if (e =? 34)%N then Some 34%N          (* quote *)
  else if (e =? 92)%N then Some 92%N     (* backslash *)
  else if (e =? 47)%N then Some 47%N     (* / *)
  else if (e =? 98)%N then Some 8%N      (* b *)
  else if (e =? 102)%N then Some 12%N    (* f *)
  else if (e =? 110)%N then Some 10%N    (* n *)
  else if (e =? 114)%N then Some 13%N    (* r *)
  else if (e =? 116)%N then Some 9%N     (* t *)
  else None.

Definition is_high_surrogate (u : N) : bool := ((55296 <=? u) && (u <=? 56319))%N.
Definition is_low_surrogate (u : N) : bool := ((56320 <=? u) && (u <=? 57343))%N.

Definition join_surrogates (hi lo : N) : N :=
  (65536 + N.lor (N.shiftl (hi - 55296) 10) (lo - 56320))%N.

Definition push (c : N) (r : option (pystr * pystr)) : option (pystr * pystr) :=
  match r with
  | Some (body, rest) => Some (c :: body, rest)
  | None => None
  end.

(** [py_scanstring] in strict mode, from the character after the opening
    quote: the decoded string and the text after the closing quote. *)
Fixpoint scanstring (s : pystr) : option (pystr * pystr) :=
  match s with
  | [] => None
  | c :: s1 =>
    if (c =? QUOTE)%N then Some ([], s1)
    else if (c =? BACKSLASH)%N then
      match s1 with
      | [] => None
      | e :: s2 =>
        if (e =? 117)%N then
          match s2 with
          | h1 :: h2 :: h3 :: h4 :: s6 =>
            match hex4 h1 h2 h3 h4 with
            | None => None
            | Some uni =>
              if is_high_surrogate uni then
                match s6 with
                | b :: u :: s8 =>
                  if ((b =? BACKSLASH) && (u =? 117))%N then
                    match s8 with
                    | g1 :: g2 :: g3 :: g4 :: s12 =>
                      match hex4 g1 g2 g3 g4 with
                      | None => None
                      | Some uni2 =>
                        if is_low_surrogate uni2
                        then push (join_surrogates uni uni2) (scanstring s12)
                        else push uni (scanstring s6)
                      end
                    | _ => None
                    end
                  else push uni (scanstring s6)
                | _ => push uni (scanstring s6)
                end
              else push uni (scanstring s6)
            end
          | _ => None
          end
        else
          match unescape e with
          | Some c' => push c' (scanstring s2)
          | None => None
          end
      end
    else if (c <? 32)%N then None
    else push c (scanstring s1)
  end.

Definition is_digit (c : N) : bool := ((48 <=? c) && (c <=? 57))%N.

(** The longest prefix of digits, as digit values, and what follows. *)
Fixpoint span_digits (s : pystr) : list N * pystr :=
  match s with
  | c :: s' =>
    if is_digit c
    then let (ds, rest) := span_digits s' in ((c - 48)%N :: ds, rest)
    else ([], s)
  | [] => ([], [])
  end.

Definition digits_value (ds : list N) : N :=
  fold_left (fun acc d => (acc * 10 + d)%N) ds 0%N.

(** [NUMBER_RE]: an optional minus sign, then [0] or a digit [1-9] followed
    by digits; an optional fraction, a dot and at least one digit; an optional
    exponent, [e] or [E], an optional sign and at least one digit. *)
Definition scan_int_part (s : pystr) : option (list N * pystr) :=
  match s with
  | c :: s' =>
    if (c =? 48)%N then Some ([0%N], s')
    else if is_digit c then Some (span_digits s)
    else None
  | [] => None
  end.

Definition scan_frac (s : pystr) : option (list N * pystr) :=
  match s with
  | dot :: ((d :: _) as s') =>
    if ((dot =? 46) && is_digit d)%N then Some (span_digits s') else None
  | _ => None
  end.

Definition scan_exp (s : pystr) : option (Z * pystr) :=
  match s with
  | e :: s1 =>
    if ((e =? 101) || (e =? 69))%N then
      match s1 with
      | sg :: ((d :: _) as s2) =>
        if ((sg =? 43) || (sg =? 45))%N then
          if is_digit d then
            let (ds, rest) := span_digits s2 in
            let v := Z.of_N (digits_value ds) in
            Some (if (sg =? 45)%N then (- v)%Z else v, rest)
          else None
        else if is_digit sg then
          let (ds, rest) := span_digits s1 in
          Some (Z.of_N (digits_value ds), rest)
        else None
      | [d] =>
        if is_digit d then Some (Z.of_N (d - 48), []) else None
      | [] => None
      end
    else None
  | [] => None
  end.

Definition scan_number (s : pystr) : option (json * pystr) :=
  let (neg, s0) :=
    match s with
    | c :: s' => if (c =? 45)%N then (true, s') else (false, s)
    | [] => (false, s)
    end in
  match scan_int_part s0 with
  | None => None
  | Some (ids, s1) =>
    let (fds, s2) :=
      match scan_frac s1 with
      | Some (ds, r) => (Some ds, r)
      | None => (None, s1)
      end in
    let (ex, s3) :=
      match scan_exp s2 with
      | Some (e, r) => (Some e, r)
      | None => (None, s2)
      end in
    match fds, ex with
    | None, None =>
      let v := Z.of_N (digits_value ids) in
      Some (JInt (if neg then (- v)%Z else v), s3)
    | _, _ =>
      let fr := match fds with Some ds => ds | None => [] end in
      let e := match ex with Some e => e | None => 0%Z end in
      Some (JFloat (FDec neg (digits_value (ids ++ fr))
                         (e - Z.of_nat (List.length fr))), s3)
    end
  end.

(** The literals [scan_once] tries after strings, objects, arrays and
    numbers have been ruled out. *)
Definition scan_constant (s : pystr) : option (json * pystr) :=
  if startswith (py "NaN") s then Some (JFloat FNaN, skipn 3 s)
  else if startswith (py "Infinity") s then Some (JFloat (FInf false), skipn 8 s)
  else if startswith (py "-Infinity") s then Some (JFloat (FInf true), skipn 9 s)
  else None.

Definition of_option {A} (o : option (A * pystr)) : parsed A :=
  match o with
  | Some (a, rest) => Parsed a rest
  | None => DecodeError
  end.

(** [scan_once], [JSONObject] and [JSONArray].  Every call passes less fuel
    on after taking at least one character. [object_loop] starts after the
    opening quote of a key, [array_loop] at the start of a value. *)
Fixpoint scan_once (fuel : nat) (s : pystr) {struct fuel} : parsed json :=
  match fuel with
  | O => OutOfFuel
  | S fuel' =>
    match s with
    | [] => DecodeError
    | c :: s' =>
      if (c =? QUOTE)%N then
        match scanstring s' with
        | Some (body, rest) => Parsed (JStr body) rest
        | None => DecodeError
        end
      else if (c =? 123)%N then
        match skip_ws s' with
        | c1 :: s1 =>
          if (c1 =? 125)%N then Parsed (JDict []) s1
          else if (c1 =? QUOTE)%N then object_loop fuel' [] s1
          else DecodeError
        | [] => DecodeError
        end
      else if (c =? 91)%N then
        match skip_ws s' with
        | c1 :: s1 =>
          if (c1 =? 93)%N then Parsed (JList []) s1
          else array_loop fuel' [] (c1 :: s1)
        | [] => DecodeError
        end
      else if startswith (py "null") s then Parsed JNull (skipn 4 s)
      else if startswith (py "true") s then Parsed (JBool true) (skipn 4 s)
      else if startswith (py "false") s then Parsed (JBool false) (skipn 5 s)
      else
        match scan_number s with
        | Some (v, rest) => Parsed v rest
        | None => of_option (scan_constant s)
        end
    end
  end

with object_loop (fuel : nat) (pairs : list (pystr * json)) (s : pystr)
       {struct fuel} : parsed json :=
  match fuel with
  | O => OutOfFuel
  | S fuel' =>
    match scanstring s with
    | None => DecodeError
    | Some (key, s1) =>
      match skip_ws s1 with
      | colon :: s2 =>
        if (colon =? 58)%N then
          match scan_once fuel' (skip_ws s2) with
          | Parsed value s3 =>
            let pairs' := pairs ++ [(key, value)] in
            match skip_ws s3 with
            | c :: s4 =>
              if (c =? 125)%N then Parsed (JDict (dict_of_pairs pairs')) s4
              else if (c =? 44)%N then
                match skip_ws s4 with
                | q :: s5 =>
                  if (q =? QUOTE)%N then object_loop fuel' pairs' s5
                  else DecodeError
                | [] => DecodeError
                end
              else DecodeError
            | [] => DecodeError
            end
          | DecodeError => DecodeError
          | OutOfFuel => OutOfFuel
          end
        else DecodeError
      | [] => DecodeError
      end
    end
  end

with array_loop (fuel : nat) (values : list json) (s : pystr)
       {struct fuel} : parsed json :=
  match fuel with
  | O => OutOfFuel
  | S fuel' =>
    match scan_once fuel' s with
    | Parsed value s1 =>
      let values' := values ++ [value] in
      match skip_ws s1 with
      | c :: s2 =>
        if (c =? 93)%N then Parsed (JList values') s2
        else if (c =? 44)%N then array_loop fuel' values' (skip_ws s2)
        else DecodeError
      | [] => DecodeError
      end
    | DecodeError => DecodeError
    | OutOfFuel => OutOfFuel
    end
  end.

(** [json.loads(s)]: [None] stands for [json.JSONDecodeError].  The fuel
    bounds the depth of the calls.  A JSON text closes every bracket it
    opens, so its depth is at most its length; a text on which the fuel runs
    out is not JSON, and the result is the decode error as well. *)
Definition loads (s : pystr) : option json :=
  let s0 := skip_ws s in
  match scan_once (S (List.length s0)) s0 with
  | Parsed v rest =>
    match skip_ws rest with
    | [] => Some v
    | _ :: _ => None
    end
  | DecodeError => None
  | OutOfFuel => None
  end.

End Json.

(* ------------------------------------------------------------------ *)
(** ** The design system *)

(** The design-system document: [tokens] maps a token name to its value
    (a document without a [tokens] key reads as the empty mapping).  The
    [rules] of the document are not used by the code modelled here. *)
Record DesignSystem := { tokens : dict pystr }.

(** What [_load_design_system] returns when the file is missing or cannot be
    read. *)
Definition empty_design_system : DesignSystem := {| tokens := [] |}.

(* ------------------------------------------------------------------ *)
(** ** [validator.py] *)

Module CodeValidator.

(** [re.sub(r"```json\n?|\n?```", "", raw_json)]: the length of the match
    that starts at the head of [s], the first alternative first. *)
Definition fence_match (s : pystr) : option nat :=
  if startswith (py "```json") s then
    Some (if startswith (py "```json" ++ [10%N]) s then 8 else 7)
  else if startswith (10%N :: py "```") s then Some 4
  else if startswith (py "```") s then Some 3
  else None.

Fixpoint sub_fences (skip : nat) (s : pystr) : pystr :=
  match s with
  | [] => []
  | c :: s' =>
    match skip with
    | S k => sub_fences k s'
    | O =>
      match fence_match s with
      | Some n => sub_fences (Nat.pred n) s'
      | None => c :: sub_fences 0 s'
      end
    end
  end.

Definition clean (raw_json : pystr) : pystr :=
  Str.strip (sub_fences 0 raw_json).

(** [x == part] for a [str] [part]. *)
Definition eq_str (x : json) (part : pystr) : bool :=
  match x with
  | JStr s => Str.eqb s part
  | _ => false
  end.

(** [part in v] *)
Definition py_in (part : pystr) (v : json) : result bool :=
  match v with
  | JDict d => Ok (match dict_get part d with Some _ => true | None => false end)
  | JList l => Ok (existsb (fun x => eq_str x part) l)
  | JStr s => Ok (Str.contains part s)
  | JNull | JBool _ | JInt _ | JFloat _ => Raise TypeError
  end.

(** [v[part]] for a [str] [part] *)
Definition py_getitem (v : json) (part : pystr) : result json :=
  match v with
  | JDict d =>
    match dict_get part d with
    | Some x => Ok x
    | None => Raise KeyError
    end
  | _ => Raise TypeError
  end.

(** [v.get(key, "")] *)
Definition py_get (v : json) (key : pystr) : result json :=
  match v with
  | JDict d => Ok (dict_get_default key (JStr []) d)
  | _ => Raise AttributeError
  end.

(** [content.count(sub)]: [str] and [list] have the method. *)
Definition py_count (content : json) (sub : pystr) : result nat :=
  match content with
  | JStr s => Ok (Str.count sub s)
  | JList l => Ok (List.length (filter (fun x => eq_str x sub) l))
  | _ => Raise AttributeError
  end.

Definition is_number (v : json) : bool :=
  match v with
  | JBool _ | JInt _ | JFloat _ => true
  | _ => false
  end.

(** [(a + b).lower()]: the sum of two numbers or of two lists exists but has
    no [lower]; other mixed operands cannot be added. *)
Definition add_lower (a b : json) : result pystr :=
  match a, b with
  | JStr x, JStr y => Ok (Str.lower (x ++ y))
  | JList _, JList _ => Raise AttributeError
  | _, _ => if is_number a && is_number b then Raise AttributeError
            else Raise TypeError
  end.

Definition ERR_JSON : pystr :=
  py "Invalid JSON format or non-JSON output generated.".

Definition ERR_MISSING (part : pystr) : pystr :=
  py "Missing or empty component part: " ++ part.

Definition ERR_CSS : pystr := py "Missing component part: css".

Definition ERR_BRACES (key : pystr) : pystr :=
  py "Unbalanced curly braces in " ++ key.

Definition ERR_PARENS (key : pystr) : pystr :=
  py "Unbalanced parentheses in " ++ key.

Definition ERR_COLOR (primary_color : pystr) : pystr :=
  py "Design Token Violation: Primary color '" ++ primary_color
  ++ py "' was not used.".

(** One round of [for part in ["html", "typescript"]]. *)
Definition check_part (code_dict : json) (part : pystr) (errors : list pystr)
  : result (list pystr) :=
  present <- py_in part code_dict ;;
  if negb present then Ok (errors ++ [ERR_MISSING part])
  else
    v <- py_getitem code_dict part ;;
    if negb (truthy v) then Ok (errors ++ [ERR_MISSING part]) else Ok errors.

(** The required-part checks of [validate]. *)
Definition check_required (code_dict : json) : result (list pystr) :=
  errors <- check_part code_dict (py "html") [] ;;
  errors <- check_part code_dict (py "typescript") errors ;;
  present <- py_in (py "css") code_dict ;;
  if negb present then Ok (errors ++ [ERR_CSS]) else Ok errors.

(** One round of [for key in ["typescript", "css"]]. *)
Definition check_syntax_key (code_dict : json) (key : pystr)
    (syntax_errors : list pystr) : result (list pystr) :=
  content <- py_get code_dict key ;;
  lb <- py_count content (py "{") ;;
  rb <- py_count content (py "}") ;;
  let syntax_errors :=
    if negb (lb =? rb) then syntax_errors ++ [ERR_BRACES key]
    else syntax_errors in
  lp <- py_count content (py "(") ;;
  rp <- py_count content (py ")") ;;
  Ok (if negb (lp =? rp) then syntax_errors ++ [ERR_PARENS key]
      else syntax_errors).

Definition _check_syntax (code_dict : json) : result (list pystr) :=
  syntax_errors <- check_syntax_key code_dict (py "typescript") [] ;;
  check_syntax_key code_dict (py "css") syntax_errors.

Definition _check_design_compliance (design_system : DesignSystem)
    (code_dict : json) : result (list pystr) :=
  let primary_color :=
    Str.lower (dict_get_default (py "primary-color") [] (tokens design_system)) in
  html <- py_get code_dict (py "html") ;;
  css <- py_get code_dict (py "css") ;;
  full_code <- add_lower html css ;;
  if negb (Str.eqb primary_color []) && negb (Str.contains primary_color full_code)
  then Ok [ERR_COLOR primary_color]
  else Ok [].

(** The part of [validate] after a successful [json.loads]. *)
Definition validate_parsed (design_system : DesignSystem) (code_dict : json)
  : result (list pystr * option json) :=
  errors <- check_required code_dict ;;
  match errors with
  | [] =>
    syntax_errors <- _check_syntax code_dict ;;
    design_errors <- _check_design_compliance design_system code_dict ;;
    Ok (syntax_errors ++ design_errors, Some code_dict)
  | _ :: _ => Ok (errors, Some code_dict)
  end.

(** [validate]: the error list and the parsed document ([None] when the text
    is not JSON). *)
Definition validate (design_system : DesignSystem) (raw_json : pystr)
  : result (list pystr * option json) :=
  match Json.loads (clean raw_json) with
  | None => Ok ([ERR_JSON], None)
  | Some code_dict => validate_parsed design_system code_dict
  end.

End CodeValidator.

(* ------------------------------------------------------------------ *)
(** ** [json.dumps] of a mapping from [str] to [str] *)

Module JsonDumps.

Definition hexdigit (d : N) : N :=
  if (d <? 10)%N then (48 + d)%N else (87 + d)%N.

(** ['\\u{0:04x}'.format(n)] for [n < 0x10000]. *)
Definition u_escape (n : N) : pystr :=
  [92%N; 117%N; hexdigit ((n / 4096) mod 16); hexdigit ((n / 256) mod 16);
   hexdigit ((n / 16) mod 16); hexdigit (n mod 16)].

(** The replacement of one character by [py_encode_basestring_ascii]:
    [ESCAPE_ASCII] matches the quote, the backslash and every character
    outside the range from the space to the tilde. *)
Definition escape_char (c : N) : pystr :=
  if (c =? 34)%N then [92%N; 34%N]
  else if (c =? 92)%N then [92%N; 92%N]
  else if ((32 <=? c) && (c <=? 126))%N then [c]
  else if (c =? 8)%N then [92%N; 98%N]
  else if (c =? 12)%N then [92%N; 102%N]
  else if (c =? 10)%N then [92%N; 110%N]
  else if (c =? 13)%N then [92%N; 114%N]
  else if (c =? 9)%N then [92%N; 116%N]
  else if (c <? 65536)%N then u_escape c
  else
    let n := (c - 65536)%N in
    u_escape (N.lor 55296 (N.land (N.shiftr n 10) 1023))
    ++ u_escape (N.lor 56320 (N.land n 1023)).

Definition escape (s : pystr) : pystr := flat_map escape_char s.

(** [encode_basestring_ascii(s)] *)
Definition encode_str (s : pystr) : pystr := 34%N :: escape s ++ [34%N].

Definition encode_item (kv : pystr * pystr) : pystr :=
  encode_str (fst kv) ++ py ": " ++ encode_str (snd kv).

(** [json.dumps(d)] *)
Definition dumps (d : dict pystr) : pystr :=
  match d with
  | [] => py "{}"
  | _ => py "{" ++ Str.join (py ", ") (map encode_item d) ++ py "}"
  end.

(** [json.dumps(d, indent=2)] *)
Definition dumps_indent2 (d : dict pystr) : pystr :=
  match d with
  | [] => py "{}"
  | _ =>
    py "{" ++ [10%N] ++ py "  "
    ++ Str.join (py "," ++ [10%N] ++ py "  ") (map encode_item d)
    ++ [10%N] ++ py "}"
  end.

End JsonDumps.

(* ------------------------------------------------------------------ *)
(** ** [generator.py] *)

Module ComponentGenerator.

(** [py] for a constant of the source that contains double quotes: the
    constant is written with [^] in place of each double quote (no constant
    of the source contains [^]). *)
Definition pyq (s : string) : pystr :=
  map (fun c => if (c =? 94)%N then 34%N else c) (py s).

(** The keys of [SUPPORTED_MODELS], in order. *)
Definition SUPPORTED_MODELS : list pystr :=
  [py "groq"; py "openai"; py "claude"; py "gemini"].

(** The outside world of a provider call: [world provider prompt] is the text
    the provider answers with, or [None] when the call raises. *)
Definition provider_world := pystr -> pystr -> option pystr.

(** A [ComponentGenerator] after [__init__]: [clients] holds the keys of
    [self.clients], the providers with a key and an importable library. *)
Record t := {
  design_system : DesignSystem;
  model_preference : pystr;
  clients : list pystr
}.

Definition token (self : t) (name : string) (default : pystr) : pystr :=
  dict_get_default (py name) default (tokens (design_system self)).

(** The [html] of the register branch. *)
Definition html_register (primary bg radius : pystr) : pystr :=
  pyq "<div class=^flex items-center justify-center min-h-screen^>
  <div class=^p-8 w-96^ style=^background:"
  ++ bg
  ++ py ";backdrop-filter:blur(12px);border-radius:"
  ++ radius
  ++ pyq ";border:1px solid rgba(255,255,255,0.25);^>
    <h2 class=^text-2xl font-bold mb-1 text-center^ style=^color:"
  ++ primary
  ++ pyq "^>Create Account</h2>
    <p class=^text-center text-sm text-gray-400 mb-6^>Join us today — it's free</p>
    <div class=^mb-3^><input type=^text^ placeholder=^Full Name^ class=^w-full px-4 py-2 rounded-lg border text-sm^ style=^border-color:"
  ++ primary
  ++ py ";border-radius:"
  ++ radius
  ++ pyq ";^></div>
    <div class=^mb-3^><input type=^email^ placeholder=^Email address^ class=^w-full px-4 py-2 rounded-lg border text-sm^ style=^border-color:"
  ++ primary
  ++ py ";border-radius:"
  ++ radius
  ++ pyq ";^></div>
    <div class=^mb-3^><input type=^password^ placeholder=^Password^ class=^w-full px-4 py-2 rounded-lg border text-sm^ style=^border-color:"
  ++ primary
  ++ py ";border-radius:"
  ++ radius
  ++ pyq ";^></div>
    <div class=^mb-5^><input type=^password^ placeholder=^Confirm password^ class=^w-full px-4 py-2 rounded-lg border text-sm^ style=^border-color:"
  ++ primary
  ++ py ";border-radius:"
  ++ radius
  ++ pyq ";^></div>
    <button class=^w-full py-2.5 font-semibold text-white text-sm rounded-lg^ style=^background:"
  ++ primary
  ++ py ";border-radius:"
  ++ radius
  ++ pyq ";^>Register</button>
    <p class=^text-center text-xs mt-4 text-gray-400^>Already have an account? <span style=^color:"
  ++ primary
  ++ pyq ";cursor:pointer;^>Sign in</span></p>
  </div>
</div>".

(** The [html] of the navbar branch. *)
Definition html_navbar (primary bg radius : pystr) : pystr :=
  pyq "<nav class=^flex items-center justify-between px-8 py-4 shadow-md^ style=^background:"
  ++ primary
  ++ py ";border-radius:"
  ++ radius
  ++ pyq ";^>
  <div class=^flex items-center gap-3^>
    <div class=^w-8 h-8 bg-white rounded-lg flex items-center justify-center font-bold text-sm^ style=^color:"
  ++ primary
  ++ pyq "^>A</div>
    <span class=^font-bold text-white text-lg^>AppName</span>
  </div>
  <div class=^flex items-center gap-6^>
    <a href=^#^ class=^text-white text-sm opacity-80 hover:opacity-100^>Home</a>
    <a href=^#^ class=^text-white text-sm opacity-80 hover:opacity-100^>About</a>
    <a href=^#^ class=^text-white text-sm opacity-80 hover:opacity-100^>Features</a>
    <a href=^#^ class=^text-white text-sm opacity-80 hover:opacity-100^>Pricing</a>
    <button class=^px-4 py-1.5 bg-white text-sm font-semibold rounded-full^ style=^color:"
  ++ primary
  ++ pyq ";^>Get Started</button>
  </div>
</nav>".

(** The [html] of the dashboard branch. *)
Definition html_dashboard (primary bg radius : pystr) : pystr :=
  pyq "<div class=^p-6 w-full max-w-3xl^>
  <h1 class=^text-2xl font-bold mb-6^ style=^color:"
  ++ primary
  ++ pyq "^>Dashboard Overview</h1>
  <div class=^grid grid-cols-3 gap-4 mb-6^>
    <div class=^p-5 rounded-xl border text-center^ style=^border-color:"
  ++ primary
  ++ py ";border-radius:"
  ++ radius
  ++ pyq ";^>
      <div class=^text-3xl font-bold^ style=^color:"
  ++ primary
  ++ pyq "^>1,284</div>
      <div class=^text-sm text-gray-500 mt-1^>Total Users</div>
    </div>
    <div class=^p-5 rounded-xl border text-center^ style=^border-color:"
  ++ primary
  ++ py ";border-radius:"
  ++ radius
  ++ pyq ";^>
      <div class=^text-3xl font-bold^ style=^color:"
  ++ primary
  ++ pyq "^>$9,420</div>
      <div class=^text-sm text-gray-500 mt-1^>Revenue</div>
    </div>
    <div class=^p-5 rounded-xl border text-center^ style=^border-color:"
  ++ primary
  ++ py ";border-radius:"
  ++ radius
  ++ pyq ";^>
      <div class=^text-3xl font-bold^ style=^color:"
  ++ primary
  ++ pyq "^>98.2%</div>
      <div class=^text-sm text-gray-500 mt-1^>Uptime</div>
    </div>
  </div>
  <div class=^p-5 rounded-xl border^ style=^border-radius:"
  ++ radius
  ++ pyq ";border-color:#e5e7eb;^>
    <div class=^text-sm font-semibold mb-3 text-gray-600^>Recent Activity</div>
    <div class=^space-y-2 text-sm text-gray-500^>
      <div class=^flex justify-between^><span>User John signed up</span><span>2m ago</span></div>
      <div class=^flex justify-between^><span>Order #1042 placed</span><span>15m ago</span></div>
      <div class=^flex justify-between^><span>Server restarted</span><span>1h ago</span></div>
    </div>
  </div>
</div>".

(** The [html] of the profile branch. *)
Definition html_profile (primary bg radius : pystr) : pystr :=
  pyq "<div class=^flex items-center justify-center min-h-screen^>
  <div class=^p-8 w-80 text-center^ style=^background:"
  ++ bg
  ++ py ";backdrop-filter:blur(12px);border-radius:"
  ++ radius
  ++ pyq ";border:1px solid rgba(255,255,255,0.2);^>
    <div class=^w-20 h-20 rounded-full mx-auto mb-4 flex items-center justify-center text-white text-2xl font-bold^ style=^background:"
  ++ primary
  ++ pyq "^>JD</div>
    <h2 class=^text-xl font-bold text-white mb-1^>John Doe</h2>
    <p class=^text-sm text-gray-400 mb-4^>john@example.com</p>
    <div class=^flex justify-center gap-4 mb-5 text-center text-sm text-gray-300^>
      <div><div class=^font-bold text-white^>128</div><div>Posts</div></div>
      <div><div class=^font-bold text-white^>4.2k</div><div>Followers</div></div>
      <div><div class=^font-bold text-white^>310</div><div>Following</div></div>
    </div>
    <button class=^w-full py-2 text-white font-semibold text-sm rounded-lg^ style=^background:"
  ++ primary
  ++ py ";border-radius:"
  ++ radius
  ++ pyq ";^>Edit Profile</button>
  </div>
</div>".

(** The [html] of the button branch. *)
Definition html_button (primary bg radius : pystr) : pystr :=
  pyq "<div class=^flex flex-wrap gap-4 items-center justify-center p-8^>
  <button class=^px-6 py-2.5 font-semibold text-white rounded-lg^ style=^background:"
  ++ primary
  ++ py ";border-radius:"
  ++ radius
  ++ pyq ";^>Primary</button>
  <button class=^px-6 py-2.5 font-semibold rounded-lg border-2^ style=^border-color:"
  ++ primary
  ++ py ";color:"
  ++ primary
  ++ py ";border-radius:"
  ++ radius
  ++ pyq ";^>Outline</button>
  <button class=^px-6 py-2.5 font-semibold text-white rounded-lg opacity-50 cursor-not-allowed^ style=^background:"
  ++ primary
  ++ py ";border-radius:"
  ++ radius
  ++ pyq ";^ disabled>Disabled</button>
  <button class=^px-6 py-2.5 font-semibold text-white rounded-full^ style=^background:"
  ++ primary
  ++ pyq ";^>Rounded</button>
  <button class=^px-4 py-2 text-sm font-medium text-white rounded-lg flex items-center gap-2^ style=^background:"
  ++ primary
  ++ py ";border-radius:"
  ++ radius
  ++ pyq ";^>
    <svg class=^w-4 h-4^ fill=^none^ stroke=^currentColor^ viewBox=^0 0 24 24^><path stroke-linecap=^round^ stroke-linejoin=^round^ stroke-width=^2^ d=^M12 4v16m8-8H4^/></svg>
    Add Item
  </button>
</div>".

(** The [html] of the login branch. *)
Definition html_login (primary bg radius title : pystr) : pystr :=
  pyq "<div class=^flex items-center justify-center min-h-screen^>
  <div class=^p-8 w-96^ style=^background:"
  ++ bg
  ++ py ";backdrop-filter:blur(12px);border-radius:"
  ++ radius
  ++ pyq ";border:1px solid rgba(255,255,255,0.2);^>
    <h2 class=^text-2xl font-bold mb-6 text-center^ style=^color:"
  ++ primary
  ++ pyq "^>"
  ++ title
  ++ pyq "</h2>
    <div class=^mb-4^><label class=^block text-sm font-medium mb-1^>Email</label>
      <input type=^email^ placeholder=^you@example.com^ class=^w-full px-4 py-2 rounded-lg border text-sm^ style=^border-color:"
  ++ primary
  ++ py ";border-radius:"
  ++ radius
  ++ pyq ";^></div>
    <div class=^mb-6^><label class=^block text-sm font-medium mb-1^>Password</label>
      <input type=^password^ placeholder=^••••••••^ class=^w-full px-4 py-2 rounded-lg border text-sm^ style=^border-color:"
  ++ primary
  ++ py ";border-radius:"
  ++ radius
  ++ pyq ";^></div>
    <button class=^w-full py-2.5 font-semibold text-white text-sm rounded-lg^ style=^background:"
  ++ primary
  ++ py ";border-radius:"
  ++ radius
  ++ pyq ";^>"
  ++ title
  ++ pyq "</button>
    <p class=^text-center text-xs mt-4^ style=^color:"
  ++ primary
  ++ pyq ";cursor:pointer;^>Forgot password?</p>
  </div>
</div>".

(** The [css] entry of [mock]. *)
Definition mock_css (ts_class primary font : pystr) : pystr :=
  py "/* "
  ++ ts_class
  ++ py " styles — using "
  ++ primary
  ++ py " primary token */ * { font-family: "
  ++ font
  ++ py "; }".

(** The [typescript] entry of [mock]. *)
Definition mock_typescript (ts_class ts_selector : pystr) : pystr :=
  py "import { Component } from '@angular/core';

@Component({
  selector: '"
  ++ ts_selector
  ++ py "',
  standalone: true,
  templateUrl: './"
  ++ Str.replace (py "app-") [] ts_selector
  ++ py ".component.html',
  styleUrls: ['./"
  ++ Str.replace (py "app-") [] ts_selector
  ++ py ".component.css']
})
export class "
  ++ ts_class
  ++ py " {}".

(** [any(k in p for k in keys)] *)
Definition any_in (keys : list pystr) (p : pystr) : bool :=
  existsb (fun k => Str.contains k p) keys.

Inductive category := Register | Navbar | Dashboard | Profile | Button | Login.

(** The chain of [if]/[elif] of [_mock_for_prompt] on the lower-cased
    prompt. *)
Definition category_of (p : pystr) : category :=
  if any_in [py "register"; py "signup"; py "sign up"; py "create account"] p
  then Register
  else if any_in [py "navbar"; py "navigation"; py "nav bar"; py "header";
                  py "topbar"] p
  then Navbar
  else if any_in [py "dashboard"; py "stats"; py "analytics"; py "overview";
                  py "metric"] p
  then Dashboard
  else if any_in [py "profile"; py "user card"; py "avatar"; py "account"] p
  then Profile
  else if any_in [py "button"; py "btn"; py "cta"] p
  then Button
  else Login.

(** [title] of the default branch. *)
Definition login_title (p : pystr) : pystr :=
  if Str.contains (py "login") p then py "Login" else py "Sign In".

Definition mock_html (c : category) (p primary bg radius : pystr) : pystr :=
  match c with
  | Register => html_register primary bg radius
  | Navbar => html_navbar primary bg radius
  | Dashboard => html_dashboard primary bg radius
  | Profile => html_profile primary bg radius
  | Button => html_button primary bg radius
  | Login => html_login primary bg radius (login_title p)
  end.

Definition ts_class (c : category) : pystr :=
  match c with
  | Register => py "RegisterComponent"
  | Navbar => py "NavbarComponent"
  | Dashboard => py "DashboardComponent"
  | Profile => py "ProfileComponent"
  | Button => py "ButtonShowcaseComponent"
  | Login => py "LoginComponent"
  end.

Definition ts_selector (c : category) : pystr :=
  match c with
  | Register => py "app-register"
  | Navbar => py "app-navbar"
  | Dashboard => py "app-dashboard"
  | Profile => py "app-profile"
  | Button => py "app-buttons"
  | Login => py "app-login"
  end.

(** The [mock] dictionary of a branch. *)
Definition mock (self : t) (c : category) (p : pystr) : dict pystr :=
  let primary := token self "primary-color" (py "#6366f1") in
  let bg := token self "glass-background" (py "rgba(255,255,255,0.1)") in
  let radius := token self "border-radius" (py "8px") in
  let font := token self "font-family" (py "Inter, sans-serif") in
  [(py "html", mock_html c p primary bg radius);
   (py "css", mock_css (ts_class c) primary font);
   (py "typescript", mock_typescript (ts_class c) (ts_selector c))].

Definition _mock_for_prompt (self : t) (prompt : pystr) : pystr :=
  let p := Str.lower prompt in
  JsonDumps.dumps (mock self (category_of p) p).

(** [build_prompt] *)
Definition build_prompt (self : t) (user_prompt : pystr) : pystr :=
  let token_str := JsonDumps.dumps_indent2 (tokens (design_system self)) in
  py "You are an expert Angular & Tailwind CSS developer.
TASK: Generate a valid Angular component based on the user's request.

DESIGN SYSTEM (You MUST use these exact values):
"
  ++ token_str
  ++ pyq "

CONSTRAINTS:
1. Use Tailwind CSS for all layout and custom styling.
2. Use Angular Material components (MatCard, MatButton, MatInput, etc.) where helpful.
3. Use ONLY the hex codes, fonts, and spacing from the Design System above.
4. Output MUST be a valid JSON object with exactly these keys:
   - ^html^: The Angular HTML template string. IMPORTANT: Ensure the template uses static placeholder text (e.g., ^12:00 PM^) instead of empty Angular interpolation (e.g., ^{ currentTime }^) so it looks good in a static preview.
   - ^css^: Any extra custom CSS string (can be empty string ^^).
   - ^typescript^: The Angular TypeScript component class string.
5. Do NOT output any markdown, code fences, or explanation. Raw JSON ONLY.

USER REQUEST: "
  ++ user_prompt.

(** [ordered] of [call_llm]: the preferred provider, then the others. *)
Definition ordered (self : t) : list pystr :=
  model_preference self
  :: filter (fun p => negb (Str.eqb p (model_preference self))) SUPPORTED_MODELS.

(** The [for provider in ordered] loop of [call_llm]: the answer of the first
    configured provider whose call does not raise. *)
Fixpoint first_answer (world : provider_world) (configured : list pystr)
    (providers : list pystr) (prompt : pystr) : option pystr :=
  match providers with
  | [] => None
  | provider :: rest =>
    if existsb (Str.eqb provider) configured then
      match world provider prompt with
      | Some result => Some result
      | None => first_answer world configured rest prompt
      end
    else first_answer world configured rest prompt
  end.

Definition call_llm (self : t) (world : provider_world) (prompt : pystr)
  : pystr :=
  match first_answer world (clients self) (ordered self) prompt with
  | Some result => result
  | None => _mock_for_prompt self prompt
  end.

End ComponentGenerator.

(* ------------------------------------------------------------------ *)
(** ** [main.py] *)

Module Main.

Import ComponentGenerator.

(** The dictionaries [orchestrate_agentic_loop] yields, by their [step]. *)
Inductive event :=
| Attempt (value : Z)
| Generating (value : pystr)
| Validating (value : pystr)
| Failed (value : pystr) (errors : list pystr)
| Correcting (value : pystr)
| Success (value : pystr) (data : option json)
| MaxRetries (value : pystr) (data : option json).

(** What a run does, in order: the events it yields and, between them, what
    [validator.validate] returned in each attempt (the latter is not visible
    to the consumer; the statements below refer to it). *)
Inductive action :=
| Yield (e : event)
| Validated (attempt : Z) (outcome : result (list pystr * option json)).

(** A run: its actions and how the generator ends, with the value of its
    [return] ([None] also when the loop body never ran) or an exception. *)
Definition run := (list action * result (option json))%type.

Fixpoint events (tr : list action) : list event :=
  match tr with
  | [] => []
  | Yield e :: tr' => e :: events tr'
  | Validated _ _ :: tr' => events tr'
  end.

(** What a run reads from outside: the generator as constructed from the
    design-system file, the keys and the installed libraries, and the
    answers of the providers in each attempt. *)
Record env := {
  generator : ComponentGenerator.t;
  world : Z -> provider_world
}.

(** [range(lo, hi)] *)
Definition py_range (lo hi : Z) : list Z :=
  map (fun i => (lo + Z.of_nat i)%Z) (seq 0 (Z.to_nat (hi - lo))).

(** [history[-3:]] *)
Definition last3 {A} (l : list A) : list A := skipn (List.length l - 3) l.

Definition full_prompt (user_prompt : pystr) (conversation_history : list pystr)
  : pystr :=
  match conversation_history with
  | [] => user_prompt
  | _ =>
    let context :=
      Str.join [10%N]
        (map (fun h => py "Previous: " ++ h) (last3 conversation_history)) in
    py "Context from previous turns:
"
    ++ context
    ++ py "

New request: "
    ++ user_prompt
  end.

(** The prompt of the next attempt after a failed validation. *)
Definition corrective_prompt (self : ComponentGenerator.t) (errors : list pystr)
  : pystr :=
  py "The previous Angular component had errors. Fix them.

ERRORS:
"
  ++ Str.join [10%N] (map (fun e => py "- " ++ e) errors)
  ++ py "

You MUST use the primary color "
  ++ token self "primary-color" (py "#6366f1")
  ++ pyq " and follow the design system.
Output ONLY valid JSON with keys: ^html^, ^css^, ^typescript^. No markdown.
".

Definition MSG_GENERATING (attempt max_retries : Z) : pystr :=
  py "Generating code (Attempt " ++ Str.of_Z attempt ++ py "/"
  ++ Str.of_Z max_retries ++ py ")...".

Definition MSG_VALIDATING : pystr := py "Validating design compliance & syntax...".
Definition MSG_SUCCESS : pystr := py "Validation passed!".
Definition MSG_CORRECTING : pystr := py "Re-prompting LLM with error feedback...".
Definition MSG_MAX_RETRIES : pystr := py "Max retries reached.".

Definition MSG_FAILED (errors : list pystr) : pystr :=
  py "Found " ++ Str.of_Z (Z.of_nat (List.length errors)) ++ py " issue(s)".

(** The [for attempt in range(1, max_retries + 1)] loop, over the attempts
    still to come. *)
Fixpoint attempt_loop (e : env) (max_retries : Z) (attempts : list Z)
    (current_prompt : pystr) : run :=
  match attempts with
  | [] => ([], Ok None)
  | attempt :: rest =>
    let self := generator e in
    let raw_output := call_llm self (world e attempt) current_prompt in
    let outcome := CodeValidator.validate (design_system self) raw_output in
    let head :=
      [Yield (Attempt attempt);
       Yield (Generating (MSG_GENERATING attempt max_retries));
       Yield (Validating MSG_VALIDATING);
       Validated attempt outcome] in
    match outcome with
    | Raise x => (head, Raise x)
    | Ok ([], code_dict) =>
      (head ++ [Yield (Success MSG_SUCCESS code_dict)], Ok code_dict)
    | Ok (errors, code_dict) =>
      if (attempt <? max_retries)%Z then
        let (tr, r) :=
          attempt_loop e max_retries rest (corrective_prompt self errors) in
        (head ++ [Yield (Failed (MSG_FAILED errors) errors);
                  Yield (Correcting MSG_CORRECTING)] ++ tr, r)
      else
        (head ++ [Yield (Failed (MSG_FAILED errors) errors);
                  Yield (MaxRetries MSG_MAX_RETRIES code_dict)], Ok code_dict)
    end
  end.

Definition orchestrate_agentic_loop (e : env) (user_prompt : pystr)
    (max_retries : Z) (conversation_history : list pystr) : run :=
  let current_prompt :=
    build_prompt (generator e) (full_prompt user_prompt conversation_history) in
  attempt_loop e max_retries (py_range 1 (max_retries + 1)) current_prompt.

Definition is_attempt (ev : event) : bool :=
  match ev with Attempt _ => true | _ => false end.

(** The terminal events. *)
Definition is_terminal (ev : event) : bool :=
  match ev with Success _ _ | MaxRetries _ _ => true | _ => false end.

Definition count_if {A} (f : A -> bool) (l : list A) : nat :=
  List.length (filter f l).

(** [Valid] and [Invalid] of a validation outcome. *)
Definition is_valid (o : result (list pystr * option json)) : Prop :=
  exists code_dict, o = Ok ([], code_dict).

Definition is_invalid (o : result (list pystr * option json)) : Prop :=
  exists err errors code_dict, o = Ok (err :: errors, code_dict).

End Main.

Unset Implicit Arguments.

(* ------------------------------------------------------------------ *)
(** ** Notions used in the statements about [validate] *)

Module ValidatorSpec.

Import CodeValidator.

(** A part is present with a value that is not falsy; for a [str] value,
    with a string that is not empty. *)
Definition present_nonempty (part : pystr) (d : dict json) : bool :=
  match dict_get part d with
  | Some v => truthy v
  | None => false
  end.

Definition present (part : pystr) (d : dict json) : bool :=
  match dict_get part d with
  | Some _ => true
  | None => false
  end.

(** The errors of the required-part check, part by part. *)
Definition required_errors (d : dict json) : list pystr :=
  (if present_nonempty (py "html") d then [] else [ERR_MISSING (py "html")])
  ++ (if present_nonempty (py "typescript") d then []
      else [ERR_MISSING (py "typescript")])
  ++ (if present (py "css") d then [] else [ERR_CSS]).

(** The number of occurrences of one character. *)
Definition occurrences (c : N) (s : pystr) : nat := count_occ N.eq_dec s c.

(** The errors of the balance check of one part. *)
Definition balance_errors (key content : pystr) : list pystr :=
  (if occurrences 123 content =? occurrences 125 content then []
   else [ERR_BRACES key])
  ++ (if occurrences 40 content =? occurrences 41 content then []
      else [ERR_PARENS key]).

Definition pystr_eq_dec : forall a b : pystr, {a = b} + {a <> b} :=
  list_eq_dec N.eq_dec.

(** Scenario documents. *)
Definition scenario_B : pystr :=
  ComponentGenerator.pyq
    "{^html^:^<div>x</div>^,^typescript^:^class C {}^,^css^:^^}".

Definition scenario_C : pystr :=
  ComponentGenerator.pyq
    "{^html^:^<div style='color:#111'>x</div>^,^typescript^:^class C {}^,^css^:^^}".

Definition scenario_E : pystr :=
  ComponentGenerator.pyq
    "{^html^:^<div style='color:#111'>x</div>^,^typescript^:^class C { ^,^css^:^^}".

Definition null_css : pystr :=
  ComponentGenerator.pyq
    "{^html^:^<p>x</p>^,^typescript^:^class C {}^,^css^:null}".

Definition null_css_unbalanced : pystr :=
  ComponentGenerator.pyq
    "{^html^:^<p>x</p>^,^typescript^:^class C { ^,^css^:null}".

Definition list_html : pystr :=
  ComponentGenerator.pyq
    "{^html^:[^x^],^typescript^:^class C {}^,^css^:^^}".

Definition tokens_111 : DesignSystem :=
  {| tokens := [(py "primary-color", py "#111")] |}.

End ValidatorSpec.

(* ------------------------------------------------------------------ *)
(** ** Sample environments *)

Module Samples.

Import ComponentGenerator Main.

(** No key for any provider: every call of [call_llm] falls back to the
    mock. *)
Definition offline (ds : DesignSystem) : env :=
  {| generator := {| design_system := ds; model_preference := py "groq";
                     clients := [] |};
     world := fun _ _ _ => None |}.

(** Only Claude is configured and answers [answer] to every prompt. *)
Definition answering (ds : DesignSystem) (answer : pystr) : env :=
  {| generator := {| design_system := ds; model_preference := py "claude";
                     clients := [py "claude"] |};
     world := fun _ _ _ => Some answer |}.

Definition hello : pystr := py "hello".

Definition is_success (ev : event) : bool :=
  match ev with Success _ _ => true | _ => false end.

(** Claude answers [first] in the first attempt and [later] in the attempts
    after it. *)
Definition answering_twice (ds : DesignSystem) (first later : pystr) : env :=
  {| generator := {| design_system := ds; model_preference := py "claude";
                     clients := [py "claude"] |};
     world := fun attempt _ _ =>
                if (attempt =? 1)%Z then Some first else Some later |}.

End Samples.

(* ------------------------------------------------------------------ *)
(** ** What the attempts of a run see *)

Module Attempts.

Import ComponentGenerator Main.

(** The attempt numbers a run announces. *)
Definition attempts_of (tr : list action) : list Z :=
  flat_map (fun a => match a with Yield (Attempt n) => [n] | _ => [] end) tr.

Definition errors_of (o : result (list pystr * option json)) : list pystr :=
  match o with
  | Ok (errors, _) => errors
  | Raise _ => []
  end.

Definition document_of (o : result (list pystr * option json)) : option json :=
  match o with
  | Ok (_, code_dict) => code_dict
  | Raise _ => None
  end.

(** The prompt of attempt [k + 1] when the attempts before it failed: the
    first prompt, then the corrective prompt for the errors that
    [validate] found in the answer to the prompt before. *)
Fixpoint prompt_of (e : env) (first_prompt : pystr) (k : nat) : pystr :=
  match k with
  | O => first_prompt
  | S k' =>
    corrective_prompt (generator e)
      (errors_of
         (CodeValidator.validate (design_system (generator e))
            (call_llm (generator e) (world e (Z.of_nat k' + 1))
               (prompt_of e first_prompt k'))))
  end.

(** What [validate] returns for the answer of attempt [k + 1]. *)
Definition outcome_of (e : env) (first_prompt : pystr) (k : nat)
  : result (list pystr * option json) :=
  CodeValidator.validate (design_system (generator e))
    (call_llm (generator e) (world e (Z.of_nat k + 1))
       (prompt_of e first_prompt k)).

(** The events of attempt [k + 1] of a run with ceiling [max_retries] when
    its validation fails. *)
Definition failed_attempt (e : env) (first_prompt : pystr) (max_retries : Z)
    (k : nat) : list event :=
  let attempt := (Z.of_nat k + 1)%Z in
  let o := outcome_of e first_prompt k in
  [Attempt attempt;
   Generating (MSG_GENERATING attempt max_retries);
   Validating MSG_VALIDATING;
   Failed (MSG_FAILED (errors_of o)) (errors_of o);
   if (attempt <? max_retries)%Z then Correcting MSG_CORRECTING
   else MaxRetries MSG_MAX_RETRIES (document_of o)].

End Attempts.

(* ------------------------------------------------------------------ *)
(** ** The request of [main] *)

Module GeneratorSpec.

(** [user_request] of [main()]. *)
Definition user_request : pystr :=
  py "A modern login card with a glassmorphism effect, email and password fields.".

(** A character that is neither cased nor case-ignorable. *)
Definition is_neutral (c : N) : bool :=
  negb (is_case_ignorable c) && negb (is_cased c).

End GeneratorSpec.

(* ------------------------------------------------------------------ *)
(** ** Text *)

Module Text.

(** A Unicode scalar value: a code point that is not a surrogate.  Text read
    from a UTF-8 file consists of scalar values. *)
Definition is_scalar (c : N) : bool :=
  ((c <? 1114112) && negb ((55296 <=? c) && (c <=? 57343)))%N.

Definition is_text (s : pystr) : bool := forallb is_scalar s.

(** The opening and closing marker of a fenced block of Markdown. *)
Definition FENCE : pystr := py "```".

(** The number of backticks at the end of what has been read, [None] once
    three in a row have been seen. *)
Fixpoint backticks (n : nat) (s : pystr) : option nat :=
  match s with
  | [] => Some n
  | c :: s' =>
    if (c =? 96)%N then
      match n with
      | S (S _) => None
      | _ => backticks (S n) s'
      end
    else backticks 0 s'
  end.

(** What [json.dumps] writes after a member of an object: the closing brace,
    or a comma and the members still to come. *)
Fixpoint member_tail (items : list (pystr * pystr)) (rest : pystr) : pystr :=
  match items with
  | [] => 125%N :: rest
  | kv :: items' =>
    44%N :: 32%N :: 34%N :: JsonDumps.escape (fst kv)
    ++ 34%N :: 58%N :: 32%N :: JsonDumps.encode_str (snd kv)
    ++ member_tail items' rest
  end.

(** The document [json.loads] returns for a mapping from [str] to [str]. *)
Definition as_json (d : dict pystr) : dict json :=
  map (fun kv => (fst kv, JStr (snd kv))) d.

(** Keys and values are text. *)
Definition is_text_dict (d : dict pystr) : bool :=
  forallb (fun kv => is_text (fst kv) && is_text (snd kv)) d.

End Text.

(* ------------------------------------------------------------------ *)
(** ** Fences *)

Module Fences.

Import Text.

(** A text without backtick that is not empty. *)
Definition is_plain (s : pystr) : bool :=
  match s with
  | [] => false
  | _ => forallb (fun c => negb (c =? 96)%N) s
  end.

(** No key and no value contains a fence. *)
Definition is_fence_free_dict (d : dict pystr) : bool :=
  forallb (fun kv => negb (contains FENCE (fst kv))
                     && negb (contains FENCE (snd kv))) d.

End Fences.

(* ------------------------------------------------------------------ *)
(** ** Conditions on the design tokens *)

Module Tokens.

Import Text ValidatorSpec.

(** The token names [_mock_for_prompt] reads. *)
Definition RECOGNIZED : list pystr :=
  [py "primary-color"; py "glass-background"; py "border-radius";
   py "font-family"].

(** Text that contains no fence. *)
Definition is_clean_text (v : pystr) : bool :=
  is_text v && negb (contains FENCE v).

(** No brace and no parenthesis. *)
Definition no_brackets (v : pystr) : bool :=
  (occurrences 123 v =? 0) && (occurrences 125 v =? 0)
  && (occurrences 40 v =? 0) && (occurrences 41 v =? 0).

(** Every recognized token that is configured is text without fence, brace
    or parenthesis. *)
Definition tokens_ok (ds : DesignSystem) : bool :=
  forallb (fun name =>
             match dict_get name (tokens ds) with
             | Some v => is_clean_text v && no_brackets v
             | None => true
             end) RECOGNIZED.

(** A design system whose primary color is a fence. *)
Definition fence_color : DesignSystem :=
  {| tokens := [(py "primary-color", FENCE)] |}.

End Tokens.

(* ------------------------------------------------------------------ *)
(** ** Further sample inputs *)

Module MoreSamples.

Import ComponentGenerator Main.

(** A fenced block as providers write it. *)
Definition fenced (s : pystr) : pystr :=
  py "```json" ++ [10%N] ++ s ++ [10%N] ++ py "```".

(** Groq is preferred; Groq and Gemini are configured; Groq fails and
    Gemini answers [answer]. *)
Definition groq_down (answer : pystr) : ComponentGenerator.t * provider_world :=
  ({| design_system := empty_design_system; model_preference := py "groq";
      clients := [py "groq"; py "gemini"] |},
   fun provider _ =>
     if Str.eqb provider (py "gemini") then Some answer else None).


(** ASCII text and its lower case. *)
Definition is_ascii (s : pystr) : bool := forallb (fun c => (c <? 128)%N) s.

Definition ascii_lower (c : N) : N :=
  if ((65 <=? c) && (c <=? 90))%N then (c + 32)%N else c.

(** The keywords of the first branch of [_mock_for_prompt]. *)
Definition REGISTER_KEYWORDS : list pystr :=
  [py "register"; py "signup"; py "sign up"; py "create account"].

End MoreSamples.

(* ------------------------------------------------------------------ *)
(** * Properties of [validate] *)

Module ValidatorFacts.

Import CodeValidator ValidatorSpec.

Lemma eqb_refl s : Str.eqb s s = true.
Proof. induction s as [|c s IH]; cbn; [reflexivity|]. now rewrite N.eqb_refl. Qed.

Lemma eqb_eq a b : Str.eqb a b = true <-> a = b.
Proof.
  revert b. induction a as [|x a IH]; intros [|y b]; cbn; split; intros H;
    try reflexivity; try discriminate.
  - apply andb_true_iff in H as [Hx Hr]. apply N.eqb_eq in Hx. apply IH in Hr.
    now subst.
  - injection H as -> ->. rewrite N.eqb_refl. now apply IH.
Qed.

Lemma startswith_nil s : startswith [] s = true.
Proof. destruct s; reflexivity. Qed.

Lemma contains_nil s : contains [] s = true.
Proof. destruct s; reflexivity. Qed.

(** For a one-character needle, [count] is the number of occurrences. *)
Lemma count_char c s : Str.count [c] s = occurrences c s.
Proof.
  unfold Str.count, occurrences.
  induction s as [|x s IH]; [reflexivity|].
  cbn [count_from startswith List.length Nat.pred count_occ].
  rewrite ?startswith_nil, ?andb_true_r.
  destruct (N.eq_dec x c) as [->|Hne].
  - rewrite N.eqb_refl. now rewrite IH.
  - destruct (N.eqb_spec c x) as [->|_]; [contradiction|]. exact IH.
Qed.

Lemma check_part_dict d part errors :
  check_part (JDict d) part errors
  = Ok (errors ++ if present_nonempty part d then [] else [ERR_MISSING part]).
Proof.
  unfold check_part, present_nonempty, py_in, py_getitem. cbn [bind].
  destruct (dict_get part d) as [v|]; cbn [negb bind]; [|reflexivity].
  destruct (truthy v); cbn [negb]; [now rewrite app_nil_r|reflexivity].
Qed.

Lemma check_required_dict d : check_required (JDict d) = Ok (required_errors d).
Proof.
  unfold check_required, required_errors.
  rewrite check_part_dict. cbn [bind app]. rewrite check_part_dict. cbn [bind].
  unfold py_in, present. 
  destruct (dict_get (py "css") d); cbn [negb]; [now rewrite app_nil_r|].
  now rewrite <- app_assoc.
Qed.

(** C2 (defect): [validate] raises on text that is JSON but not a document of
    strings.  On the text [123], [json.loads] returns an [int], and
    [part not in code_dict] raises [TypeError]; on a document whose [css] is
    [null], [content.count] raises [AttributeError].  Neither is caught. *)
Theorem C2_validate_raises_on_decoded_non_documents ds :
  validate ds (py "123") = Raise TypeError
  /\ validate ds null_css = Raise AttributeError.
Proof. split; vm_compute; reflexivity. Qed.

(** Text that is not JSON gives the one error [ERR_JSON] and no document. *)
Lemma validate_undecodable ds raw_json :
  Json.loads (clean raw_json) = None ->
  validate ds raw_json = Ok ([ERR_JSON], None).
Proof. intros H. unfold validate. now rewrite H. Qed.

(** Scenario A of the specification. *)
Example scenario_A_not_json ds :
  validate ds (py "not json") = Ok ([ERR_JSON], None).
Proof. apply validate_undecodable. vm_compute. reflexivity. Qed.

(** C3 (defect): text that is JSON but not a key-value document is not
    reported as a failure to parse.  [[1]] and [[]] decode to lists;
    [validate] does not check the decoded value, reports the three required
    parts as missing and returns the list as the document, where the text
    that is not JSON at all gets the single error [ERR_JSON] and no
    document. *)
Theorem C3_decoded_list_returned_as_document ds :
  Json.loads (clean (py "[1]")) = Some (JList [JInt 1])
  /\ validate ds (py "[1]")
     = Ok ([ERR_MISSING (py "html"); ERR_MISSING (py "typescript"); ERR_CSS],
           Some (JList [JInt 1]))
  /\ validate ds (py "[]")
     = Ok ([ERR_MISSING (py "html"); ERR_MISSING (py "typescript"); ERR_CSS],
           Some (JList []))
  /\ validate ds (py "[1]") <> Ok ([ERR_JSON], None).
Proof.
  split; [vm_compute; reflexivity|].
  split; [vm_compute; reflexivity|].
  split; [vm_compute; reflexivity|].
  vm_compute. discriminate.
Qed.

(** C4: for text that decodes to a key-value document [d], the required-part
    check yields one error for [html] and one for [typescript] when the part
    is missing or empty, and one for [css] when the key is missing (an empty
    [css] is accepted); the errors are distinct and accumulate in this
    order; when there is any, [validate] returns exactly these errors with
    the document and runs neither the balance nor the color check; these
    run only when there is none. *)
Theorem C4_required_parts ds raw_json d :
  Json.loads (clean raw_json) = Some (JDict d) ->
  check_required (JDict d) = Ok (required_errors d)
  /\ (required_errors d <> [] ->
      validate ds raw_json = Ok (required_errors d, Some (JDict d)))
  /\ (required_errors d = [] ->
      validate ds raw_json
      = (syntax_errors <- _check_syntax (JDict d) ;;
         design_errors <- _check_design_compliance ds (JDict d) ;;
         Ok (syntax_errors ++ design_errors, Some (JDict d))))
  /\ NoDup [ERR_MISSING (py "html"); ERR_MISSING (py "typescript"); ERR_CSS].
Proof.
  intros Hload. split; [apply check_required_dict|].
  unfold validate. rewrite Hload. unfold validate_parsed.
  rewrite check_required_dict. cbn [bind].
  repeat split.
  - intros Hne. destruct (required_errors d); [contradiction|reflexivity].
  - intros ->. reflexivity.
  - repeat constructor; cbn; vm_compute; intuition discriminate.
Qed.

Lemma C4_required_parts_witness :
  let d := [(py "html", JStr []); (py "css", JStr [])] in
  check_required (JDict d) = Ok (required_errors d)
  /\ (required_errors d <> [] ->
      validate tokens_111 (ComponentGenerator.pyq "{^html^: ^^, ^css^: ^^}")
      = Ok (required_errors d, Some (JDict d)))
  /\ (required_errors d = [] ->
      validate tokens_111 (ComponentGenerator.pyq "{^html^: ^^, ^css^: ^^}")
      = (syntax_errors <- _check_syntax (JDict d) ;;
         design_errors <- _check_design_compliance tokens_111 (JDict d) ;;
         Ok (syntax_errors ++ design_errors, Some (JDict d))))
  /\ NoDup [ERR_MISSING (py "html"); ERR_MISSING (py "typescript"); ERR_CSS].
Proof.
  apply (C4_required_parts tokens_111
           (ComponentGenerator.pyq "{^html^: ^^, ^css^: ^^}")
           [(py "html", JStr []); (py "css", JStr [])]).
  vm_compute. reflexivity.
Defined.

Lemma check_syntax_key_str d key content errors :
  dict_get key d = Some (JStr content) ->
  check_syntax_key (JDict d) key errors
  = Ok (errors ++ balance_errors key content).
Proof.
  intros Hget. unfold check_syntax_key, py_get, dict_get_default.
  rewrite Hget. cbn [bind py_count].
  change (py "{") with [123%N]. change (py "}") with [125%N].
  change (py "(") with [40%N]. change (py ")") with [41%N].
  rewrite !count_char. unfold balance_errors.
  destruct (occurrences 123 content =? occurrences 125 content);
    destruct (occurrences 40 content =? occurrences 41 content);
    cbn [negb]; rewrite ?app_nil_r, <- ?app_assoc; reflexivity.
Qed.

Lemma check_syntax_strings d typescript css :
  dict_get (py "typescript") d = Some (JStr typescript) ->
  dict_get (py "css") d = Some (JStr css) ->
  _check_syntax (JDict d)
  = Ok (balance_errors (py "typescript") typescript
        ++ balance_errors (py "css") css).
Proof.
  intros Hts Hcss. unfold _check_syntax.
  rewrite (check_syntax_key_str _ _ _ [] Hts).
  cbn [bind app]. apply (check_syntax_key_str _ _ _ _ Hcss).
Qed.

Lemma check_design_strings ds d html css :
  dict_get (py "html") d = Some (JStr html) ->
  dict_get (py "css") d = Some (JStr css) ->
  _check_design_compliance ds (JDict d)
  = Ok match dict_get (py "primary-color") (tokens ds) with
       | None => []
       | Some color =>
         if Str.contains (Str.lower color) (Str.lower (html ++ css)) then []
         else [ERR_COLOR (Str.lower color)]
       end.
Proof.
  intros Hhtml Hcss.
  unfold _check_design_compliance, py_get, dict_get_default.
  rewrite Hhtml, Hcss. cbn [bind add_lower]. unfold pystr in *.
  destruct (@dict_get (list N) (py "primary-color") (tokens ds)) as [color|];
    [|reflexivity].
  destruct (Str.lower color) as [|c rest] eqn:Hc.
  - cbn. now rewrite contains_nil.
  - cbn [Str.eqb negb andb].
    destruct (Str.contains (c :: rest) (Str.lower (html ++ css))); reflexivity.
Qed.

Lemma validate_decoded ds raw_json code_dict :
  Json.loads (clean raw_json) = Some code_dict ->
  validate ds raw_json = validate_parsed ds code_dict.
Proof. intros H. unfold validate. now rewrite H. Qed.

Lemma ERR_BRACES_inj k1 k2 : ERR_BRACES k1 = ERR_BRACES k2 -> k1 = k2.
Proof. unfold ERR_BRACES. apply app_inv_head. Qed.

(** The braces of the text [class C { ] are reported once, whatever the
    [css] (scenario E of the specification). *)
Lemma unbalanced_class_reported_once d css :
  dict_get (py "typescript") d = Some (JStr (py "class C { ")) ->
  dict_get (py "css") d = Some (JStr css) ->
  exists syntax_errors,
    _check_syntax (JDict d) = Ok syntax_errors
    /\ count_occ pystr_eq_dec syntax_errors (ERR_BRACES (py "typescript")) = 1.
Proof.
  intros Hts Hcss. eexists.
  split; [apply (check_syntax_strings _ _ _ Hts Hcss)|].
  rewrite count_occ_app.
  replace (balance_errors (py "typescript") (py "class C { "))
    with [ERR_BRACES (py "typescript")] by (vm_compute; reflexivity).
  cbn [count_occ]. destruct (pystr_eq_dec _ _) as [_|Hne]; [|contradiction].
  unfold balance_errors.
  destruct (occurrences 123 css =? occurrences 125 css);
    destruct (occurrences 40 css =? occurrences 41 css);
    cbn [app count_occ];
    repeat match goal with
    | |- context [pystr_eq_dec ?a ?b] =>
      destruct (pystr_eq_dec a b) as [He|_];
      [vm_compute in He; discriminate|]
    end; reflexivity.
Qed.

(** C5 (defect): the balance check is not applied to every document that
    passes the required-part check.  The document with [css] [null] passes
    it ([css] is present), and [content.count] then raises
    [AttributeError]: no error is reported for the unbalanced brace of its
    [typescript].  For parts that are strings the check is as described
    ([check_syntax_strings], [unbalanced_class_reported_once]). *)
Theorem C5_balance_check_raises_on_null_css ds :
  Json.loads (clean null_css_unbalanced)
  = Some (JDict [(py "html", JStr (py "<p>x</p>"));
                 (py "typescript", JStr (py "class C { "));
                 (py "css", JNull)])
  /\ required_errors [(py "html", JStr (py "<p>x</p>"));
                      (py "typescript", JStr (py "class C { "));
                      (py "css", JNull)] = []
  /\ _check_syntax (JDict [(py "html", JStr (py "<p>x</p>"));
                           (py "typescript", JStr (py "class C { "));
                           (py "css", JNull)]) = Raise AttributeError
  /\ validate ds null_css_unbalanced = Raise AttributeError.
Proof. repeat split; vm_compute; reflexivity. Qed.

(** C6 (defect): the color check is not skipped for every document that
    passes the required-part check when no primary color is configured.  It
    concatenates [html] and [css] before it looks at the color: for the
    document whose [html] is the list [["x"]], which passes the
    required-part and the balance check, the concatenation raises
    [TypeError].  For parts that are strings the check is as described
    ([check_design_strings]). *)
Theorem C6_color_check_raises_on_list_html :
  dict_get (py "primary-color") (tokens empty_design_system) = None
  /\ Json.loads (clean list_html)
     = Some (JDict [(py "html", JList [JStr (py "x")]);
                    (py "typescript", JStr (py "class C {}"));
                    (py "css", JStr [])])
  /\ required_errors [(py "html", JList [JStr (py "x")]);
                      (py "typescript", JStr (py "class C {}"));
                      (py "css", JStr [])] = []
  /\ _check_syntax (JDict [(py "html", JList [JStr (py "x")]);
                           (py "typescript", JStr (py "class C {}"));
                           (py "css", JStr [])]) = Ok []
  /\ _check_design_compliance empty_design_system
       (JDict [(py "html", JList [JStr (py "x")]);
               (py "typescript", JStr (py "class C {}"));
               (py "css", JStr [])]) = Raise TypeError
  /\ validate empty_design_system list_html = Raise TypeError.
Proof. repeat split; vm_compute; reflexivity. Qed.

(** The scenarios B, C and E of the specification, through [validate]. *)
Example scenario_B_invalid :
  validate tokens_111 scenario_B
  = Ok ([ERR_COLOR (py "#111")],
        Some (JDict [(py "html", JStr (py "<div>x</div>"));
                     (py "typescript", JStr (py "class C {}"));
                     (py "css", JStr [])])).
Proof. vm_compute. reflexivity. Qed.

Example scenario_C_valid :
  validate tokens_111 scenario_C
  = Ok ([],
        Some (JDict [(py "html", JStr (py "<div style='color:#111'>x</div>"));
                     (py "typescript", JStr (py "class C {}"));
                     (py "css", JStr [])])).
Proof. vm_compute. reflexivity. Qed.

Example scenario_E_unbalanced :
  exists code_dict,
    validate tokens_111 scenario_E
    = Ok ([ERR_BRACES (py "typescript")], code_dict).
Proof. eexists. vm_compute. reflexivity. Qed.

End ValidatorFacts.

(* ------------------------------------------------------------------ *)
(** * Properties of the attempt loop *)

Module MainFacts.

Import ComponentGenerator Main Attempts.

Lemma py_range_nil lo hi : (hi <= lo)%Z -> py_range lo hi = [].
Proof.
  intros H. unfold py_range.
  replace (Z.to_nat (hi - lo)) with 0%nat by lia. reflexivity.
Qed.

Lemma py_range_cons lo hi :
  (lo < hi)%Z -> py_range lo hi = lo :: py_range (lo + 1) hi.
Proof.
  intros H. unfold py_range.
  replace (Z.to_nat (hi - lo)) with (S (Z.to_nat (hi - (lo + 1)))) by lia.
  cbn [seq map]. f_equal; [lia|].
  rewrite <- seq_shift, map_map.
  apply map_ext. intros i. lia.
Qed.

(** The loop body, one attempt unfolded. *)
Lemma attempt_loop_cons e max_retries attempt rest current_prompt :
  attempt_loop e max_retries (attempt :: rest) current_prompt =
  let self := generator e in
  let raw_output := call_llm self (world e attempt) current_prompt in
  let outcome := CodeValidator.validate (design_system self) raw_output in
  let head :=
    [Yield (Attempt attempt);
     Yield (Generating (MSG_GENERATING attempt max_retries));
     Yield (Validating MSG_VALIDATING);
     Validated attempt outcome] in
  match outcome with
  | Raise x => (head, Raise x)
  | Ok ([], code_dict) =>
    (head ++ [Yield (Success MSG_SUCCESS code_dict)], Ok code_dict)
  | Ok (errors, code_dict) =>
    if (attempt <? max_retries)%Z then
      let (tr, r) :=
        attempt_loop e max_retries rest (corrective_prompt self errors) in
      (head ++ [Yield (Failed (MSG_FAILED errors) errors);
                Yield (Correcting MSG_CORRECTING)] ++ tr, r)
    else
      (head ++ [Yield (Failed (MSG_FAILED errors) errors);
                Yield (MaxRetries MSG_MAX_RETRIES code_dict)], Ok code_dict)
  end.
Proof. reflexivity. Qed.

Lemma events_app t1 t2 : events (t1 ++ t2) = events t1 ++ events t2.
Proof.
  induction t1 as [|[ev|k o] t1 IH]; cbn [events app]; [reflexivity| |assumption].
  now rewrite IH.
Qed.

Lemma count_if_app {A} (f : A -> bool) l1 l2 :
  count_if f (l1 ++ l2) = count_if f l1 + count_if f l2.
Proof. unfold count_if. now rewrite filter_app, length_app. Qed.

Lemma attempts_of_app t1 t2 :
  attempts_of (t1 ++ t2) = attempts_of t1 ++ attempts_of t2.
Proof. apply flat_map_app. Qed.

(** The shape of a run over the attempts [a .. max_retries]: how many
    attempts it announces, how it ends, and that a valid outcome ends it. *)
Lemma attempt_loop_shape e max_retries n :
  forall a current_prompt tr res,
    Z.of_nat n = (max_retries + 1 - a)%Z ->
    attempt_loop e max_retries (py_range a (max_retries + 1)) current_prompt
    = (tr, res) ->
    count_if is_attempt (events tr) <= n
    /\ (forall k, In k (attempts_of tr) -> (a <= k <= max_retries)%Z)
    /\ (forall k o, In (Validated k o) tr -> (a <= k <= max_retries)%Z)
    /\ (forall k o, In (Validated k o) tr -> is_valid o ->
          forall k', In k' (attempts_of tr) -> (k' <= k)%Z)
    /\ count_if is_terminal (events tr)
       = match res, n with
         | Ok _, S _ => 1
         | _, _ => 0
         end.
Proof.
  induction n as [|n IH]; intros a current_prompt tr res Hn Hrun.
  - rewrite py_range_nil in Hrun by lia. cbn in Hrun.
    injection Hrun as <- <-. cbn. repeat split; try lia; intros; contradiction.
  - rewrite py_range_cons in Hrun by lia. rewrite attempt_loop_cons in Hrun.
    cbv zeta in Hrun.
    set (outcome := CodeValidator.validate _ _) in Hrun.
    destruct outcome as [[[|err errors] code_dict]|x] eqn:Ho.
    + injection Hrun as <- <-.
      refine (conj _ (conj _ (conj _ (conj _ _)))).
      * unfold count_if; cbn; lia.
      * intros k H; cbn in H. destruct H as [<-|[]]. lia.
      * intros k o H; cbn in H.
        destruct H as [H|[H|[H|[H|[H|[]]]]]]; try discriminate.
        injection H as <- _. lia.
      * intros k o H _ k' H'. cbn in H, H'.
        destruct H' as [<-|[]].
        destruct H as [H|[H|[H|[H|[H|[]]]]]]; try discriminate.
        injection H as <- _. lia.
      * reflexivity.
    + destruct (Z.ltb_spec a max_retries) as [Hlt|Hge].
      * destruct (attempt_loop e max_retries (py_range (a + 1) (max_retries + 1)) _)
          as [tr' res'] eqn:Hrec.
        injection Hrun as <- <-.
        destruct (IH (a + 1)%Z _ _ _ ltac:(lia) Hrec) as (Hc & Ha & Hv & Hlast & Hterm).
        refine (conj _ (conj _ (conj _ (conj _ _)))).
        -- unfold count_if in *. cbn. lia.
        -- intros k H. cbn in H. destruct H as [<-|H]; [lia|]. apply Ha in H. lia.
        -- intros k o H. cbn in H.
           destruct H as [H|[H|[H|[H|[H|[H|H]]]]]]; try discriminate.
           ++ injection H as <- _. lia.
           ++ apply Hv in H. lia.
        -- intros k o Hin Hval k' Hk'. cbn in Hin.
           destruct Hin as [H|[H|[H|[H|[H|[H|Hin]]]]]]; try discriminate.
           ++ injection H as <- <-. destruct Hval as [cd Hcd]. discriminate.
           ++ cbn in Hk'. destruct Hk' as [<-|Hk'].
              ** apply Hv in Hin. lia.
              ** eapply Hlast; eauto.
        -- unfold count_if in *. cbn. rewrite Hterm. destruct res'; [|reflexivity].
           destruct n; [lia|reflexivity].
      * injection Hrun as <- <-.
        refine (conj _ (conj _ (conj _ (conj _ _)))).
        -- unfold count_if; cbn; lia.
        -- intros k H; cbn in H. destruct H as [<-|[]]. lia.
        -- intros k o H; cbn in H.
           destruct H as [H|[H|[H|[H|[H|[H|[]]]]]]]; try discriminate.
           injection H as <- _. lia.
        -- intros k o H _ k' H'. cbn in H, H'.
           destruct H' as [<-|[]].
           destruct H as [H|[H|[H|[H|[H|[H|[]]]]]]]; try discriminate.
           injection H as <- _. lia.
        -- reflexivity.
    + injection Hrun as <- <-.
      refine (conj _ (conj _ (conj _ (conj _ _)))).
      * unfold count_if; cbn; lia.
      * intros k H; cbn in H. destruct H as [<-|[]]. lia.
      * intros k o H; cbn in H.
        destruct H as [H|[H|[H|[H|[]]]]]; try discriminate.
        injection H as <- _. lia.
      * intros k o H _ k' H'. cbn in H, H'.
        destruct H' as [<-|[]].
        destruct H as [H|[H|[H|[H|[]]]]]; try discriminate.
        injection H as <- _. lia.
      * reflexivity.
Qed.

(** A run over the attempts [k + 1 .. max_retries] that starts with the
    prompt of attempt [k + 1], when the validations of these attempts all
    fail: its events, and the document it returns. *)
Lemma attempt_loop_all_invalid e first_prompt max_retries m :
  forall k tr res,
    Z.of_nat (k + m) = max_retries ->
    (forall j, (k <= j < k + m)%nat -> is_invalid (outcome_of e first_prompt j)) ->
    attempt_loop e max_retries (py_range (Z.of_nat k + 1) (max_retries + 1))
      (prompt_of e first_prompt k) = (tr, res) ->
    events tr = flat_map (failed_attempt e first_prompt max_retries) (seq k m)
    /\ (m <> 0%nat ->
        res = Ok (document_of (outcome_of e first_prompt (k + m - 1)))).
Proof.
  induction m as [|m IH]; intros k tr res Hn Hinv Hrun.
  - rewrite py_range_nil in Hrun by lia. injection Hrun as <- <-.
    split; [reflexivity|congruence].
  - rewrite py_range_cons in Hrun by lia. rewrite attempt_loop_cons in Hrun.
    cbv zeta in Hrun. fold (outcome_of e first_prompt k) in Hrun.
    destruct (Hinv k ltac:(lia)) as (err & errors & code_dict & Ho).
    cbn [seq flat_map]. unfold failed_attempt at 1. cbv zeta.
    rewrite Ho in *. cbn [errors_of document_of].
    destruct (Z.ltb_spec (Z.of_nat k + 1) max_retries) as [Hlt|Hge].
    + assert (Hp : corrective_prompt (generator e) (err :: errors)
                   = prompt_of e first_prompt (S k)).
      { cbn [prompt_of]. fold (outcome_of e first_prompt k). now rewrite Ho. }
      rewrite Hp in Hrun.
      replace (Z.of_nat k + 1 + 1)%Z with (Z.of_nat (S k) + 1)%Z in Hrun by lia.
      destruct (attempt_loop e max_retries _ (prompt_of e first_prompt (S k)))
        as [tr' res'] eqn:Hrec.
      injection Hrun as <- <-.
      destruct (IH (S k) tr' res' ltac:(lia)
                  ltac:(intros j Hj; apply Hinv; lia) Hrec) as [Hev Hres].
      split.
      * cbn [app events]. now rewrite Hev.
      * intros _. replace (k + S m - 1)%nat with (S k + m - 1)%nat by lia.
        apply Hres. lia.
    + injection Hrun as <- <-.
      assert (m = 0%nat) by lia. subst m. split.
      * reflexivity.
      * intros _. replace (k + 1 - 1)%nat with k by lia.
        now rewrite Ho.
Qed.

(** A run with a ceiling of at least 1 announces at most [max_retries]
    attempts and yields at most one terminal event: exactly one when the
    generator returns, none when [validate] raises. *)
Lemma orchestrate_shape e user_prompt max_retries history :
  (1 <= max_retries)%Z ->
  let r := orchestrate_agentic_loop e user_prompt max_retries history in
  count_if is_attempt (events (fst r)) <= Z.to_nat max_retries
  /\ (forall k o, In (Validated k o) (fst r) -> is_valid o ->
        forall k', In (Yield (Attempt k')) (fst r) -> (k' <= k)%Z)
  /\ count_if is_terminal (events (fst r))
     = match snd r with Ok _ => 1 | Raise _ => 0 end.
Proof.
  intros Hr r. destruct r as [tr res] eqn:Hrun. unfold r in Hrun.
  unfold orchestrate_agentic_loop in Hrun.
  destruct (attempt_loop_shape e max_retries (Z.to_nat max_retries) 1 _ _ _
              ltac:(lia) Hrun)
    as (Hc & _ & _ & Hv & Ht).
  cbn [fst snd]. repeat split.
  - exact Hc.
  - intros k o Hin Hval k' Hk'. apply (Hv k o Hin Hval).
    unfold attempts_of. apply in_flat_map.
    exists (Yield (Attempt k')). split; [assumption|now left].
  - rewrite Ht. destruct res; [|reflexivity].
    destruct (Z.to_nat max_retries) eqn:E; [lia|reflexivity].
Qed.

(** A run whose first validation passes. *)
Lemma first_attempt_valid e user_prompt max_retries history code_dict :
  (1 <= max_retries)%Z ->
  CodeValidator.validate (design_system (generator e))
    (call_llm (generator e) (world e 1%Z)
       (build_prompt (generator e) (full_prompt user_prompt history)))
  = Ok ([], code_dict) ->
  orchestrate_agentic_loop e user_prompt max_retries history
  = ([Yield (Attempt 1);
      Yield (Generating (MSG_GENERATING 1 max_retries));
      Yield (Validating MSG_VALIDATING);
      Validated 1 (Ok ([], code_dict));
      Yield (Success MSG_SUCCESS code_dict)], Ok code_dict).
Proof.
  intros Hr Hv. unfold orchestrate_agentic_loop.
  rewrite py_range_cons by lia. rewrite attempt_loop_cons. cbv zeta.
  rewrite Hv. reflexivity.
Qed.

(** C1 (defect): the run yields exactly one terminal event only when no
    validation raises.  When the answer of the first attempt makes
    [validate] raise, the run yields [Attempt 1], [Generating] and
    [Validating] and then ends with the exception: it yields no terminal
    event at all. *)
Theorem C1_validation_error_ends_run_without_terminal_event
    e user_prompt max_retries history x :
  (1 <= max_retries)%Z ->
  CodeValidator.validate (design_system (generator e))
    (call_llm (generator e) (world e 1%Z)
       (build_prompt (generator e) (full_prompt user_prompt history)))
  = Raise x ->
  let r := orchestrate_agentic_loop e user_prompt max_retries history in
  r = ([Yield (Attempt 1);
        Yield (Generating (MSG_GENERATING 1 max_retries));
        Yield (Validating MSG_VALIDATING);
        Validated 1 (Raise x)], Raise x)
  /\ count_if is_terminal (events (fst r)) = 0.
Proof.
  intros Hr Hx r. unfold r, orchestrate_agentic_loop.
  rewrite py_range_cons by lia. rewrite attempt_loop_cons. cbv zeta.
  rewrite Hx. split; reflexivity.
Qed.

Lemma C1_validation_error_witness :
  let r := orchestrate_agentic_loop
             (Samples.answering empty_design_system (py "123"))
             Samples.hello 3 [] in
  r = ([Yield (Attempt 1);
        Yield (Generating (MSG_GENERATING 1 3));
        Yield (Validating MSG_VALIDATING);
        Validated 1 (Raise TypeError)], Raise TypeError)
  /\ count_if is_terminal (events (fst r)) = 0.
Proof.
  apply (C1_validation_error_ends_run_without_terminal_event
           (Samples.answering empty_design_system (py "123"))
           Samples.hello 3 [] TypeError).
  - lia.
  - vm_compute. reflexivity.
Defined.

(** C7: for a ceiling of at least 1, when [validate] returns errors for the
    answer of every attempt (each answer being that of [call_llm] to the
    prompt of its attempt), the events of the run are those of
    [max_retries] failed attempts: the last two are [Failed], with the
    errors of the last validation, and [MaxRetries], whose payload is the
    document (possibly none) of the last validation; the generator returns
    that document. *)
Theorem C7_all_invalid_ends_with_last_partial_artifact
    e user_prompt max_retries history :
  (1 <= max_retries)%Z ->
  let first_prompt :=
    build_prompt (generator e) (full_prompt user_prompt history) in
  let n := Z.to_nat max_retries in
  (forall k, (k < n)%nat -> is_invalid (outcome_of e first_prompt k)) ->
  let last := outcome_of e first_prompt (n - 1) in
  let r := orchestrate_agentic_loop e user_prompt max_retries history in
  events (fst r) = flat_map (failed_attempt e first_prompt max_retries) (seq 0 n)
  /\ (exists before,
        events (fst r)
        = before ++ [Failed (MSG_FAILED (errors_of last)) (errors_of last);
                     MaxRetries MSG_MAX_RETRIES (document_of last)])
  /\ snd r = Ok (document_of last).
Proof.
  intros Hr first_prompt n Hinv last r.
  destruct r as [tr res] eqn:Hrun. unfold r, orchestrate_agentic_loop in Hrun.
  fold first_prompt in Hrun. subst last.
  destruct (Z.to_nat max_retries) as [|n'] eqn:En; [lia|]. subst n.
  destruct (attempt_loop_all_invalid e first_prompt max_retries (S n') 0 tr res
              ltac:(lia) ltac:(intros j Hj; apply Hinv; lia) Hrun)
    as [Hev Hres].
  replace (0 + S n' - 1)%nat with n' in Hres by lia.
  replace (S n' - 1)%nat with n' by lia.
  cbn [fst snd]. split; [exact Hev|]. split.
  - rewrite Hev, seq_S, flat_map_app. cbn [flat_map plus]. rewrite app_nil_r.
    unfold failed_attempt at 2. cbv zeta.
    destruct (Z.ltb_spec (Z.of_nat n' + 1) max_retries) as [Hlt|_]; [lia|].
    exists (flat_map (failed_attempt e first_prompt max_retries) (seq 0 n')
            ++ [Attempt (Z.of_nat n' + 1);
                Generating (MSG_GENERATING (Z.of_nat n' + 1) max_retries);
                Validating MSG_VALIDATING]).
    rewrite <- app_assoc. reflexivity.
  - apply Hres. lia.
Qed.

(** Two attempts: the first answer is the empty document, the second is not
    JSON.  The payload of [MaxRetries] is that of the second validation
    (none), not the document of the first. *)
Lemma C7_all_invalid_witness :
  let e := Samples.answering_twice empty_design_system (py "{}") (py "not json") in
  let first_prompt := build_prompt (generator e) (full_prompt Samples.hello []) in
  let last := outcome_of e first_prompt 1 in
  let r := orchestrate_agentic_loop e Samples.hello 2 [] in
  (document_of (outcome_of e first_prompt 0) = Some (JDict [])
   /\ document_of last = None)
  /\ events (fst r) = flat_map (failed_attempt e first_prompt 2) (seq 0 2)
  /\ (exists before,
        events (fst r)
        = before ++ [Failed (MSG_FAILED (errors_of last)) (errors_of last);
                     MaxRetries MSG_MAX_RETRIES (document_of last)])
  /\ snd r = Ok (document_of last).
Proof.
  intros e first_prompt last r. split.
  - split; vm_compute; reflexivity.
  - apply (C7_all_invalid_ends_with_last_partial_artifact e Samples.hello 2 []).
    + lia.
    + intros k Hk. change (Z.to_nat 2) with 2%nat in Hk.
      destruct k as [|[|k]]; [| |lia].
      * vm_compute. do 3 eexists. reflexivity.
      * vm_compute. do 3 eexists. reflexivity.
Defined.

(** C8, as stated, fails: with a ceiling of 0 the run is empty.  It yields
    no event and returns [None]; it neither raises nor runs as it does with
    the ceiling 1. *)
Lemma C8_ceiling_zero_counterexample :
  let e := Samples.offline empty_design_system in
  ~ ((exists x, snd (orchestrate_agentic_loop e Samples.hello 0 []) = Raise x)
     \/ orchestrate_agentic_loop e Samples.hello 0 []
        = orchestrate_agentic_loop e Samples.hello 1 []).
Proof.
  intros e [[x H]|H].
  - vm_compute in H. discriminate.
  - apply (f_equal (fun r => List.length (fst r))) in H.
    vm_compute in H. discriminate.
Qed.

(** C8 (amended): a ceiling of 0 or below is neither rejected nor clamped;
    the loop body never runs: the run yields no event, so no terminal
    event, and the generator returns [None]. *)
Theorem C8_nonpositive_ceiling_runs_no_attempt
    e user_prompt max_retries history :
  (max_retries <= 0)%Z ->
  orchestrate_agentic_loop e user_prompt max_retries history = ([], Ok None).
Proof.
  intros Hr. unfold orchestrate_agentic_loop.
  rewrite py_range_nil by lia. reflexivity.
Qed.

Lemma C8_nonpositive_ceiling_witness :
  orchestrate_agentic_loop (Samples.offline empty_design_system)
    Samples.hello (-2) [] = ([], Ok None).
Proof.
  apply (C8_nonpositive_ceiling_runs_no_attempt
           (Samples.offline empty_design_system) Samples.hello (-2) []).
  lia.
Defined.

End MainFacts.

(* ------------------------------------------------------------------ *)
(** * Properties of the generator *)

Module GeneratorFacts.

Import ComponentGenerator ValidatorFacts GeneratorSpec.

Lemma startswith_app sub a b :
  startswith sub a = true -> startswith sub (a ++ b) = true.
Proof.
  revert a. induction sub as [|x sub IH]; intros [|y a] H; cbn in *;
    try reflexivity; try discriminate.
  apply andb_true_iff in H as [-> H]. cbn. now apply IH.
Qed.

Lemma contains_app_l sub a b :
  contains sub a = true -> contains sub (a ++ b) = true.
Proof.
  induction a as [|y a IH]; intros H.
  - cbn in H. rewrite orb_false_r in H. destruct sub; [|discriminate].
    apply contains_nil.
  - cbn [contains] in H. apply orb_true_iff in H as [H|H].
    + pose proof (startswith_app _ (y :: a) b H) as H'.
      cbn [app contains] in *. rewrite H'. reflexivity.
    + cbn [app contains]. rewrite (IH H). apply orb_true_r.
Qed.

Lemma contains_app_r sub a b :
  contains sub b = true -> contains sub (a ++ b) = true.
Proof.
  intros H. induction a as [|y a IH]; [exact H|].
  cbn [app contains]. rewrite IH. apply orb_true_r.
Qed.

Lemma startswith_self_app sub b : startswith sub (sub ++ b) = true.
Proof.
  induction sub as [|x sub IH]; [apply startswith_nil|].
  cbn. now rewrite N.eqb_refl.
Qed.

Lemma contains_self_app sub b : contains sub (sub ++ b) = true.
Proof.
  destruct (sub ++ b) eqn:E; cbn [contains]; rewrite <- E;
    rewrite startswith_self_app; reflexivity.
Qed.

(** [sub in a + sub + b] *)
Lemma contains_middle sub a b : contains sub (a ++ sub ++ b) = true.
Proof. apply contains_app_r, contains_self_app. Qed.

(** Lower-casing a text: what comes before it only matters for a capital
    sigma. *)
Lemma lower_from_app a : forall before b,
  exists x, lower_from before (a ++ b) = x ++ lower_from (rev a ++ before) b.
Proof.
  induction a as [|c a IH]; intros before b; [now exists []|].
  cbn [app lower_from rev]. destruct (IH (c :: before) b) as [x ->].
  exists ((if (c =? 931)%N then [handle_capital_sigma before (a ++ b)]
           else to_lower_full c) ++ x).
  rewrite <- !app_assoc. reflexivity.
Qed.

(** A text without capital sigma is lower-cased character by character. *)
Lemma lower_from_no_sigma lit : forall before b,
  forallb (fun c => negb (c =? 931)%N) lit = true ->
  lower_from before (lit ++ b)
  = flat_map to_lower_full lit ++ lower_from (rev lit ++ before) b.
Proof.
  induction lit as [|c lit IH]; intros before b H; [reflexivity|].
  cbn [forallb] in H. apply andb_true_iff in H as [Hc H].
  apply negb_true_iff in Hc.
  cbn [app lower_from rev flat_map]. rewrite Hc, (IH _ _ H).
  rewrite <- !app_assoc. reflexivity.
Qed.

(** A literal without capital sigma shows lower-cased in the lower-cased
    whole. *)
Lemma lower_contains_literal sub a lit b :
  forallb (fun c => negb (c =? 931)%N) lit = true ->
  contains sub (flat_map to_lower_full lit) = true ->
  contains sub (lower (a ++ lit ++ b)) = true.
Proof.
  intros Hlit Hsub. unfold lower.
  destruct (lower_from_app a [] (lit ++ b)) as [x ->].
  rewrite (lower_from_no_sigma _ _ _ Hlit).
  now apply contains_app_r, contains_app_l.
Qed.

Lemma meets_cased_neutral l n r :
  is_neutral n = true -> meets_cased (l ++ n :: r) = meets_cased l.
Proof.
  intros Hn. unfold is_neutral in Hn. apply andb_true_iff in Hn as [Hi Hc].
  apply negb_true_iff in Hi, Hc.
  induction l as [|c l IH]; cbn [app meets_cased].
  - now rewrite Hi, Hc.
  - now rewrite IH.
Qed.

(** Between two neutral characters a text is lower-cased as it is on its
    own. *)
Lemma lower_from_between_neutral s : forall p n' before n rest,
  is_neutral n' = true -> is_neutral n = true ->
  lower_from (p ++ n' :: before) (s ++ n :: rest)
  = lower_from p s ++ lower_from (rev s ++ p ++ n' :: before) (n :: rest).
Proof.
  induction s as [|c s IH]; intros p n' before n rest Hn' Hn; [reflexivity|].
  cbn [app lower_from rev].
  change (c :: p ++ n' :: before) with ((c :: p) ++ n' :: before).
  rewrite (IH (c :: p) n' before n rest Hn' Hn).
  unfold handle_capital_sigma.
  rewrite !meets_cased_neutral by assumption.
  rewrite <- !app_assoc. reflexivity.
Qed.

(** A text set between spaces shows lower-cased in the lower-cased whole. *)
Lemma lower_contains_spaced a s b :
  contains (lower s) (lower (a ++ 32%N :: s ++ 32%N :: b)) = true.
Proof.
  unfold lower.
  change (a ++ 32%N :: s ++ 32%N :: b)
    with (a ++ [32%N] ++ s ++ 32%N :: b).
  rewrite app_assoc.
  destruct (lower_from_app (a ++ [32%N]) [] (s ++ 32%N :: b)) as [x ->].
  rewrite rev_app_distr. cbn [rev app].
  pose proof (lower_from_between_neutral s [] 32%N (rev a ++ []) 32%N b
                eq_refl eq_refl) as H.
  cbn [app] in H. rewrite H.
  apply contains_app_r, contains_self_app.
Qed.

Lemma first_answer_no_clients world providers prompt :
  first_answer world [] providers prompt = None.
Proof. induction providers as [|p l IH]; [reflexivity|exact IH]. Qed.

(** Without a configured provider [call_llm] is the mock. *)
Lemma call_llm_offline self world prompt :
  clients self = [] ->
  call_llm self world prompt = _mock_for_prompt self prompt.
Proof.
  intros H. unfold call_llm. rewrite H, first_answer_no_clients. reflexivity.
Qed.

(** The prompt [build_prompt] returns names [MatButton], so its lower-cased
    text contains the keyword [button]. *)
Lemma build_prompt_contains_button self user_prompt :
  contains (py "button") (lower (build_prompt self user_prompt)) = true.
Proof.
  unfold build_prompt. rewrite app_assoc.
  apply lower_contains_literal; vm_compute; reflexivity.
Qed.

Lemma category_of_button p :
  contains (py "button") p = true -> category_of p <> Login.
Proof.
  intros H. unfold category_of.
  repeat match goal with
         | |- (if ?b then _ else _) <> _ =>
           let E := fresh in destruct b eqn:E; [discriminate|]
         end.
  cbn [any_in existsb] in *. rewrite H in *. discriminate.
Qed.

(** C9 (defect): without a configured provider the answer of [call_llm] is
    the mock, chosen by the keywords found in the prompt it is given.  The
    orchestrator gives it the prompt built by [build_prompt], not the
    request, and the text of that prompt contains [button] (in
    [MatButton]): whatever the request, the branch taken is one of the five
    keyword branches, never the default login branch. *)
Theorem C9_default_login_branch_unreachable self world user_prompt :
  clients self = [] ->
  let prompt := build_prompt self user_prompt in
  call_llm self world prompt
  = JsonDumps.dumps
      (mock self (category_of (lower prompt)) (lower prompt))
  /\ category_of (lower prompt) <> Login.
Proof.
  intros H prompt. split.
  - rewrite (call_llm_offline _ _ _ H). reflexivity.
  - apply category_of_button, build_prompt_contains_button.
Qed.

Lemma C9_default_login_branch_witness :
  let self := Main.generator (Samples.offline empty_design_system) in
  let prompt := build_prompt self GeneratorSpec.user_request in
  call_llm self (fun _ _ => None) prompt
  = JsonDumps.dumps
      (mock self (category_of (lower prompt)) (lower prompt))
  /\ category_of (lower prompt) <> Login.
Proof.
  apply (C9_default_login_branch_unreachable
           (Main.generator (Samples.offline empty_design_system))
           (fun _ _ => None) GeneratorSpec.user_request).
  reflexivity.
Defined.

(** The request of [main] names no keyword of the five branches, so the mock
    for the request itself is the login card; the mock for the prompt built
    from it is the button showcase. *)
Example main_request_gets_button_showcase :
  let self := Main.generator (Samples.offline empty_design_system) in
  category_of (lower GeneratorSpec.user_request) = Login
  /\ category_of (lower (build_prompt self GeneratorSpec.user_request)) = Button
  /\ call_llm self (fun _ _ => None)
       (build_prompt self GeneratorSpec.user_request)
     <> _mock_for_prompt self GeneratorSpec.user_request.
Proof.
  repeat split; try (vm_compute; reflexivity).
  vm_compute. discriminate.
Qed.

End GeneratorFacts.

(* ------------------------------------------------------------------ *)
(** * [json.loads] after [json.dumps] *)

Module RoundTrip.

Import Json JsonDumps Text ValidatorFacts.

Local Open Scope N_scope.

Lemma hexval_hexdigit d : d < 16 -> hexval (hexdigit d) = Some d.
Proof.
  intros H. unfold hexval, hexdigit.
  destruct (N.ltb_spec d 10).
  - replace ((48 <=? 48 + d) && (48 + d <=? 57))%bool with true
      by (symmetry; apply andb_true_iff; split; apply N.leb_le; lia).
    f_equal. lia.
  - replace ((48 <=? 87 + d) && (87 + d <=? 57))%bool with false
      by (symmetry; apply andb_false_iff; right; apply N.leb_gt; lia).
    replace ((97 <=? 87 + d) && (87 + d <=? 102))%bool with true
      by (symmetry; apply andb_true_iff; split; apply N.leb_le; lia).
    f_equal. lia.
Qed.

Lemma hexdigit_not_backtick d : d < 16 -> hexdigit d <> 96.
Proof. unfold hexdigit. destruct (N.ltb_spec d 10); lia. Qed.

Lemma mod16_lt x : x mod 16 < 16.
Proof. apply N.mod_lt. discriminate. Qed.

Lemma hex_digits_value n :
  n < 65536 ->
  (((n / 4096) mod 16 * 16 + (n / 256) mod 16) * 16 + (n / 16) mod 16) * 16
  + n mod 16 = n.
Proof.
  intros H.
  replace (n / 4096) with (n / 16 / 16 / 16)
    by (rewrite !N.Div0.div_div; reflexivity).
  replace (n / 256) with (n / 16 / 16)
    by (rewrite !N.Div0.div_div; reflexivity).
  pose proof (N.div_mod n 16 ltac:(discriminate)) as E0.
  pose proof (N.mod_lt n 16 ltac:(discriminate)) as L0.
  pose proof (N.div_mod (n / 16) 16 ltac:(discriminate)) as E1.
  pose proof (N.mod_lt (n / 16) 16 ltac:(discriminate)) as L1.
  pose proof (N.div_mod (n / 16 / 16) 16 ltac:(discriminate)) as E2.
  pose proof (N.mod_lt (n / 16 / 16) 16 ltac:(discriminate)) as L2.
  pose proof (N.div_mod (n / 16 / 16 / 16) 16 ltac:(discriminate)) as E3.
  pose proof (N.mod_lt (n / 16 / 16 / 16) 16 ltac:(discriminate)) as L3.
  generalize dependent (n mod 16). generalize dependent ((n / 16) mod 16).
  generalize dependent ((n / 16 / 16) mod 16).
  generalize dependent ((n / 16 / 16 / 16) mod 16).
  generalize dependent (n / 16 / 16 / 16 / 16).
  generalize dependent (n / 16 / 16 / 16).
  generalize dependent (n / 16 / 16).
  generalize dependent (n / 16).
  intros. lia.
Qed.

(** [_decode_uXXXX] reads back what ['\\u{0:04x}'.format(n)] writes. *)
Lemma hex4_u_escape n :
  n < 65536 ->
  hex4 (hexdigit ((n / 4096) mod 16)) (hexdigit ((n / 256) mod 16))
       (hexdigit ((n / 16) mod 16)) (hexdigit (n mod 16)) = Some n.
Proof.
  intros H. unfold hex4.
  rewrite !hexval_hexdigit by apply mod16_lt.
  f_equal. now apply hex_digits_value.
Qed.

Lemma lor_shiftl_low a b k : b < 2 ^ k -> N.lor (N.shiftl a k) b = a * 2 ^ k + b.
Proof.
  intros Hb. rewrite <- N.lxor_lor, <- N.add_nocarry_lxor, N.shiftl_mul_pow2;
    try reflexivity.
  all: apply N.bits_inj_0; intros i; rewrite N.land_spec;
    destruct (N.lt_ge_cases i k) as [Hlt|Hge];
    [ rewrite N.shiftl_spec_low by assumption; reflexivity
    | destruct (N.eq_dec b 0) as [->|Hnz];
      [ rewrite N.bits_0; apply andb_false_r
      | rewrite (N.bits_above_log2 b i), andb_false_r; [reflexivity|];
        apply N.lt_le_trans with k; [|assumption];
        apply N.log2_lt_pow2; lia ] ].
Qed.

(** The surrogate pair [escape_char] writes for a code point above the
    basic plane, and its parts. *)
Lemma surrogate_pair c :
  65536 <= c -> c < 1114112 ->
  let n := c - 65536 in
  let hi := N.lor 55296 (N.land (N.shiftr n 10) 1023) in
  let lo := N.lor 56320 (N.land n 1023) in
  hi < 65536 /\ lo < 65536
  /\ is_high_surrogate hi = true /\ is_low_surrogate lo = true
  /\ join_surrogates hi lo = c.
Proof.
  intros Hlo Hhi n hi lo.
  assert (Hn : n < 1048576) by (unfold n; lia).
  assert (Ehi : hi = 55296 + n / 1024).
  { unfold hi. change 1023 with (N.ones 10). rewrite N.land_ones.
    rewrite N.shiftr_div_pow2. change (2 ^ 10) with 1024.
    rewrite N.mod_small by (apply N.Div0.div_lt_upper_bound; lia).
    change 55296 with (N.shiftl 54 10) at 1.
    rewrite lor_shiftl_low
      by (change (2 ^ 10) with 1024; apply N.Div0.div_lt_upper_bound; lia).
    reflexivity. }
  assert (Elo : lo = 56320 + n mod 1024).
  { unfold lo. change 1023 with (N.ones 10). rewrite N.land_ones.
    change (2 ^ 10) with 1024.
    change 56320 with (N.shiftl 55 10) at 1.
    rewrite lor_shiftl_low
      by (change (2 ^ 10) with 1024; apply N.mod_lt; discriminate).
    reflexivity. }
  assert (Hq : n / 1024 < 1024) by (apply N.Div0.div_lt_upper_bound; lia).
  assert (Hr : n mod 1024 < 1024) by (apply N.mod_lt; discriminate).
  pose proof (N.div_mod n 1024 ltac:(discriminate)) as Hdm.
  assert (En : n = c - 65536) by reflexivity.
  clearbody hi lo. subst hi lo. clearbody n.
  generalize dependent (n / 1024). generalize dependent (n mod 1024).
  intros r Hr q Hq Hdm.
  repeat split; try lia.
  - unfold is_high_surrogate. apply andb_true_iff; split; apply N.leb_le; lia.
  - unfold is_low_surrogate. apply andb_true_iff; split; apply N.leb_le; lia.
  - unfold join_surrogates.
    replace (55296 + q - 55296) with q by lia.
    replace (56320 + r - 56320) with r by lia.
    rewrite lor_shiftl_low by exact Hr. change (2 ^ 10) with 1024.
    lia.
Qed.

(** One step of [scanstring] on a [\uXXXX] escape that is not the first half
    of a pair. *)
Lemma scanstring_u h1 h2 h3 h4 uni rest :
  hex4 h1 h2 h3 h4 = Some uni -> is_high_surrogate uni = false ->
  scanstring (92 :: 117 :: h1 :: h2 :: h3 :: h4 :: rest)
  = push uni (scanstring rest).
Proof.
  intros Hh Hs. cbn [scanstring]. change (92 =? QUOTE) with false.
  change (92 =? BACKSLASH) with true. change (117 =? 117) with true.
  cbv iota. rewrite Hh, Hs. reflexivity.
Qed.

(** One step of [scanstring] on a surrogate pair. *)
Lemma scanstring_pair h1 h2 h3 h4 g1 g2 g3 g4 hi lo rest :
  hex4 h1 h2 h3 h4 = Some hi -> is_high_surrogate hi = true ->
  hex4 g1 g2 g3 g4 = Some lo -> is_low_surrogate lo = true ->
  scanstring (92 :: 117 :: h1 :: h2 :: h3 :: h4
              :: 92 :: 117 :: g1 :: g2 :: g3 :: g4 :: rest)
  = push (join_surrogates hi lo) (scanstring rest).
Proof.
  intros Hh Hs Hg Hl. cbn [scanstring]. change (92 =? QUOTE) with false.
  change (92 =? BACKSLASH) with true. change (117 =? 117) with true.
  cbv iota. rewrite Hh, Hs. cbn [andb]. cbv iota. rewrite Hg, Hl. reflexivity.
Qed.

(** [scanstring] reads one escaped character back. *)
Lemma scanstring_escape_char c rest :
  is_scalar c = true ->
  scanstring (escape_char c ++ rest) = push c (scanstring rest).
Proof.
  intros Hc. unfold is_scalar in Hc. apply andb_true_iff in Hc as [Hmax Hsur].
  apply N.ltb_lt in Hmax. apply negb_true_iff, andb_false_iff in Hsur.
  unfold escape_char.
  destruct (N.eqb_spec c 34) as [->|H34]; [reflexivity|].
  destruct (N.eqb_spec c 92) as [->|H92]; [reflexivity|].
  destruct ((32 <=? c) && (c <=? 126))%bool eqn:Hprint.
  { apply andb_true_iff in Hprint as [H32 H126]. apply N.leb_le in H32.
    cbn [app scanstring]. unfold QUOTE, BACKSLASH.
    destruct (N.eqb_spec c 34); [contradiction|].
    destruct (N.eqb_spec c 92); [contradiction|].
    destruct (N.ltb_spec c 32); [lia|reflexivity]. }
  destruct (N.eqb_spec c 8) as [->|H8]; [reflexivity|].
  destruct (N.eqb_spec c 12) as [->|H12]; [reflexivity|].
  destruct (N.eqb_spec c 10) as [->|H10]; [reflexivity|].
  destruct (N.eqb_spec c 13) as [->|H13]; [reflexivity|].
  destruct (N.eqb_spec c 9) as [->|H9]; [reflexivity|].
  destruct (N.ltb_spec c 65536) as [Hbmp|Hsup].
  - unfold u_escape. cbn [app]. apply scanstring_u.
    + now apply hex4_u_escape.
    + unfold is_high_surrogate. apply andb_false_iff.
      destruct Hsur as [H|H]; apply N.leb_gt in H; [left|right];
        apply N.leb_gt; lia.
  - destruct (surrogate_pair c Hsup Hmax) as (Hhi & Hlo & Hh & Hl & Hj).
    cbv zeta in *. unfold u_escape. cbn [app].
    etransitivity;
      [ apply scanstring_pair; [| exact Hh | | exact Hl];
        now apply hex4_u_escape
      | rewrite Hj; reflexivity ].
Qed.

(** [scanstring] reads an escaped string back, up to the closing quote. *)
Lemma scanstring_escape s rest :
  is_text s = true ->
  scanstring (escape s ++ 34 :: rest) = Some (s, rest).
Proof.
  induction s as [|c s IH]; intros Hs; [reflexivity|].
  cbn [is_text forallb] in Hs. apply andb_true_iff in Hs as [Hc Hs].
  unfold escape. cbn [flat_map]. rewrite <- app_assoc.
  rewrite (scanstring_escape_char _ _ Hc). fold (escape s).
  rewrite (IH Hs). reflexivity.
Qed.

Lemma scan_once_S fuel c s :
  scan_once (S fuel) (c :: s)
  = if (c =? QUOTE) then
      match scanstring s with
      | Some (body, rest) => Parsed (JStr body) rest
      | None => DecodeError
      end
    else if (c =? 123) then
      match skip_ws s with
      | c1 :: s1 =>
        if (c1 =? 125) then Parsed (JDict []) s1
        else if (c1 =? QUOTE) then object_loop fuel [] s1
        else DecodeError
      | [] => DecodeError
      end
    else if (c =? 91) then
      match skip_ws s with
      | c1 :: s1 =>
        if (c1 =? 93) then Parsed (JList []) s1
        else array_loop fuel [] (c1 :: s1)
      | [] => DecodeError
      end
    else if startswith (py "null") (c :: s) then Parsed JNull (skipn 4 (c :: s))
    else if startswith (py "true") (c :: s)
    then Parsed (JBool true) (skipn 4 (c :: s))
    else if startswith (py "false") (c :: s)
    then Parsed (JBool false) (skipn 5 (c :: s))
    else
      match scan_number (c :: s) with
      | Some (v, rest) => Parsed v rest
      | None => of_option (scan_constant (c :: s))
      end.
Proof. reflexivity. Qed.

Lemma object_loop_S fuel pairs s :
  object_loop (S fuel) pairs s
  = match scanstring s with
    | None => DecodeError
    | Some (key, s1) =>
      match skip_ws s1 with
      | colon :: s2 =>
        if (colon =? 58) then
          match scan_once fuel (skip_ws s2) with
          | Parsed value s3 =>
            let pairs' := pairs ++ [(key, value)] in
            match skip_ws s3 with
            | c :: s4 =>
              if (c =? 125) then Parsed (JDict (dict_of_pairs pairs')) s4
              else if (c =? 44) then
                match skip_ws s4 with
                | q :: s5 =>
                  if (q =? QUOTE) then object_loop fuel pairs' s5
                  else DecodeError
                | [] => DecodeError
                end
              else DecodeError
            | [] => DecodeError
            end
          | DecodeError => DecodeError
          | OutOfFuel => OutOfFuel
          end
        else DecodeError
      | [] => DecodeError
      end
    end.
Proof. reflexivity. Qed.

Lemma array_loop_S fuel values s :
  array_loop (S fuel) values s
  = match scan_once fuel s with
    | Parsed value s1 =>
      let values' := values ++ [value] in
      match skip_ws s1 with
      | c :: s2 =>
        if (c =? 93) then Parsed (JList values') s2
        else if (c =? 44) then array_loop fuel values' (skip_ws s2)
        else DecodeError
      | [] => DecodeError
      end
    | DecodeError => DecodeError
    | OutOfFuel => OutOfFuel
    end.
Proof. reflexivity. Qed.

Lemma encode_str_app v tail :
  encode_str v ++ tail = 34 :: escape v ++ 34 :: tail.
Proof. unfold encode_str. cbn [app]. now rewrite <- app_assoc. Qed.

(** [scan_once] reads an encoded string back. *)
Lemma scan_once_encode_str fuel v tail :
  is_text v = true ->
  scan_once (S fuel) (34 :: escape v ++ 34 :: tail) = Parsed (JStr v) tail.
Proof.
  intros Hv. rewrite scan_once_S.
  change (34 =? QUOTE) with true. cbv iota.
  now rewrite scanstring_escape.
Qed.

(** [object_loop] reads the members of a dumped object back. *)
Lemma object_loop_members items :
  forall kv acc fuel rest,
    is_text (fst kv) = true -> is_text (snd kv) = true ->
    is_text_dict items = true ->
    (S (List.length items) < fuel)%nat ->
    object_loop fuel acc
      (escape (fst kv) ++ 34 :: 58 :: 32 :: encode_str (snd kv)
       ++ member_tail items rest)
    = Parsed (JDict (dict_of_pairs (acc ++ as_json (kv :: items)))) rest.
Proof.
  induction items as [|kv' items IH]; intros [k v] acc fuel rest Hk Hv Hd Hf;
    cbn [fst snd] in *;
    (destruct fuel as [|[|fuel]]; [lia|cbn in Hf; lia|]);
    rewrite object_loop_S, (scanstring_escape _ _ Hk), encode_str_app;
    cbn [skip_ws is_ws N.eqb Pos.eqb orb]; cbv iota;
    rewrite (scan_once_encode_str _ _ _ Hv);
    cbv zeta; cbn [member_tail skip_ws is_ws N.eqb Pos.eqb orb]; cbv iota.
  - reflexivity.
  - change (34 =? QUOTE) with true. cbv iota.
    cbn [is_text_dict forallb] in Hd.
    apply andb_true_iff in Hd as [Hkv' Hd].
    apply andb_true_iff in Hkv' as [Hk' Hv'].
    rewrite (IH kv' _ (S fuel) rest Hk' Hv' Hd) by (cbn in Hf; lia).
    unfold as_json. cbn [map fst snd]. now rewrite <- app_assoc.
Qed.

Lemma join_members items :
  forall kv rest,
    Str.join (py ", ") (map encode_item (kv :: items)) ++ 125 :: rest
    = 34 :: escape (fst kv) ++ 34 :: 58 :: 32 :: encode_str (snd kv)
      ++ member_tail items rest.
Proof.
  assert (Hitem : forall kv tail,
             encode_item kv ++ tail
             = 34 :: escape (fst kv) ++ 34 :: 58 :: 32 :: encode_str (snd kv)
               ++ tail).
  { intros kv tail. unfold encode_item.
    rewrite <- !app_assoc, encode_str_app. reflexivity. }
  induction items as [|kv' items IH]; intros kv rest.
  - cbn [map Str.join member_tail]. apply Hitem.
  - cbn [map Str.join]. cbn [map] in IH.
    rewrite <- !app_assoc, Hitem. cbn [member_tail].
    change (py ", ") with [44; 32]. cbn [app].
    rewrite <- (IH kv' rest). reflexivity.
Qed.

Lemma dumps_members kv items :
  dumps (kv :: items)
  = 123 :: 34 :: escape (fst kv) ++ 34 :: 58 :: 32 :: encode_str (snd kv)
    ++ member_tail items [].
Proof.
  unfold dumps. change (py "{") with [123]. change (py "}") with [125].
  cbn [app]. f_equal. apply join_members.
Qed.

Lemma member_tail_length items rest :
  (List.length items < List.length (member_tail items rest))%nat.
Proof.
  induction items as [|kv items IH]; cbn [member_tail List.length]; [lia|].
  rewrite length_app. cbn [List.length]. rewrite length_app. lia.
Qed.

(** [json.loads(json.dumps(d))] for a mapping [d] from text to text: the
    pairs of [d], as [dict] collects them. *)
Lemma loads_dumps_pairs d :
  is_text_dict d = true ->
  loads (dumps d) = Some (JDict (dict_of_pairs (as_json d))).
Proof.
  intros Hd. destruct d as [|kv items]; [reflexivity|].
  cbn [is_text_dict forallb] in Hd.
  apply andb_true_iff in Hd as [Hkv Hd].
  apply andb_true_iff in Hkv as [Hk Hv].
  unfold loads. rewrite dumps_members.
  cbn [skip_ws is_ws N.eqb Pos.eqb orb]. cbv iota.
  rewrite scan_once_S. change (123 =? QUOTE) with false.
  change (123 =? 123) with true. cbv iota.
  cbn [skip_ws is_ws N.eqb Pos.eqb orb]. cbv iota.
  change (34 =? 125) with false. change (34 =? QUOTE) with true. cbv iota.
  rewrite (object_loop_members items kv [] _ [] Hk Hv Hd).
  - reflexivity.
  - cbn [List.length]. rewrite length_app. cbn [List.length].
    rewrite length_app.
    pose proof (member_tail_length items []). lia.
Qed.

Lemma dict_set_fresh {V} k (v : V) d :
  ~ In k (map fst d) -> dict_set k v d = d ++ [(k, v)].
Proof.
  induction d as [|[k' v'] d IH]; intros Hk; [reflexivity|].
  cbn [dict_set app]. cbn [map fst In] in Hk.
  destruct (Str.eqb k k') eqn:E.
  - apply eqb_eq in E. subst. tauto.
  - f_equal. apply IH. tauto.
Qed.

Lemma fold_dict_set_nodup {V} (l : list (pystr * V)) :
  forall acc,
    NoDup (map fst (acc ++ l)) ->
    fold_left (fun d kv => dict_set (fst kv) (snd kv) d) l acc = acc ++ l.
Proof.
  induction l as [|[k v] l IH]; intros acc Hnd; cbn [fold_left].
  - now rewrite app_nil_r.
  - cbn [fst snd]. rewrite dict_set_fresh.
    + rewrite IH; rewrite <- app_assoc; [reflexivity|exact Hnd].
    + rewrite map_app in Hnd. cbn [map fst] in Hnd.
      apply NoDup_remove_2 in Hnd. intros Hin. apply Hnd.
      apply in_or_app. now left.
Qed.

(** [dict(pairs)] keeps pairs with distinct keys as they are. *)
Lemma dict_of_pairs_nodup {V} (l : list (pystr * V)) :
  NoDup (map fst l) -> dict_of_pairs l = l.
Proof. intros H. unfold dict_of_pairs. now rewrite fold_dict_set_nodup. Qed.

End RoundTrip.

(* ------------------------------------------------------------------ *)
(** * Fence removal on dumped documents *)

Module FenceFacts.

Import Json JsonDumps Text Fences CodeValidator ValidatorFacts GeneratorFacts
  RoundTrip.

Local Open Scope N_scope.

Lemma backticks_app a : forall n b,
  backticks n (a ++ b)
  = match backticks n a with
    | Some m => backticks m b
    | None => None
    end.
Proof.
  induction a as [|c a IH]; intros n b; [reflexivity|].
  cbn [app backticks]. destruct (c =? 96); [|apply IH].
  destruct n as [|[|n]]; [apply IH|apply IH|reflexivity].
Qed.

Lemma backticks_no_backtick s : forall n,
  forallb (fun c => negb (c =? 96)) s = true ->
  backticks n s = Some (match s with [] => n | _ => 0%nat end).
Proof.
  induction s as [|c s IH]; intros n H; [reflexivity|].
  cbn [forallb] in H. apply andb_true_iff in H as [Hc Hs].
  cbn [backticks]. apply negb_true_iff in Hc. rewrite Hc.
  rewrite (IH 0%nat Hs). now destruct s.
Qed.

(** Reading a plain text leaves no backtick pending. *)
Lemma backticks_plain lit rest n :
  is_plain lit = true -> backticks n (lit ++ rest) = backticks 0 rest.
Proof.
  intros H. rewrite backticks_app. destruct lit as [|c lit]; [discriminate|].
  cbn [is_plain] in H. now rewrite (backticks_no_backtick _ n H).
Qed.

Lemma startswith_fence_backticks s n :
  startswith FENCE s = true -> backticks n s = None.
Proof.
  change FENCE with [96; 96; 96].
  destruct s as [|a [|b [|c s]]]; cbn [startswith]; try discriminate;
    rewrite ?andb_false_r; try discriminate.
  intros H. apply andb_true_iff in H as [Ha H].
  apply andb_true_iff in H as [Hb H]. apply andb_true_iff in H as [Hc _].
  apply N.eqb_eq in Ha, Hb, Hc. subst. cbn [backticks].
  change (96 =? 96) with true. cbv iota.
  destruct n as [|[|n]]; reflexivity.
Qed.

Lemma contains_cons sub c s :
  contains sub s = true -> contains sub (c :: s) = true.
Proof. intros H. cbn [contains]. rewrite H. apply orb_true_r. Qed.

Lemma repeat_snoc_app {A} (x : A) n l :
  repeat x n ++ x :: l = repeat x (S n) ++ l.
Proof.
  induction n as [|n IH]; [reflexivity|].
  cbn [repeat app] in *. now rewrite IH.
Qed.

Lemma fence_free_backticks t : forall n,
  (n <= 2)%nat ->
  contains FENCE (repeat 96 n ++ t) = false ->
  exists m, backticks n t = Some m.
Proof.
  induction t as [|c t IH]; intros n Hn Hf; [now exists n|].
  cbn [backticks]. destruct (N.eqb_spec c 96) as [->|Hc].
  - destruct n as [|[|[|n]]]; try lia.
    + apply (IH 1%nat); [lia|]. now rewrite <- repeat_snoc_app.
    + apply (IH 2%nat); [lia|]. now rewrite <- repeat_snoc_app.
    + exfalso. cbn in Hf. discriminate.
  - apply (IH 0%nat); [lia|]. cbn [repeat app].
    destruct (contains FENCE t) eqn:E; [|reflexivity].
    rewrite contains_app_r in Hf; [discriminate|].
    now apply contains_cons.
Qed.

(** A text without fence can be read from the start. *)
Lemma fence_free_readable t :
  contains FENCE t = false -> exists m, backticks 0 t = Some m.
Proof. intros H. now apply (fence_free_backticks t 0%nat); [lia|]. Qed.

Lemma is_plain_u_escape n : is_plain (u_escape n) = true.
Proof.
  unfold u_escape, is_plain. cbn [forallb].
  change (92 =? 96) with false. change (117 =? 96) with false. cbn [negb andb].
  repeat match goal with
  | |- context [hexdigit ?d =? 96] =>
    let H := fresh in
    destruct (N.eqb_spec (hexdigit d) 96) as [H|_];
    [apply hexdigit_not_backtick in H; [contradiction|apply mod16_lt]|]
  end.
  reflexivity.
Qed.

Lemma is_plain_app a b : is_plain a = true -> is_plain b = true ->
  is_plain (a ++ b) = true.
Proof.
  destruct a as [|x a]; [discriminate|]. destruct b as [|y b]; [discriminate|].
  cbn [is_plain app]. intros Ha Hb.
  change (x :: a ++ y :: b) with ((x :: a) ++ y :: b).
  rewrite forallb_app, Ha, Hb. reflexivity.
Qed.

Lemma is_plain_escape_char c : c <> 96 -> is_plain (escape_char c) = true.
Proof.
  intros Hc. unfold escape_char.
  repeat match goal with
  | |- is_plain (if ?b then _ else _) = true => destruct b eqn:?
  end; try reflexivity.
  - cbn. destruct (N.eqb_spec c 96); [contradiction|reflexivity].
  - apply is_plain_u_escape.
  - apply is_plain_app; apply is_plain_u_escape.
Qed.

(** Escaping changes nothing for the backticks. *)
Lemma backticks_escape s : forall n rest,
  backticks n (escape s ++ rest) = backticks n (s ++ rest).
Proof.
  induction s as [|c s IH]; intros n rest; [reflexivity|].
  unfold escape. cbn [flat_map]. fold (escape s). rewrite <- app_assoc.
  destruct (N.eq_dec c 96) as [->|Hc].
  - change (escape_char 96) with [96]. cbn [app backticks].
    change (96 =? 96) with true. cbv iota.
    destruct n as [|[|n]]; [apply IH|apply IH|reflexivity].
  - rewrite (backticks_plain _ _ _ (is_plain_escape_char c Hc)).
    cbn [app backticks]. destruct (N.eqb_spec c 96); [contradiction|].
    apply IH.
Qed.

(** Reading an encoded text without fence, up to its closing quote, leaves
    no backtick pending. *)
Lemma backticks_encoded s rest :
  contains FENCE s = false ->
  backticks 0 (escape s ++ 34 :: rest) = backticks 0 rest.
Proof.
  intros H. rewrite backticks_escape, backticks_app.
  destruct (fence_free_readable s H) as [m ->]. reflexivity.
Qed.

Lemma backticks_member_tail items :
  is_fence_free_dict items = true ->
  backticks 0 (member_tail items []) = Some 0%nat.
Proof.
  induction items as [|[k v] items IH]; intros H; [reflexivity|].
  cbn [is_fence_free_dict forallb fst snd] in H.
  apply andb_true_iff in H as [Hkv H]. apply andb_true_iff in Hkv as [Hk Hv].
  apply negb_true_iff in Hk, Hv.
  cbn [member_tail fst snd]. rewrite encode_str_app.
  cbn [backticks N.eqb Pos.eqb]. rewrite (backticks_encoded _ _ Hk).
  cbn [backticks N.eqb Pos.eqb]. rewrite (backticks_encoded _ _ Hv).
  now apply IH.
Qed.

Lemma backticks_dumps d :
  is_fence_free_dict d = true -> backticks 0 (dumps d) = Some 0%nat.
Proof.
  destruct d as [|[k v] items]; intros H; [reflexivity|].
  cbn [is_fence_free_dict forallb fst snd] in H.
  apply andb_true_iff in H as [Hkv H]. apply andb_true_iff in Hkv as [Hk Hv].
  apply negb_true_iff in Hk, Hv.
  rewrite dumps_members. cbn [fst snd]. rewrite encode_str_app.
  cbn [backticks N.eqb Pos.eqb]. rewrite (backticks_encoded _ _ Hk).
  cbn [backticks N.eqb Pos.eqb]. rewrite (backticks_encoded _ _ Hv).
  now apply backticks_member_tail.
Qed.

Lemma startswith_prefix a b s :
  startswith (a ++ b) s = true -> startswith a s = true.
Proof.
  revert s. induction a as [|x a IH]; intros s H; [apply startswith_nil|].
  destruct s as [|y s]; [discriminate|]. cbn [app startswith] in *.
  apply andb_true_iff in H as [-> H]. now apply IH.
Qed.

(** [re.sub] finds no fence in a text that can be read to its end. *)
Lemma fence_match_none s n m :
  backticks n s = Some m -> fence_match s = None.
Proof.
  intros H. unfold fence_match.
  destruct (startswith (py "```json") s) eqn:E1.
  { apply (startswith_prefix FENCE (py "json")) in E1.
    rewrite (startswith_fence_backticks _ n E1) in H. discriminate. }
  destruct (startswith (10 :: py "```") s) eqn:E2.
  { destruct s as [|c s]; [discriminate|]. cbn [startswith] in E2.
    apply andb_true_iff in E2 as [Hc E2]. apply N.eqb_eq in Hc. subst c.
    cbn [backticks] in H. change (10 =? 96) with false in H. cbv iota in H.
    rewrite (startswith_fence_backticks _ 0%nat E2) in H. discriminate. }
  destruct (startswith (py "```") s) eqn:E3; [|reflexivity].
  rewrite (startswith_fence_backticks _ n E3) in H. discriminate.
Qed.

Lemma sub_fences_id s : forall n m,
  backticks n s = Some m -> sub_fences 0 s = s.
Proof.
  induction s as [|c s IH]; intros n m H; [reflexivity|].
  cbn [sub_fences]. rewrite (fence_match_none _ _ _ H). f_equal.
  cbn [backticks] in H. destruct (c =? 96).
  - destruct n as [|[|n]]; [eapply IH; eassumption|eapply IH; eassumption|].
    discriminate.
  - eapply IH; eassumption.
Qed.

Lemma lstrip_nonspace c s : isspace c = false -> lstrip (c :: s) = c :: s.
Proof. intros H. cbn [lstrip]. now rewrite H. Qed.

Lemma strip_delimited c s c' :
  isspace c = false -> isspace c' = false ->
  strip (c :: s ++ [c']) = c :: s ++ [c'].
Proof.
  intros Hc Hc'. unfold strip, rstrip. rewrite (lstrip_nonspace _ _ Hc).
  change (c :: s ++ [c']) with ((c :: s) ++ [c']).
  rewrite rev_app_distr. cbn [rev app]. rewrite (lstrip_nonspace _ _ Hc').
  change (c' :: rev s ++ [c]) with ([c'] ++ rev (c :: s)).
  rewrite rev_app_distr, rev_involutive. reflexivity.
Qed.

Lemma strip_dumps d : strip (dumps d) = dumps d.
Proof.
  destruct d as [|kv items]; [reflexivity|].
  unfold dumps. change (py "{") with [123]. change (py "}") with [125].
  cbn [app]. now apply strip_delimited.
Qed.

(** What [validate] makes of a dumped mapping without fence before it
    decodes it: nothing is removed. *)
Lemma clean_dumps d :
  is_fence_free_dict d = true -> clean (dumps d) = dumps d.
Proof.
  intros H. unfold clean.
  rewrite (sub_fences_id _ _ _ (backticks_dumps d H)). apply strip_dumps.
Qed.

End FenceFacts.

(* ------------------------------------------------------------------ *)
(** * The mock passes validation *)

Module MockFacts.

Import Json JsonDumps Text Fences Tokens CodeValidator ValidatorSpec
  ValidatorFacts ComponentGenerator GeneratorFacts RoundTrip FenceFacts.

(** A text that can be read to its end contains no fence. *)
Lemma backticks_fence_free s : forall n m,
  backticks n s = Some m -> contains FENCE s = false.
Proof.
  induction s as [|c s IH]; intros n m H; [reflexivity|].
  cbn [contains]. apply orb_false_iff. split.
  - destruct (startswith FENCE (c :: s)) eqn:E; [|reflexivity].
    rewrite (startswith_fence_backticks _ n E) in H. discriminate.
  - cbn [backticks] in H. destruct (c =? 96)%N.
    + destruct n as [|[|n]]; [eapply IH; eassumption|eapply IH; eassumption|].
      discriminate.
    + eapply IH; eassumption.
Qed.

Lemma backticks_token_plain tok lit rest :
  contains FENCE tok = false -> is_plain lit = true ->
  backticks 0 (tok ++ lit ++ rest) = backticks 0 rest.
Proof.
  intros Ht Hl. rewrite backticks_app.
  destruct (fence_free_readable tok Ht) as [m ->].
  now apply backticks_plain.
Qed.

Lemma backticks_token_plain_end tok lit :
  contains FENCE tok = false -> is_plain lit = true ->
  backticks 0 (tok ++ lit) = Some 0%nat.
Proof.
  intros Ht Hl. rewrite <- (app_nil_r lit).
  now rewrite backticks_token_plain.
Qed.

Lemma is_clean_text_spec v :
  is_clean_text v = true -> is_text v = true /\ contains FENCE v = false.
Proof.
  unfold is_clean_text. intros H. apply andb_true_iff in H as [H1 H2].
  now apply negb_true_iff in H2.
Qed.

Lemma is_clean_text_intro v m :
  is_text v = true -> backticks 0 v = Some m -> is_clean_text v = true.
Proof.
  intros H1 H2. unfold is_clean_text.
  now rewrite H1, (backticks_fence_free _ _ _ H2).
Qed.

(** Proves that a template is clean text from its clean pieces. *)
Ltac clean_template :=
  repeat match goal with
         | H : is_clean_text _ = true |- _ =>
           apply is_clean_text_spec in H; destruct H
         end;
  apply is_clean_text_intro with 0%nat;
  [ unfold is_text in *; rewrite !forallb_app;
    repeat match goal with
           | H : forallb is_scalar ?t = true |- _ => rewrite H; clear H
           end;
    vm_compute; reflexivity
  | rewrite backticks_plain by (vm_compute; reflexivity);
    repeat (rewrite backticks_token_plain
              by first [assumption | vm_compute; reflexivity]);
    apply backticks_token_plain_end;
    first [assumption | vm_compute; reflexivity] ].

Lemma login_title_clean p : is_clean_text (login_title p) = true.
Proof. unfold login_title. destruct (contains _ p); reflexivity. Qed.

Lemma mock_html_clean c p primary bg radius :
  is_clean_text primary = true -> is_clean_text bg = true ->
  is_clean_text radius = true ->
  is_clean_text (mock_html c p primary bg radius) = true.
Proof.
  intros Hp Hb Hr. pose proof (login_title_clean p) as Ht.
  destruct c; cbn [mock_html].
  - unfold html_register. clean_template.
  - unfold html_navbar. clean_template.
  - unfold html_dashboard. clean_template.
  - unfold html_profile. clean_template.
  - unfold html_button. clean_template.
  - unfold html_login. clean_template.
Qed.

Lemma plain_app_nonempty lit rest :
  is_plain lit = true -> Str.eqb (lit ++ rest) [] = false.
Proof. destruct lit; [discriminate|reflexivity]. Qed.

Lemma mock_html_nonempty c p primary bg radius :
  Str.eqb (mock_html c p primary bg radius) [] = false.
Proof. destruct c; apply plain_app_nonempty; vm_compute; reflexivity. Qed.

Lemma ts_class_clean c :
  is_clean_text (ts_class c) = true /\ no_brackets (ts_class c) = true.
Proof. destruct c; split; vm_compute; reflexivity. Qed.

Lemma mock_css_clean c primary font :
  is_clean_text primary = true -> is_clean_text font = true ->
  is_clean_text (mock_css (ts_class c) primary font) = true.
Proof.
  intros Hp Hf. destruct (ts_class_clean c) as [Hc _].
  unfold mock_css. clean_template.
Qed.

Lemma occurrences_app x a b :
  occurrences x (a ++ b) = occurrences x a + occurrences x b.
Proof. apply count_occ_app. Qed.

Lemma no_brackets_spec v :
  no_brackets v = true ->
  occurrences 123 v = 0 /\ occurrences 125 v = 0
  /\ occurrences 40 v = 0 /\ occurrences 41 v = 0.
Proof.
  unfold no_brackets. intros H.
  repeat (apply andb_true_iff in H as [H ?]).
  repeat split; now apply Nat.eqb_eq.
Qed.

(** The braces and the parentheses of the mock's [css] are balanced. *)
Lemma mock_css_balanced c primary font :
  no_brackets primary = true -> no_brackets font = true ->
  balance_errors (py "css") (mock_css (ts_class c) primary font) = [].
Proof.
  intros Hp Hf.
  destruct (ts_class_clean c) as [_ Hc].
  apply no_brackets_spec in Hp as (P1 & P2 & P3 & P4).
  apply no_brackets_spec in Hf as (F1 & F2 & F3 & F4).
  apply no_brackets_spec in Hc as (C1 & C2 & C3 & C4).
  unfold balance_errors, mock_css. rewrite !occurrences_app.
  rewrite P1, P2, P3, P4, F1, F2, F3, F4, C1, C2, C3, C4.
  reflexivity.
Qed.

(** The mock's [typescript] is clean text, not empty and balanced. *)
Lemma mock_typescript_ok c :
  let ts := mock_typescript (ts_class c) (ts_selector c) in
  is_clean_text ts = true /\ Str.eqb ts [] = false
  /\ balance_errors (py "typescript") ts = [].
Proof. destruct c; repeat split; vm_compute; reflexivity. Qed.

(** The mock's [css] names the primary color. *)
Lemma mock_css_names_primary cls primary font html :
  contains (lower primary) (lower (html ++ mock_css cls primary font)) = true.
Proof.
  replace (html ++ mock_css cls primary font)
    with ((html ++ py "/* " ++ cls ++ py " styles — using")
          ++ 32%N :: primary
          ++ 32%N :: (py "primary token */ * { font-family: " ++ font
                      ++ py "; }")).
  - apply lower_contains_spaced.
  - assert (E1 : py " styles — using " = py " styles — using" ++ [32%N])
      by (vm_compute; reflexivity).
    assert (E2 : py " primary token */ * { font-family: "
                 = 32%N :: py "primary token */ * { font-family: ")
      by (vm_compute; reflexivity).
    unfold mock_css. rewrite E1, E2, <- !app_assoc. reflexivity.
Qed.

(** The recognized tokens of an accepted design system, with the defaults
    of [_mock_for_prompt]. *)
Lemma tokens_ok_lookup ds name :
  tokens_ok ds = true -> In name RECOGNIZED ->
  match dict_get name (tokens ds) with
  | Some v => is_clean_text v = true /\ no_brackets v = true
  | None => True
  end.
Proof.
  intros H Hin. unfold tokens_ok in H. rewrite forallb_forall in H.
  specialize (H name Hin). destruct (dict_get name (tokens ds)); [|exact I].
  now apply andb_true_iff in H.
Qed.

Lemma token_clean self name default :
  tokens_ok (design_system self) = true -> In (py name) RECOGNIZED ->
  is_clean_text default = true ->
  is_clean_text (token self name default) = true.
Proof.
  intros H Hin Hd. unfold token, dict_get_default.
  pose proof (tokens_ok_lookup _ _ H Hin) as Hl.
  destruct (dict_get (py name) (tokens (design_system self))); [apply Hl|exact Hd].
Qed.

Lemma token_no_brackets self name default :
  tokens_ok (design_system self) = true -> In (py name) RECOGNIZED ->
  no_brackets default = true ->
  no_brackets (token self name default) = true.
Proof.
  intros H Hin Hd. unfold token, dict_get_default.
  pose proof (tokens_ok_lookup _ _ H Hin) as Hl.
  destruct (dict_get (py name) (tokens (design_system self))); [apply Hl|exact Hd].
Qed.

(** The color check passes when the configured color shows in the parts. *)
Lemma check_design_named ds d html css :
  dict_get (py "html") d = Some (JStr html) ->
  dict_get (py "css") d = Some (JStr css) ->
  (forall color,
      dict_get (py "primary-color") (tokens ds) = Some color ->
      contains (lower color) (lower (html ++ css)) = true) ->
  _check_design_compliance ds (JDict d) = Ok [].
Proof.
  intros Hhtml Hcss Hcolor. rewrite (check_design_strings _ _ _ _ Hhtml Hcss).
  destruct (dict_get (py "primary-color") (tokens ds)) as [color|] eqn:E;
    [|reflexivity].
  now rewrite (Hcolor color eq_refl).
Qed.

(** What [validate] decodes from a dumped document of three parts. *)
Lemma loads_mock_document html css typescript :
  is_clean_text html = true -> is_clean_text css = true ->
  is_clean_text typescript = true ->
  Json.loads
    (clean (dumps [(py "html", html); (py "css", css);
                   (py "typescript", typescript)]))
  = Some (JDict [(py "html", JStr html); (py "css", JStr css);
                 (py "typescript", JStr typescript)]).
Proof.
  intros Hh Hc Ht.
  apply is_clean_text_spec in Hh as [Hh1 Hh2].
  apply is_clean_text_spec in Hc as [Hc1 Hc2].
  apply is_clean_text_spec in Ht as [Ht1 Ht2].
  rewrite clean_dumps.
  - rewrite loads_dumps_pairs; [reflexivity|].
    cbn [is_text_dict forallb fst snd]. rewrite Hh1, Hc1, Ht1. reflexivity.
  - cbn [is_fence_free_dict forallb fst snd]. rewrite Hh2, Hc2, Ht2.
    reflexivity.
Qed.

(** A document of three strings with balanced parts that names the
    configured color is valid. *)
Lemma validate_parsed_document ds html css typescript :
  Str.eqb html [] = false -> Str.eqb typescript [] = false ->
  balance_errors (py "typescript") typescript = [] ->
  balance_errors (py "css") css = [] ->
  (forall color,
      dict_get (py "primary-color") (tokens ds) = Some color ->
      contains (lower color) (lower (html ++ css)) = true) ->
  validate_parsed ds
    (JDict [(py "html", JStr html); (py "css", JStr css);
            (py "typescript", JStr typescript)])
  = Ok ([], Some (JDict [(py "html", JStr html); (py "css", JStr css);
                         (py "typescript", JStr typescript)])).
Proof.
  intros Hh Ht Hbt Hbc Hcolor.
  assert (Hhtml : dict_get (py "html")
                    [(py "html", JStr html); (py "css", JStr css);
                     (py "typescript", JStr typescript)] = Some (JStr html))
    by reflexivity.
  assert (Hcss : dict_get (py "css")
                   [(py "html", JStr html); (py "css", JStr css);
                    (py "typescript", JStr typescript)] = Some (JStr css))
    by reflexivity.
  assert (Hts : dict_get (py "typescript")
                  [(py "html", JStr html); (py "css", JStr css);
                   (py "typescript", JStr typescript)]
                = Some (JStr typescript))
    by reflexivity.
  unfold validate_parsed. rewrite check_required_dict.
  unfold required_errors, present_nonempty, present.
  rewrite Hhtml, Hcss, Hts. cbn [truthy]. rewrite Hh, Ht. cbn [negb app bind].
  rewrite (check_syntax_strings _ _ _ Hts Hcss), Hbt, Hbc. cbn [bind app].
  rewrite (check_design_named _ _ _ _ Hhtml Hcss Hcolor). reflexivity.
Qed.

(** The mock of every branch is valid for a design system whose configured
    tokens are accepted. *)
Lemma validate_mock self c p :
  tokens_ok (design_system self) = true ->
  validate (design_system self) (dumps (mock self c p))
  = Ok ([], Some (JDict (as_json (mock self c p)))).
Proof.
  intros Hok. unfold mock. cbv zeta.
  assert (Hp : is_clean_text (token self "primary-color" (py "#6366f1")) = true)
    by (apply token_clean; [assumption|cbn; tauto|reflexivity]).
  assert (Hb : is_clean_text
                 (token self "glass-background" (py "rgba(255,255,255,0.1)"))
               = true)
    by (apply token_clean; [assumption|cbn; tauto|reflexivity]).
  assert (Hr : is_clean_text (token self "border-radius" (py "8px")) = true)
    by (apply token_clean; [assumption|cbn; tauto|reflexivity]).
  assert (Hf : is_clean_text (token self "font-family" (py "Inter, sans-serif"))
               = true)
    by (apply token_clean; [assumption|cbn; tauto|reflexivity]).
  assert (Hpb : no_brackets (token self "primary-color" (py "#6366f1")) = true)
    by (apply token_no_brackets; [assumption|cbn; tauto|reflexivity]).
  assert (Hfb : no_brackets (token self "font-family" (py "Inter, sans-serif"))
                = true)
    by (apply token_no_brackets; [assumption|cbn; tauto|reflexivity]).
  destruct (mock_typescript_ok c) as (Ht & Htn & Htb). cbv zeta in *.
  rewrite (validate_decoded _ _ _
             (loads_mock_document _ _ _
                (mock_html_clean c p _ _ _ Hp Hb Hr)
                (mock_css_clean c _ _ Hp Hf) Ht)).
  unfold as_json. cbn [map fst snd].
  apply validate_parsed_document.
  - apply mock_html_nonempty.
  - exact Htn.
  - exact Htb.
  - apply (mock_css_balanced c _ _ Hpb Hfb).
  - intros color Hcolor. unfold token, dict_get_default.
    rewrite Hcolor. apply mock_css_names_primary.
Qed.

(** Without a configured provider, an accepted design system and a ceiling
    of at least 1 give a run that succeeds in its first attempt. *)
Lemma offline_run_succeeds e user_prompt max_retries history :
  clients (Main.generator e) = [] ->
  (1 <= max_retries)%Z ->
  tokens_ok (design_system (Main.generator e)) = true ->
  exists code_dict,
    Main.orchestrate_agentic_loop e user_prompt max_retries history
    = ([Main.Yield (Main.Attempt 1);
        Main.Yield (Main.Generating (Main.MSG_GENERATING 1 max_retries));
        Main.Yield (Main.Validating Main.MSG_VALIDATING);
        Main.Validated 1 (Ok ([], Some code_dict));
        Main.Yield (Main.Success Main.MSG_SUCCESS (Some code_dict))],
       Ok (Some code_dict)).
Proof.
  intros Hc Hr Hok. eexists.
  apply MainFacts.first_attempt_valid; [assumption|].
  rewrite (call_llm_offline _ _ _ Hc). unfold _mock_for_prompt.
  now apply validate_mock.
Qed.

(** C10, as stated, fails: with the primary color [```], which holds no
    brace and no parenthesis, the mock does not pass validation.  The fence
    removal of [validate] deletes the color from the dumped document, and
    the color check then misses it; no attempt of the run succeeds. *)
Lemma C10_fence_color_counterexample :
  let e := Samples.offline fence_color in
  no_brackets FENCE = true
  /\ (exists code_dict,
        validate fence_color (_mock_for_prompt (Main.generator e) Samples.hello)
        = Ok ([ERR_COLOR FENCE], code_dict))
  /\ (let evs := Main.events
                   (fst (Main.orchestrate_agentic_loop e Samples.hello 3 [])) in
      Main.count_if Main.is_attempt evs = 3
      /\ Main.count_if Samples.is_success evs = 0).
Proof.
  split; [reflexivity|]. split.
  - eexists. vm_compute. reflexivity.
  - vm_compute. split; reflexivity.
Qed.

(** C10 (amended): for every prompt and every design system whose
    configured recognized tokens are text (Unicode scalar values) that
    contains no brace, no parenthesis and no fence (three backticks in a
    row), the output of the mock passes validation with no error and with
    the mock as the document; hence a run without configured provider and
    with a ceiling of at least 1 yields [Success] in attempt 1. *)
Theorem C10_mock_passes_validation e user_prompt max_retries history :
  clients (Main.generator e) = [] ->
  (1 <= max_retries)%Z ->
  tokens_ok (design_system (Main.generator e)) = true ->
  (forall prompt,
      validate (design_system (Main.generator e))
        (_mock_for_prompt (Main.generator e) prompt)
      = Ok ([], Some (JDict (as_json
                 (mock (Main.generator e) (category_of (lower prompt))
                    (lower prompt))))))
  /\ exists code_dict,
      Main.orchestrate_agentic_loop e user_prompt max_retries history
      = ([Main.Yield (Main.Attempt 1);
          Main.Yield (Main.Generating (Main.MSG_GENERATING 1 max_retries));
          Main.Yield (Main.Validating Main.MSG_VALIDATING);
          Main.Validated 1 (Ok ([], Some code_dict));
          Main.Yield (Main.Success Main.MSG_SUCCESS (Some code_dict))],
         Ok (Some code_dict)).
Proof.
  intros Hc Hr Hok. split.
  - intros prompt. unfold _mock_for_prompt. now apply validate_mock.
  - now apply offline_run_succeeds.
Qed.

Lemma C10_mock_passes_validation_witness :
  let e := Samples.offline ValidatorSpec.tokens_111 in
  (forall prompt,
      validate (design_system (Main.generator e))
        (_mock_for_prompt (Main.generator e) prompt)
      = Ok ([], Some (JDict (as_json
                 (mock (Main.generator e) (category_of (lower prompt))
                    (lower prompt))))))
  /\ exists code_dict,
      Main.orchestrate_agentic_loop e Samples.hello 3 []
      = ([Main.Yield (Main.Attempt 1);
          Main.Yield (Main.Generating (Main.MSG_GENERATING 1 3));
          Main.Yield (Main.Validating Main.MSG_VALIDATING);
          Main.Validated 1 (Ok ([], Some code_dict));
          Main.Yield (Main.Success Main.MSG_SUCCESS (Some code_dict))],
         Ok (Some code_dict)).
Proof.
  apply (C10_mock_passes_validation
           (Samples.offline ValidatorSpec.tokens_111) Samples.hello 3 []).
  - reflexivity.
  - lia.
  - vm_compute. reflexivity.
Defined.

End MockFacts.

(* ------------------------------------------------------------------ *)
(** * Further properties *)

Module Extras.

Import Json JsonDumps Text Fences Tokens CodeValidator ValidatorSpec
  ValidatorFacts ComponentGenerator GeneratorFacts RoundTrip FenceFacts
  MockFacts Main Attempts MainFacts MoreSamples.

(** ** The attempt loop *)

(** X1: a run with a ceiling of at least 1 announces at most [max_retries]
    attempts and yields exactly one terminal event when the generator
    returns, none when it ends with an exception. *)
Theorem X1_run_bounded_with_one_terminal_event
    e user_prompt max_retries history :
  (1 <= max_retries)%Z ->
  let r := orchestrate_agentic_loop e user_prompt max_retries history in
  (count_if is_attempt (events (fst r)) <= Z.to_nat max_retries)%nat
  /\ count_if is_terminal (events (fst r))
     = match snd r with Ok _ => 1%nat | Raise _ => 0%nat end.
Proof.
  intros Hr r. destruct (orchestrate_shape e user_prompt max_retries history Hr)
    as (H1 & _ & H3).
  split; assumption.
Qed.

Lemma X1_run_bounded_witness :
  let r := orchestrate_agentic_loop
             (Samples.answering empty_design_system (py "{}"))
             Samples.hello 2 [] in
  (count_if is_attempt (events (fst r)) <= Z.to_nat 2)%nat
  /\ count_if is_terminal (events (fst r))
     = match snd r with Ok _ => 1%nat | Raise _ => 0%nat end.
Proof.
  apply (X1_run_bounded_with_one_terminal_event
           (Samples.answering empty_design_system (py "{}")) Samples.hello 2 []).
  lia.
Defined.

(** X2: when [validate] finds no error in the answer of [call_llm] to the
    first prompt, the run yields [Attempt 1], [Generating], [Validating] and
    [Success] with the decoded document, and nothing else; the generator
    returns the document. *)
Theorem X2_valid_first_answer_ends_run
    e user_prompt max_retries history code_dict :
  (1 <= max_retries)%Z ->
  validate (design_system (generator e))
    (call_llm (generator e) (world e 1%Z)
       (build_prompt (generator e) (full_prompt user_prompt history)))
  = Ok ([], code_dict) ->
  let r := orchestrate_agentic_loop e user_prompt max_retries history in
  events (fst r)
  = [Attempt 1; Generating (MSG_GENERATING 1 max_retries);
     Validating MSG_VALIDATING; Success MSG_SUCCESS code_dict]
  /\ snd r = Ok code_dict.
Proof.
  intros Hr Hv r. unfold r.
  rewrite (first_attempt_valid e user_prompt max_retries history code_dict Hr Hv).
  split; reflexivity.
Qed.

Lemma X2_valid_first_answer_witness :
  let e := Samples.answering tokens_111 scenario_C in
  let code_dict :=
    Some (JDict [(py "html", JStr (py "<div style='color:#111'>x</div>"));
                 (py "typescript", JStr (py "class C {}"));
                 (py "css", JStr [])]) in
  let r := orchestrate_agentic_loop e Samples.hello 3 [] in
  events (fst r)
  = [Attempt 1; Generating (MSG_GENERATING 1 3);
     Validating MSG_VALIDATING; Success MSG_SUCCESS code_dict]
  /\ snd r = Ok code_dict.
Proof.
  apply (X2_valid_first_answer_ends_run
           (Samples.answering tokens_111 scenario_C) Samples.hello 3 []).
  - lia.
  - vm_compute. reflexivity.
Defined.

(** ** [call_llm] *)

Lemma first_answer_agree world world' configured providers prompt :
  (forall p, existsb (Str.eqb p) configured = true ->
             world p prompt = world' p prompt) ->
  first_answer world configured providers prompt
  = first_answer world' configured providers prompt.
Proof.
  intros H. induction providers as [|p l IH]; [reflexivity|].
  cbn [first_answer]. destruct (existsb (Str.eqb p) configured) eqn:E;
    [|exact IH].
  rewrite (H p E). destruct (world' p prompt); [reflexivity|exact IH].
Qed.

Lemma first_answer_all_fail world configured providers prompt :
  (forall p, existsb (Str.eqb p) configured = true -> world p prompt = None) ->
  first_answer world configured providers prompt = None.
Proof.
  intros H. induction providers as [|p l IH]; [reflexivity|].
  cbn [first_answer]. destruct (existsb (Str.eqb p) configured) eqn:E;
    [|exact IH].
  now rewrite (H p E).
Qed.

(** X3: the preferred provider is asked first: when it is configured and
    answers, [call_llm] returns its answer, whatever the other providers
    would say. *)
Theorem X3_preferred_provider_answers_first self world prompt answer :
  existsb (Str.eqb (model_preference self)) (clients self) = true ->
  world (model_preference self) prompt = Some answer ->
  call_llm self world prompt = answer.
Proof.
  intros Hc Hw. unfold call_llm, ordered. cbn [first_answer].
  now rewrite Hc, Hw.
Qed.

Lemma X3_preferred_provider_witness :
  call_llm (generator (Samples.answering empty_design_system (py "{}")))
    (fun _ _ => Some (py "{}")) Samples.hello = py "{}".
Proof.
  apply (X3_preferred_provider_answers_first
           (generator (Samples.answering empty_design_system (py "{}")))
           (fun _ _ => Some (py "{}")) Samples.hello (py "{}")).
  - vm_compute. reflexivity.
  - reflexivity.
Defined.

(** X4: providers without client are never asked, and a provider whose call
    raises is passed over: the answer of [call_llm] only depends on what
    the configured providers do, and when the calls of all of them raise it
    is the mock for the prompt. *)
Theorem X4_fallback_walk self world world' prompt :
  (forall p, existsb (Str.eqb p) (clients self) = true ->
             world p prompt = world' p prompt) ->
  call_llm self world prompt = call_llm self world' prompt
  /\ ((forall p, existsb (Str.eqb p) (clients self) = true ->
                 world p prompt = None) ->
      call_llm self world prompt = _mock_for_prompt self prompt).
Proof.
  intros H. unfold call_llm. split.
  - now rewrite (first_answer_agree world world' _ _ _ H).
  - intros Hnone. now rewrite (first_answer_all_fail world _ _ _ Hnone).
Qed.

Lemma X4_fallback_walk_witness :
  let self := fst (groq_down (py "{}")) in
  let world := snd (groq_down (py "{}")) in
  let world' : provider_world :=
    fun provider prompt =>
      if Str.eqb provider (py "openai") then Some (py "[]")
      else world provider prompt in
  call_llm self world Samples.hello = call_llm self world' Samples.hello
  /\ ((forall p, existsb (Str.eqb p) (clients self) = true ->
                 world p Samples.hello = None) ->
      call_llm self world Samples.hello = _mock_for_prompt self Samples.hello).
Proof.
  intros self world world'.
  apply (X4_fallback_walk self world world' Samples.hello).
  intros p Hp. unfold world'.
  destruct (Str.eqb p (py "openai")) eqn:E; [|reflexivity].
  apply eqb_eq in E. subst p. vm_compute in Hp. discriminate.
Defined.

(** The answer of the second configured provider when the preferred one
    fails. *)
Example groq_down_gemini_answers :
  call_llm (fst (groq_down (py "{}"))) (snd (groq_down (py "{}"))) Samples.hello
  = py "{}".
Proof. vm_compute. reflexivity. Qed.

(** ** [validate] on documents of strings *)


Lemma validate_parsed_strings ds d html typescript css :
  required_errors d = [] ->
  dict_get (py "html") d = Some (JStr html) ->
  dict_get (py "typescript") d = Some (JStr typescript) ->
  dict_get (py "css") d = Some (JStr css) ->
  validate_parsed ds (JDict d)
  = Ok ((balance_errors (py "typescript") typescript
         ++ balance_errors (py "css") css)
        ++ match dict_get (py "primary-color") (tokens ds) with
           | None => []
           | Some color =>
             if Str.contains (Str.lower color) (Str.lower (html ++ css))
             then [] else [ERR_COLOR (Str.lower color)]
           end,
        Some (JDict d)).
Proof.
  intros Hreq Hh Ht Hc. unfold validate_parsed.
  rewrite check_required_dict. cbn [bind]. rewrite Hreq.
  rewrite (check_syntax_strings d typescript css Ht Hc). cbn [bind].
  rewrite (check_design_strings ds d html css Hh Hc). reflexivity.
Qed.

(** X5: for text that decodes to a document whose [html], [typescript] and
    [css] are strings, the first two not empty, [validate] returns the
    document with the errors in this order: braces and parentheses of
    [typescript], braces and parentheses of [css], then the primary color
    when one is configured and its lower-cased value does not occur in the
    lower-cased [html + css]. *)
Theorem X5_validate_on_string_documents ds raw_json d html typescript css :
  Json.loads (clean raw_json) = Some (JDict d) ->
  dict_get (py "html") d = Some (JStr html) ->
  dict_get (py "typescript") d = Some (JStr typescript) ->
  dict_get (py "css") d = Some (JStr css) ->
  html <> [] -> typescript <> [] ->
  validate ds raw_json
  = Ok ((balance_errors (py "typescript") typescript
         ++ balance_errors (py "css") css)
        ++ match dict_get (py "primary-color") (tokens ds) with
           | None => []
           | Some color =>
             if Str.contains (Str.lower color) (Str.lower (html ++ css))
             then [] else [ERR_COLOR (Str.lower color)]
           end,
        Some (JDict d)).
Proof.
  intros Hl Hh Ht Hc Hhne Htne.
  rewrite (validate_decoded ds raw_json (JDict d) Hl).
  apply validate_parsed_strings; try assumption.
  unfold required_errors, present_nonempty, present.
  rewrite Hh, Ht, Hc. cbn [truthy].
  destruct html; [contradiction|]. destruct typescript; [contradiction|].
  reflexivity.
Qed.

Lemma X5_validate_on_string_documents_witness :
  validate tokens_111 scenario_E
  = Ok ((balance_errors (py "typescript") (py "class C { ")
         ++ balance_errors (py "css") [])
        ++ match dict_get (py "primary-color") (tokens tokens_111) with
           | None => []
           | Some color =>
             if Str.contains (Str.lower color)
                  (Str.lower (py "<div style='color:#111'>x</div>" ++ []))
             then [] else [ERR_COLOR (Str.lower color)]
           end,
        Some (JDict [(py "html", JStr (py "<div style='color:#111'>x</div>"));
                     (py "typescript", JStr (py "class C { "));
                     (py "css", JStr [])])).
Proof.
  apply (X5_validate_on_string_documents tokens_111 scenario_E
           [(py "html", JStr (py "<div style='color:#111'>x</div>"));
            (py "typescript", JStr (py "class C { "));
            (py "css", JStr [])]
           (py "<div style='color:#111'>x</div>") (py "class C { ") []).
  - vm_compute. reflexivity.
  - vm_compute. reflexivity.
  - vm_compute. reflexivity.
  - vm_compute. reflexivity.
  - discriminate.
  - discriminate.
Defined.



(** ** Fenced answers *)

Lemma startswith_fence_newline x t :
  startswith FENCE (x ++ 10%N :: t) = startswith FENCE x.
Proof.
  change FENCE with [96%N; 96%N; 96%N].
  destruct x as [|a [|b [|c x]]]; cbn [app startswith];
    try destruct (96 =? a)%N; try destruct (96 =? b)%N;
    try destruct (96 =? c)%N; cbn [andb]; rewrite ?startswith_nil;
    reflexivity.
Qed.

(** No fence starts inside a text without fence that a line break
    follows. *)
Lemma fence_match_before_newline c x t n m :
  backticks n (c :: x) = Some m ->
  fence_match ((c :: x) ++ 10%N :: t) = None.
Proof.
  intros H. unfold fence_match.
  destruct (startswith (py "```json") ((c :: x) ++ 10%N :: t)) eqn:E1.
  { apply (startswith_prefix FENCE (py "json")) in E1.
    rewrite startswith_fence_newline in E1.
    rewrite (startswith_fence_backticks _ n E1) in H. discriminate. }
  destruct (startswith (10%N :: py "```") ((c :: x) ++ 10%N :: t)) eqn:E2.
  { cbn [app startswith] in E2. apply andb_true_iff in E2 as [Hc E2].
    apply N.eqb_eq in Hc. subst c.
    change (py "```") with FENCE in E2.
    rewrite startswith_fence_newline in E2.
    cbn [backticks] in H. change (10 =? 96)%N with false in H. cbv iota in H.
    rewrite (startswith_fence_backticks _ 0%nat E2) in H. discriminate. }
  destruct (startswith (py "```") ((c :: x) ++ 10%N :: t)) eqn:E3;
    [|reflexivity].
  change (py "```") with FENCE in E3. rewrite startswith_fence_newline in E3.
  rewrite (startswith_fence_backticks _ n E3) in H. discriminate.
Qed.

(** [re.sub] removes the closing fence with the line break before it and
    nothing else. *)
Lemma sub_fences_closing s : forall n m,
  backticks n s = Some m ->
  sub_fences 0 (s ++ 10%N :: FENCE) = s.
Proof.
  induction s as [|c s IH]; intros n m H; [vm_compute; reflexivity|].
  change ((c :: s) ++ 10%N :: FENCE) with (c :: (s ++ 10%N :: FENCE)).
  cbn [sub_fences].
  change (c :: (s ++ 10%N :: FENCE)) with ((c :: s) ++ 10%N :: FENCE).
  rewrite (fence_match_before_newline c s FENCE n m H). f_equal.
  cbn [backticks] in H. destruct (c =? 96)%N.
  - destruct n as [|[|n]]; [apply (IH 1%nat m H)|apply (IH 2%nat m H)|].
    discriminate.
  - apply (IH 0%nat m H).
Qed.

Lemma sub_fences_json_opening rest :
  sub_fences 0 (py "```json" ++ 10%N :: rest) = sub_fences 0 rest.
Proof. destruct rest; reflexivity. Qed.

Lemma sub_fences_plain_opening rest :
  sub_fences 0 (py "```" ++ 10%N :: rest) = sub_fences 0 (10%N :: rest).
Proof. reflexivity. Qed.

(** X7: an answer wrapped in a Markdown fence is validated as the text
    inside the fence, for every text that contains no fence itself, with
    the opener [```json] as with the bare opener. *)
Theorem X7_fenced_answer_is_unwrapped ds s :
  contains FENCE s = false ->
  validate ds (fenced s) = validate ds s
  /\ validate ds (py "```" ++ [10%N] ++ s ++ [10%N] ++ py "```")
     = validate ds s.
Proof.
  intros Hf. destruct (fence_free_readable s Hf) as [m Hm].
  assert (Hs : sub_fences 0 s = s) by apply (sub_fences_id s 0%nat m Hm).
  assert (H1 : clean (fenced s) = clean s).
  { unfold clean, fenced. cbn [app]. change (py "```") with FENCE.
    change (10%N :: s ++ 10%N :: FENCE) with ([10%N] ++ s ++ 10%N :: FENCE).
    cbn [app].
    rewrite (sub_fences_json_opening (s ++ 10%N :: FENCE)).
    now rewrite (sub_fences_closing s 0%nat m Hm), Hs. }
  assert (H2 : clean (py "```" ++ [10%N] ++ s ++ [10%N] ++ py "```") = clean s).
  { unfold clean. cbn [app]. change (py "```") with FENCE at 2.
    rewrite (sub_fences_plain_opening (s ++ 10%N :: FENCE)).
    change (10%N :: s ++ 10%N :: FENCE) with ((10%N :: s) ++ 10%N :: FENCE).
    rewrite (sub_fences_closing (10%N :: s) 0%nat m Hm), Hs. reflexivity. }
  unfold validate. now rewrite H1, H2.
Qed.

Lemma X7_fenced_answer_witness :
  validate tokens_111 (fenced scenario_C) = validate tokens_111 scenario_C
  /\ validate tokens_111
       (py "```" ++ [10%N] ++ scenario_C ++ [10%N] ++ py "```")
     = validate tokens_111 scenario_C.
Proof.
  apply (X7_fenced_answer_is_unwrapped tokens_111 scenario_C).
  vm_compute. reflexivity.
Defined.

(** ** The prompts of [orchestrate_agentic_loop] *)

Lemma contains_join sep x l :
  In x l -> contains x (join sep l) = true.
Proof.
  induction l as [|y l IH]; intros H; [destruct H|].
  destruct l as [|z l].
  - destruct H as [->|[]]. cbn [join].
    rewrite <- (app_nil_r x) at 2. apply contains_self_app.
  - change (join sep (y :: z :: l)) with (y ++ sep ++ join sep (z :: l)).
    destruct H as [->|H]; [apply contains_self_app|].
    apply contains_app_r, contains_app_r, IH, H.
Qed.

(** X8: the prompt of a retry lists every error of the failed validation
    on a line of its own text [- error], and names the configured primary
    color (#6366f1 when none is configured). *)
Theorem X8_corrective_prompt_lists_errors self errors e :
  In e errors ->
  contains (py "- " ++ e) (corrective_prompt self errors) = true
  /\ contains (token self "primary-color" (py "#6366f1"))
       (corrective_prompt self errors) = true.
Proof.
  intros H. unfold corrective_prompt. split.
  - apply contains_app_r, contains_app_l, contains_join.
    apply (in_map (fun e => py "- " ++ e) errors e H).
  - apply contains_app_r, contains_app_r, contains_app_r, contains_self_app.
Qed.

Lemma X8_corrective_prompt_witness :
  contains (py "- " ++ ERR_CSS)
    (corrective_prompt
       (generator (Samples.offline empty_design_system))
       [ERR_MISSING (py "html"); ERR_CSS]) = true
  /\ contains
       (token (generator (Samples.offline empty_design_system))
          "primary-color" (py "#6366f1"))
       (corrective_prompt
          (generator (Samples.offline empty_design_system))
          [ERR_MISSING (py "html"); ERR_CSS]) = true.
Proof.
  apply (X8_corrective_prompt_lists_errors
           (generator (Samples.offline empty_design_system))
           [ERR_MISSING (py "html"); ERR_CSS] ERR_CSS).
  cbn. tauto.
Defined.

(** X9: only the last three turns of the conversation history enter the
    prompt: older turns change nothing, and without history the prompt is
    the request itself. *)
Theorem X9_history_window user_prompt older a b c :
  full_prompt user_prompt (older ++ [a; b; c])
  = full_prompt user_prompt [a; b; c]
  /\ full_prompt user_prompt [] = user_prompt.
Proof.
  split; [|reflexivity].
  assert (Hl : last3 (older ++ [a; b; c]) = [a; b; c]).
  { unfold last3. rewrite length_app. cbn [List.length].
    replace (List.length older + 3 - 3)%nat with (List.length older + 0)%nat
      by lia.
    rewrite skipn_app, Nat.add_0_r, skipn_all.
    replace (List.length older - List.length older)%nat with 0%nat by lia.
    reflexivity. }
  unfold full_prompt. rewrite Hl.
  destruct older; reflexivity.
Qed.

(** ** [json.dumps] and [validate] *)

(** X10: what [json.dumps] writes for a mapping from text to text without
    fence is decoded back to that mapping by [validate]: nothing is removed
    by the fence pattern or by [strip], and the errors are those of the
    checks on the mapping. *)
Theorem X10_dumped_document_is_validated_as_is ds d :
  is_text_dict d = true ->
  is_fence_free_dict d = true ->
  NoDup (map fst d) ->
  Json.loads (clean (dumps d)) = Some (JDict (as_json d))
  /\ validate ds (dumps d) = validate_parsed ds (JDict (as_json d)).
Proof.
  intros Ht Hf Hn.
  assert (Hl : Json.loads (clean (dumps d)) = Some (JDict (as_json d))).
  { rewrite (clean_dumps d Hf), (loads_dumps_pairs d Ht).
    rewrite dict_of_pairs_nodup; [reflexivity|].
    unfold as_json. rewrite map_map. exact Hn. }
  split; [exact Hl|]. apply (validate_decoded ds (dumps d) _ Hl).
Qed.

Lemma X10_dumped_document_witness :
  Json.loads (clean (dumps [(py "html", py "<p>`x`</p>"); (py "css", [])]))
  = Some (JDict (as_json [(py "html", py "<p>`x`</p>"); (py "css", [])]))
  /\ validate empty_design_system
       (dumps [(py "html", py "<p>`x`</p>"); (py "css", [])])
     = validate_parsed empty_design_system
         (JDict (as_json [(py "html", py "<p>`x`</p>"); (py "css", [])])).
Proof.
  apply (X10_dumped_document_is_validated_as_is empty_design_system
           [(py "html", py "<p>`x`</p>"); (py "css", [])]).
  - vm_compute. reflexivity.
  - vm_compute. reflexivity.
  - repeat constructor; cbn; intros H;
      repeat (destruct H as [H|H]; [discriminate H|]); exact H.
Defined.

(** ** Attempt numbers and the last event *)

Lemma py_range_single a : py_range a (a + 1) = [a].
Proof.
  rewrite py_range_cons by lia. now rewrite py_range_nil by lia.
Qed.

(** The attempts a run over [a .. max_retries] announces are numbered
    [a], [a + 1], ... without gap. *)
Lemma attempt_loop_numbers e max_retries n :
  forall a current_prompt tr res,
    Z.of_nat n = (max_retries + 1 - a)%Z ->
    attempt_loop e max_retries (py_range a (max_retries + 1)) current_prompt
    = (tr, res) ->
    exists m, (m <= n)%nat /\ (n <> 0%nat -> m <> 0%nat)
      /\ filter is_attempt (events tr)
         = map Attempt (py_range a (a + Z.of_nat m)).
Proof.
  induction n as [|n IH]; intros a current_prompt tr res Hn Hrun.
  - rewrite py_range_nil in Hrun by lia. cbn in Hrun.
    injection Hrun as <- <-. exists 0%nat.
    rewrite py_range_nil by lia. repeat split; [lia|tauto].
  - rewrite py_range_cons in Hrun by lia. rewrite attempt_loop_cons in Hrun.
    cbv zeta in Hrun.
    set (outcome := CodeValidator.validate _ _) in Hrun.
    destruct outcome as [[[|err errors] code_dict]|x] eqn:Ho.
    + injection Hrun as <- <-. exists 1%nat.
      change (a + Z.of_nat 1)%Z with (a + 1)%Z. rewrite py_range_single.
      repeat split; [lia|lia].
    + destruct (Z.ltb_spec a max_retries) as [Hlt|Hge].
      * destruct (attempt_loop e max_retries
                    (py_range (a + 1) (max_retries + 1)) _)
          as [tr' res'] eqn:Hrec.
        injection Hrun as <- <-.
        assert (Hn' : Z.of_nat n = (max_retries + 1 - (a + 1))%Z) by lia.
        destruct (IH (a + 1)%Z _ tr' res' Hn' Hrec) as (m & Hm & _ & Hf).
        exists (S m). split; [lia|]. split; [lia|].
        rewrite (py_range_cons a) by lia.
        replace (a + Z.of_nat (S m))%Z with (a + 1 + Z.of_nat m)%Z by lia.
        cbn [app events filter is_attempt map]. rewrite Hf. reflexivity.
      * injection Hrun as <- <-. exists 1%nat.
        change (a + Z.of_nat 1)%Z with (a + 1)%Z. rewrite py_range_single.
        repeat split; [lia|lia].
    + injection Hrun as <- <-. exists 1%nat.
      change (a + Z.of_nat 1)%Z with (a + 1)%Z. rewrite py_range_single.
      repeat split; [lia|lia].
Qed.

(** X11: the attempts of a run are numbered 1, 2, ..., m without gap or
    repetition, for some m up to the ceiling; m is 0 exactly when the
    ceiling is below 1. *)
Theorem X11_attempts_numbered_consecutively
    e user_prompt max_retries history :
  let r := orchestrate_agentic_loop e user_prompt max_retries history in
  exists m,
    (m <= Z.to_nat max_retries)%nat
    /\ (m = 0%nat <-> (max_retries < 1)%Z)
    /\ filter is_attempt (events (fst r))
       = map Attempt (py_range 1 (1 + Z.of_nat m)).
Proof.
  intros r. unfold r, orchestrate_agentic_loop.
  destruct (Z.ltb_spec max_retries 1) as [Hlt|Hge].
  - exists 0%nat. rewrite !py_range_nil by lia.
    split; [lia|]. split; [|reflexivity]. split; [intros _; exact Hlt|reflexivity].
  - destruct (attempt_loop e max_retries (py_range 1 (max_retries + 1)) _)
      as [tr res] eqn:Hrun.
    assert (Hn : Z.of_nat (Z.to_nat max_retries) = (max_retries + 1 - 1)%Z)
      by lia.
    destruct (attempt_loop_numbers e max_retries (Z.to_nat max_retries)
                1%Z _ tr res Hn Hrun) as (m & Hm & Hpos & Hf).
    exists m. split; [exact Hm|]. split; [|exact Hf].
    split; [intros ->; exfalso; apply Hpos; [lia|reflexivity]|lia].
Qed.

(** When a run over [a .. max_retries] returns, its last event is the
    terminal event, and that event carries the document returned. *)
Lemma attempt_loop_last e max_retries n :
  forall a current_prompt tr code_dict,
    Z.of_nat (S n) = (max_retries + 1 - a)%Z ->
    attempt_loop e max_retries (py_range a (max_retries + 1)) current_prompt
    = (tr, Ok code_dict) ->
    exists before,
      forallb (fun ev => negb (is_terminal ev)) before = true
      /\ (events tr = before ++ [Success MSG_SUCCESS code_dict]
          \/ events tr = before ++ [MaxRetries MSG_MAX_RETRIES code_dict]).
Proof.
  induction n as [|n IH]; intros a current_prompt tr code_dict Hn Hrun;
    rewrite py_range_cons in Hrun by lia; rewrite attempt_loop_cons in Hrun;
    cbv zeta in Hrun;
    set (outcome := CodeValidator.validate _ _) in Hrun;
    destruct outcome as [[[|err errors] cd]|x] eqn:Ho;
    try discriminate Hrun.
  - injection Hrun as <- <-.
    exists [Attempt a; Generating (MSG_GENERATING a max_retries);
            Validating MSG_VALIDATING].
    split; [reflexivity|left; reflexivity].
  - destruct (Z.ltb_spec a max_retries) as [Hlt|Hge]; [lia|].
    injection Hrun as <- <-.
    exists [Attempt a; Generating (MSG_GENERATING a max_retries);
            Validating MSG_VALIDATING;
            Failed (MSG_FAILED (err :: errors)) (err :: errors)].
    split; [reflexivity|right; reflexivity].
  - injection Hrun as <- <-.
    exists [Attempt a; Generating (MSG_GENERATING a max_retries);
            Validating MSG_VALIDATING].
    split; [reflexivity|left; reflexivity].
  - destruct (Z.ltb_spec a max_retries) as [Hlt|Hge]; [|lia].
    destruct (attempt_loop e max_retries
                (py_range (a + 1) (max_retries + 1)) _)
      as [tr' res'] eqn:Hrec.
    injection Hrun as <- ->.
    assert (Hn' : Z.of_nat (S n) = (max_retries + 1 - (a + 1))%Z) by lia.
    destruct (IH (a + 1)%Z _ tr' code_dict Hn' Hrec) as (before & Hb & Hl).
    exists ([Attempt a; Generating (MSG_GENERATING a max_retries);
             Validating MSG_VALIDATING;
             Failed (MSG_FAILED (err :: errors)) (err :: errors);
             Correcting MSG_CORRECTING] ++ before).
    split; [cbn [app forallb is_terminal negb andb]; exact Hb|].
    cbn [app events].
    destruct Hl as [-> | ->]; [left|right]; reflexivity.
Qed.

(** X12: when a run with a ceiling of at least 1 returns a document, the
    last event it yields is [success] or [max_retries], the [data] of that
    event is the document returned, and no event before it is terminal. *)
Theorem X12_last_event_carries_the_result
    e user_prompt max_retries history code_dict :
  (1 <= max_retries)%Z ->
  let r := orchestrate_agentic_loop e user_prompt max_retries history in
  snd r = Ok code_dict ->
  exists before,
    forallb (fun ev => negb (is_terminal ev)) before = true
    /\ (events (fst r) = before ++ [Success MSG_SUCCESS code_dict]
        \/ events (fst r) = before ++ [MaxRetries MSG_MAX_RETRIES code_dict]).
Proof.
  intros Hr r Hres. unfold r in *. unfold orchestrate_agentic_loop in *.
  destruct (attempt_loop e max_retries (py_range 1 (max_retries + 1)) _)
    as [tr res] eqn:Hrun.
  cbn [fst snd] in *. subst res.
  assert (Hn : Z.of_nat (S (Z.to_nat max_retries - 1))
               = (max_retries + 1 - 1)%Z) by lia.
  exact (attempt_loop_last e max_retries (Z.to_nat max_retries - 1) 1%Z _
           tr code_dict Hn Hrun).
Qed.

Lemma X12_last_event_witness :
  let r := orchestrate_agentic_loop
             (Samples.answering_twice empty_design_system (py "{}")
                (py "not json"))
             Samples.hello 2 [] in
  exists before,
    forallb (fun ev => negb (is_terminal ev)) before = true
    /\ (events (fst r) = before ++ [Success MSG_SUCCESS None]
        \/ events (fst r) = before ++ [MaxRetries MSG_MAX_RETRIES None]).
Proof.
  apply (X12_last_event_carries_the_result
           (Samples.answering_twice empty_design_system (py "{}")
              (py "not json"))
           Samples.hello 2 [] None).
  - lia.
  - vm_compute. reflexivity.
Defined.

(** ** Keywords and case *)

Lemma startswith_split sub : forall s,
  startswith sub s = true -> exists b, s = sub ++ b.
Proof.
  induction sub as [|x sub IH]; intros s H; [now exists s|].
  destruct s as [|y s]; [discriminate|]. cbn [startswith] in H.
  apply andb_true_iff in H as [Hx H]. apply N.eqb_eq in Hx. subst y.
  destruct (IH s H) as [b ->]. now exists b.
Qed.

Lemma contains_split sub s :
  contains sub s = true -> exists a b, s = a ++ sub ++ b.
Proof.
  induction s as [|c s IH]; cbn [contains]; intros H.
  - rewrite orb_false_r in H. destruct (startswith_split sub [] H) as [b Hb].
    now exists [], b.
  - apply orb_true_iff in H as [H|H].
    + destruct (startswith_split sub (c :: s) H) as [b Hb]. now exists [], b.
    + destruct (IH H) as (a & b & ->). now exists (c :: a), b.
Qed.

Lemma register_first p :
  existsb (fun k => contains k p) REGISTER_KEYWORDS = true ->
  category_of p = Register.
Proof.
  intros H. unfold category_of, any_in.
  change [py "register"; py "signup"; py "sign up"; py "create account"]
    with REGISTER_KEYWORDS.
  now rewrite H.
Qed.

(** X13: a request that names one of the keywords [register], [signup],
    [sign up], [create account] (in lower case) is answered offline with the
    register form, whatever else the request and the design tokens say: the
    first branch of [_mock_for_prompt] wins. *)
Theorem X13_register_keyword_selects_register self world user_prompt k :
  clients self = [] ->
  In k REGISTER_KEYWORDS ->
  contains k user_prompt = true ->
  let prompt := build_prompt self user_prompt in
  call_llm self world prompt
  = JsonDumps.dumps (mock self Register (lower prompt)).
Proof.
  intros Hc Hk Hin prompt.
  rewrite (call_llm_offline self world prompt Hc). unfold _mock_for_prompt.
  cbv zeta. rewrite register_first; [reflexivity|].
  apply existsb_exists. exists k. split; [exact Hk|].
  destruct (contains_split k user_prompt Hin) as (a & b & Hs).
  unfold prompt, build_prompt. rewrite Hs.
  rewrite !app_assoc. rewrite <- (app_assoc _ k b).
  apply lower_contains_literal.
  - cbn in Hk. destruct Hk as [<-|[<-|[<-|[<-|[]]]]]; vm_compute; reflexivity.
  - cbn in Hk. destruct Hk as [<-|[<-|[<-|[<-|[]]]]]; vm_compute; reflexivity.
Qed.

Lemma X13_register_keyword_witness :
  let self := generator (Samples.offline empty_design_system) in
  let prompt := build_prompt self (py "a navbar with a sign up button") in
  call_llm self (fun _ _ => None) prompt
  = JsonDumps.dumps (mock self Register (lower prompt)).
Proof.
  apply (X13_register_keyword_selects_register
           (generator (Samples.offline empty_design_system))
           (fun _ _ => None) (py "a navbar with a sign up button")
           (py "sign up")).
  - reflexivity.
  - right; right; left; reflexivity.
  - vm_compute. reflexivity.
Defined.

Lemma to_lower_full_ascii c :
  (c <? 128)%N = true -> to_lower_full c = [ascii_lower c].
Proof.
  intros H. apply N.ltb_lt in H.
  assert (Hall : forallb (fun n => Str.eqb (to_lower_full (N.of_nat n))
                                     [ascii_lower (N.of_nat n)])
                   (seq 0 128) = true) by (vm_compute; reflexivity).
  rewrite forallb_forall in Hall.
  specialize (Hall (N.to_nat c)). rewrite N2Nat.id in Hall.
  apply eqb_eq, Hall, in_seq. lia.
Qed.

Lemma lower_ascii s : is_ascii s = true -> lower s = map ascii_lower s.
Proof.
  unfold lower. generalize (@nil N) as before.
  induction s as [|c s IH]; intros before H; [reflexivity|].
  cbn [is_ascii forallb] in H. apply andb_true_iff in H as [Hc H].
  cbn [lower_from map].
  assert (Hs : (c =? 931)%N = false).
  { apply N.eqb_neq. apply N.ltb_lt in Hc. lia. }
  rewrite Hs, (to_lower_full_ascii c Hc), (IH (c :: before) H). reflexivity.
Qed.

Lemma is_ascii_app a b :
  is_ascii a = true -> is_ascii b = true -> is_ascii (a ++ b) = true.
Proof. unfold is_ascii. intros Ha Hb. now rewrite forallb_app, Ha, Hb. Qed.

(** X14: on ASCII text the color check ignores the case of the letters A to
    Z and of nothing else: for a document whose [html] and [css] are ASCII
    strings and an ASCII primary color, [_check_design_compliance] reports
    the color exactly when the color with A-Z replaced by a-z does not occur
    in [html + css] with A-Z replaced by a-z. *)
Theorem X14_color_check_ignores_ascii_case ds d html css color :
  dict_get (py "html") d = Some (JStr html) ->
  dict_get (py "css") d = Some (JStr css) ->
  dict_get (py "primary-color") (tokens ds) = Some color ->
  is_ascii html = true -> is_ascii css = true -> is_ascii color = true ->
  _check_design_compliance ds (JDict d)
  = Ok (if contains (map ascii_lower color) (map ascii_lower (html ++ css))
        then [] else [ERR_COLOR (map ascii_lower color)]).
Proof.
  intros Hh Hc Hcol Ah Ac Acol.
  rewrite (check_design_strings ds d html css Hh Hc), Hcol.
  rewrite (lower_ascii color Acol).
  rewrite (lower_ascii (html ++ css) (is_ascii_app html css Ah Ac)).
  reflexivity.
Qed.

Lemma X14_color_check_witness :
  _check_design_compliance
    {| tokens := [(py "primary-color", py "#6366F1")] |}
    (JDict [(py "html", JStr (py "<b style='color:#6366f1'>x</b>"));
            (py "css", JStr [])])
  = Ok (if contains (map ascii_lower (py "#6366F1"))
             (map ascii_lower (py "<b style='color:#6366f1'>x</b>" ++ []))
        then [] else [ERR_COLOR (map ascii_lower (py "#6366F1"))]).
Proof.
  apply (X14_color_check_ignores_ascii_case
           {| tokens := [(py "primary-color", py "#6366F1")] |}
           [(py "html", JStr (py "<b style='color:#6366f1'>x</b>"));
            (py "css", JStr [])]
           (py "<b style='color:#6366f1'>x</b>") [] (py "#6366F1"));
    vm_compute; reflexivity.
Defined.

End Extras.
